(** * smart-llm-agents: the orchestration core, embedded and verified

    A shallow embedding of the agent loop ([llm_agents/agent.py],
    [llm_agents/advanced_agent.py]), the tool manager
    ([llm_agents/tools/enhanced_tool_manager.py]) and the retrying tool
    ([llm_agents/tools/advanced_tool.py]), with the language model of
    [llm_agents/llm.py] and the search tools of [llm_agents/tools/search.py]
    and [llm_agents/tools/searx.py].

    Conventions.
    - A Python [str] is a [string]; its characters are read as code points
      0..255.
    - A Python [int] is a [Z]; a Python [float] is a binary64 [float].
    - A [datetime] is its number of microseconds since the epoch.
    - A [dict] whose iteration order is observed is an insertion-ordered
      association list ([PyDict]); the other dicts are [gmap]s.
    - Code that can raise returns a [result]; code that mutates objects or
      calls collaborators (tools, the language model, the clock) threads a
      state through the monad [M].  Only exceptions deriving from
      [Exception] are modelled.
    - [await f(x)] is the call [f(x)]: one task runs at a time, so a
      coroutine is the computation it performs. *)

From stdpp Require Import gmap strings list sorting pretty.
From Stdlib Require Import Ascii ZArith Floats Uint63.

Open Scope Z_scope.

(** ** Python built-ins used by the program *)

Module PyStr.

(** [str.isspace] on one character (code points below 256). *)
Definition is_space (c : ascii) : bool :=
  let n := nat_of_ascii c in
  ((9 <=? n) && (n <=? 13))%nat || ((28 <=? n) && (n <=? 32))%nat
  || (n =? 133)%nat || (n =? 160)%nat.

(** [needle in s] *)
Fixpoint contains (needle s : string) : bool :=
  if String.prefix needle s then true
  else match s with
       | EmptyString => false
       | String _ s' => contains needle s'
       end.

Fixpoint drop (n : nat) (s : string) : string :=
  match n, s with
  | S n', String _ s' => drop n' s'
  | _, _ => s
  end.

(** [s.partition(sep)], [None] when [sep] does not occur. *)
Fixpoint partition (sep s : string) : option (string * string) :=
  if String.prefix sep s then Some (EmptyString, drop (String.length sep) s)
  else match s with
       | EmptyString => None
       | String c s' =>
           match partition sep s' with
           | Some (b, a) => Some (String c b, a)
           | None => None
           end
       end.

Fixpoint split_fuel (fuel : nat) (sep s : string) : list string :=
  match fuel with
  | O => [s]
  | S fuel' =>
      match partition sep s with
      | None => [s]
      | Some (b, a) => b :: split_fuel fuel' sep a
      end
  end.

(** [s.split(sep)] for a non-empty [sep] (every separator of the program
    is a non-empty constant): the pieces between the occurrences of [sep]
    found from left to right. *)
Definition split (sep s : string) : list string :=
  split_fuel (String.length s) sep s.

(** [l[-1]] on a list of strings that is never empty. *)
Definition last_piece (l : list string) : string := List.last l EmptyString.

Fixpoint lstrip_by (p : ascii -> bool) (s : string) : string :=
  match s with
  | EmptyString => EmptyString
  | String c s' => if p c then lstrip_by p s' else s
  end.

Fixpoint rstrip_by (p : ascii -> bool) (s : string) : string :=
  match s with
  | EmptyString => EmptyString
  | String c s' =>
      match rstrip_by p s' with
      | EmptyString => if p c then EmptyString else String c EmptyString
      | r => String c r
      end
  end.

Definition strip_by (p : ascii -> bool) (s : string) : string :=
  rstrip_by p (lstrip_by p s).

(** [s.strip()] *)
Definition strip (s : string) : string := strip_by is_space s.

Fixpoint char_in (c : ascii) (chars : string) : bool :=
  match chars with
  | EmptyString => false
  | String c' chars' => Ascii.eqb c c' || char_in c chars'
  end.

(** [s.strip(chars)] *)
Definition strip_chars (chars : string) (s : string) : string :=
  strip_by (fun c => char_in c chars) s.

(** [str.lower] on one character: A-Z and the upper-case letters of
    Latin-1. *)
Definition lower_char (c : ascii) : ascii :=
  let n := nat_of_ascii c in
  if ((65 <=? n) && (n <=? 90))%nat
     || ((192 <=? n) && (n <=? 222) && negb (n =? 215))%nat
  then ascii_of_nat (n + 32) else c.

Fixpoint lower (s : string) : string :=
  match s with
  | EmptyString => EmptyString
  | String c s' => String (lower_char c) (lower s')
  end.

(** [sep.join(l)] *)
Definition join (sep : string) (l : list string) : string :=
  String.concat sep l.

End PyStr.

(** An insertion-ordered dictionary with string keys, as Python's [dict]:
    assigning to a present key keeps its position, a new key goes last. *)
Module PyDict.
Section Dict.
Context {V : Type}.

Definition t := list (string * V).

Definition keys (d : t) : list string := d.*1.

Fixpoint get (k : string) (d : t) : option V :=
  match d with
  | [] => None
  | (k', v) :: d' => if String.eqb k k' then Some v else get k d'
  end.

(** [k in d] *)
Definition mem (k : string) (d : t) : bool :=
  match get k d with Some _ => true | None => false end.

(** [d[k] = v] *)
Fixpoint set (k : string) (v : V) (d : t) : t :=
  match d with
  | [] => [(k, v)]
  | (k', v') :: d' =>
      if String.eqb k k' then (k', v) :: d' else (k', v') :: set k v d'
  end.

(** [del d[k]] on a present key *)
Fixpoint del (k : string) (d : t) : t :=
  match d with
  | [] => []
  | (k', v') :: d' =>
      if String.eqb k k' then d' else (k', v') :: del k d'
  end.
End Dict.
Arguments t : clear implicits.
End PyDict.

(** ** Exceptions and the state-and-exception monad *)

(** An exception: its class name and [str(e)]. *)
Inductive exn := Exn (cls : string) (msg : string).

Definition exn_class (e : exn) : string := let (c, _) := e in c.
(** [str(e)] *)
Definition exn_str (e : exn) : string := let (_, m) := e in m.

Definition ValueError (msg : string) : exn := Exn "ValueError" msg.
Definition Exception (msg : string) : exn := Exn "Exception" msg.
Definition AttributeError (msg : string) : exn := Exn "AttributeError" msg.
Definition ZeroDivisionError (msg : string) : exn := Exn "ZeroDivisionError" msg.
Definition StopIteration : exn := Exn "StopIteration" "".
(** [asyncio.TimeoutError] *)
Definition TimeoutError : exn := Exn "TimeoutError" "".
(** [KeyError(k)]; [str] of it is [repr(k)], written here for a key without
    quotes or escapes. *)
Definition KeyError (k : string) : exn := Exn "KeyError" ("'" +:+ k +:+ "'").

Inductive result (A : Type) :=
| Ok (a : A)
| Raise (e : exn).
Arguments Ok {A} a.
Arguments Raise {A} e.

Definition M (S A : Type) : Type := S -> result A * S.

Definition ret {S A} (a : A) : M S A := fun s => (Ok a, s).
Definition raise {S A} (e : exn) : M S A := fun s => (Raise e, s).
Definition bind {S A B} (m : M S A) (f : A -> M S B) : M S B :=
  fun s => match m s with
           | (Ok a, s') => f a s'
           | (Raise e, s') => (Raise e, s')
           end.
Definition modify {S} (f : S -> S) : M S unit := fun s => (Ok tt, f s).
(** [try: m except Exception as e: h e] *)
Definition try_except {S A} (m : M S A) (h : exn -> M S A) : M S A :=
  fun s => match m s with
           | (Ok a, s') => (Ok a, s')
           | (Raise e, s') => h e s'
           end.
(** [try: m finally: f] *)
Definition try_finally {S A} (m : M S A) (f : M S unit) : M S A :=
  fun s => match m s with
           | (r, s') => match f s' with
                        | (Ok _, s'') => (r, s'')
                        | (Raise e, s'') => (Raise e, s'')
                        end
           end.
(** A computation on the second component of the state. *)
Definition on_snd {S1 S2 A} (m : M S2 A) : M (S1 * S2) A :=
  fun s => let (r, s2) := m s.2 in (r, (s.1, s2)).
(** A function that never raises, as a computation. *)
Definition total {S A} (f : S -> A * S) : M S A :=
  fun s => let (a, s') := f s in (Ok a, s').

Declare Scope py_scope.
Delimit Scope py_scope with py.
Notation "x <- m ;; k" := (bind m (fun x => k))
  (at level 100, m at next level, right associativity) : py_scope.
Notation "m ;;; k" := (bind m (fun _ => k))
  (at level 100, right associativity) : py_scope.

(** ** Numbers and time *)

(** [str(z)] *)
Definition str_int (z : Z) : string := pretty z.

(** [str(x)] for an optional string: [None] prints as None. *)
Definition str_optional (x : option string) : string :=
  match x with Some s => s | None => "None" end.

(** [float(z)]: the binary64 nearest to [z], ties to even.  Where Python
    raises [OverflowError], for an [int] too large for a float (from about
    2^1024 on), the value here is infinity; no counter and no difference
    of clock readings of this program comes near. *)
Definition float_of_int (z : Z) : float :=
  SF2Prim (SpecFloat.binary_normalize FloatOps.prec FloatOps.emax z 0 false).

(** Microseconds since the epoch. *)
Definition datetime := Z.

(** [(t2 - t1).total_seconds()] *)
Definition total_seconds (t2 t1 : datetime) : float :=
  PrimFloat.div (float_of_int (t2 - t1)) (float_of_int 1000000).

(** The values an [Any]-typed metadata slot holds in this program. *)
Inductive pyvalue :=
| VStr (s : string)
| VFloat (f : float).

(** ** llm_agents/agent.py: Memory *)

Module Memory.

(** A short-term entry: a dict with the keys thought, action, result,
    timestamp. *)
Record st_entry := {
  thought : string;
  action : string;
  result_ : string;
  timestamp : datetime
}.

(** A long-term entry: a dict with the keys key, value, timestamp. *)
Record lt_entry := {
  key : string;
  value : string;
  lt_timestamp : datetime
}.

Record t := {
  short_term : list st_entry;
  long_term : list lt_entry;
  max_short_term : Z;
  max_long_term : Z
}.

(** [Memory()] *)
Definition new : t :=
  {| short_term := []; long_term := [];
     max_short_term := 10; max_long_term := 100 |}.

(** [now] is the value [datetime.datetime.now()] returns in the call. *)
Definition add_short_term (self : t) (thought action result : string)
    (now : datetime) : t :=
  let st := short_term self ++
            [{| thought := thought; action := action; result_ := result;
                timestamp := now |}] in
  let st := if Z.of_nat (length st) >? max_short_term self
            then tail st else st in
  {| short_term := st; long_term := long_term self;
     max_short_term := max_short_term self;
     max_long_term := max_long_term self |}.

Definition add_long_term (self : t) (key value : string) (now : datetime)
    : t :=
  let lt := long_term self ++
            [{| key := key; value := value; lt_timestamp := now |}] in
  let lt := if Z.of_nat (length lt) >? max_long_term self
            then tail lt else lt in
  {| short_term := short_term self; long_term := lt;
     max_short_term := max_short_term self;
     max_long_term := max_long_term self |}.

Definition get_relevant_memory (self : t) (query : string)
    : list lt_entry :=
  filter (fun item => PyStr.contains (PyStr.lower query)
                        (PyStr.lower (value item)) = true)
         (long_term self).

End Memory.

(** ** Python list operations *)

(** [a] occurs in [l] at an earlier position than an occurrence of [b]. *)
Definition before {A : Type} (l : list A) (a b : A) : Prop :=
  exists l1 l2, l = l1 ++ a :: l2 /\ b ∈ l2.

Module PyList.
Section Ops.
Context {A : Type}.

(** [l[:k]]: a negative [k] counts from the end. *)
Definition slice_to (k : Z) (l : list A) : list A :=
  if k <? 0 then take (Z.to_nat (Z.of_nat (length l) + k)) l
  else take (Z.to_nat k) l.

Context {K : Type}.
(** [lt a b] is Python's [a < b] on sort keys. *)
Variable lt : K -> K -> bool.
Variable key : A -> K.

(** Insertion of [x] in front of a list sorted in descending key order:
    [x] passes the elements whose key is strictly greater and stops at
    the first other one, so it stays before its equals. *)
Fixpoint insert_desc (x : A) (l : list A) : list A :=
  match l with
  | [] => [x]
  | y :: l' => if lt (key x) (key y) then y :: insert_desc x l'
               else x :: y :: l'
  end.

(** [a] may stand before [b] in the sorted copy of [l]: its key is not
    smaller, and on equal rank it stood before [b] in [l]. *)
Definition ranked_before (l : list A) (a b : A) : Prop :=
  lt (key a) (key b) = false
  /\ (lt (key b) (key a) = false -> before l a b).

(** [sorted(l, key=key, reverse=True)]: descending keys, elements with
    equal keys in their original order (the sort is stable, also with
    [reverse]). *)
Definition sorted_reverse (l : list A) : list A :=
  foldr insert_desc [] l.
End Ops.

Section Window.
Context {A : Type}.

(** [l.append(x)], then [l.pop(0)] when the length exceeds [cap]: what both
    [add_short_term] methods do to the short-term list. *)
Definition fifo_push (cap : Z) (l : list A) (x : A) : list A :=
  let l' := l ++ [x] in
  if Z.of_nat (length l') >? cap then tail l' else l'.

(** The last [cap] elements of [all]. *)
Definition window (cap : Z) (all : list A) : list A :=
  drop (length all - Z.to_nat cap) all.
End Window.

(** The list a comprehension builds when every element evaluates. *)
Fixpoint mapM {A B : Type} (f : A -> result B) (l : list A)
    : result (list B) :=
  match l with
  | [] => Ok []
  | x :: l' =>
      match f x with
      | Raise e => Raise e
      | Ok y => match mapM f l' with
                | Raise e => Raise e
                | Ok ys => Ok (y :: ys)
                end
      end
  end.
End PyList.

(** ** Regular expressions: the fragment of [re] the program uses

    A pattern is a sequence of items over single characters and character
    classes; matching is by backtracking in Python's order (a greedy
    quantifier tries the longest repetition first, a lazy one the shortest),
    so the groups captured are the ones [re] reports. *)

Module PyRe.

Inductive item :=
| Lit (c : ascii)                  (* one literal character *)
| Opt (cls : ascii -> bool)        (* [cls]?   greedy *)
| Star (cls : ascii -> bool)       (* [cls]*   greedy *)
| LazyStar (cls : ascii -> bool)   (* [cls]*?  lazy *)
| GroupOpen                        (* (  *)
| GroupClose.                      (* )  *)

Definition pattern := list item.

Fixpoint lits (s : string) : pattern :=
  match s with
  | EmptyString => []
  | String c s' => Lit c :: lits s'
  end.

(** The groups closed so far, and the text of the group being read. *)
Record captures := {
  groups : list string;
  current : option string
}.

Definition no_captures : captures := {| groups := []; current := None |}.

Definition push (c : ascii) (st : captures) : captures :=
  match current st with
  | Some g => {| groups := groups st;
                 current := Some (g +:+ String c EmptyString) |}
  | None => st
  end.

Definition open_group (st : captures) : captures :=
  {| groups := groups st; current := Some EmptyString |}.

Definition close_group (st : captures) : captures :=
  match current st with
  | Some g => {| groups := groups st ++ [g]; current := None |}
  | None => st
  end.

(** [rmatch p s st]: match [p] at the start of [s]; the groups of the
    first match found in backtracking order. *)
Fixpoint rmatch (p : pattern) : string -> captures -> option (list string) :=
  match p with
  | [] => fun _ st => Some (groups st)
  | Lit c :: r =>
      fun s st =>
        match s with
        | String x s' => if Ascii.eqb x c then rmatch r s' (push x st)
                         else None
        | EmptyString => None
        end
  | Opt cls :: r =>
      fun s st =>
        match s with
        | String x s' =>
            if cls x then
              match rmatch r s' (push x st) with
              | Some g => Some g
              | None => rmatch r s st
              end
            else rmatch r s st
        | EmptyString => rmatch r s st
        end
  | Star cls :: r =>
      fix star (s : string) (st : captures) : option (list string) :=
        match s with
        | String x s' =>
            if cls x then
              match star s' (push x st) with
              | Some g => Some g
              | None => rmatch r s st
              end
            else rmatch r s st
        | EmptyString => rmatch r s st
        end
  | LazyStar cls :: r =>
      fix star (s : string) (st : captures) : option (list string) :=
        match rmatch r s st with
        | Some g => Some g
        | None =>
            match s with
            | String x s' => if cls x then star s' (push x st) else None
            | EmptyString => None
            end
        end
  | GroupOpen :: r => fun s st => rmatch r s (open_group st)
  | GroupClose :: r => fun s st => rmatch r s (close_group st)
  end.

(** [re.search(p, s)]: the match at the leftmost position that has one. *)
Fixpoint search (p : pattern) (s : string) : option (list string) :=
  match rmatch p s no_captures with
  | Some g => Some g
  | None =>
      match s with
      | EmptyString => None
      | String _ s' => search p s'
      end
  end.

(** [match.group(n)], [n >= 1] *)
Definition group (n : nat) (m : list string) : string :=
  nth (n - 1) m EmptyString.

(** [.] under [re.DOTALL] *)
Definition any_char (_ : ascii) : bool := true.
Definition is_char (c : ascii) (x : ascii) : bool := Ascii.eqb x c.

(** Every character of [s] is in the class. *)
Fixpoint all_chars (cls : ascii -> bool) (s : string) : bool :=
  match s with
  | EmptyString => true
  | String c s' => cls c && all_chars cls s'
  end.

(** The strings a pattern matches a prefix of, read off the pattern with no
    reference to the order of backtracking. *)
Fixpoint lang (p : pattern) (s : string) : Prop :=
  match p with
  | [] => True
  | Lit c :: r => exists s', s = String c s' /\ lang r s'
  | Opt cls :: r =>
      lang r s \/ exists x s', s = String x s' /\ cls x = true /\ lang r s'
  | Star cls :: r | LazyStar cls :: r =>
      exists a b, s = a +:+ b /\ all_chars cls a = true /\ lang r b
  | GroupOpen :: r | GroupClose :: r => lang r s
  end.

(** The captures after the characters of [s] have been read. *)
Fixpoint pushes (s : string) (st : captures) : captures :=
  match s with
  | EmptyString => st
  | String c s' => pushes s' (push c st)
  end.

(** The string does not begin with a character of the class. *)
Definition stops (cls : ascii -> bool) (t : string) : Prop :=
  match t with String x _ => cls x = false | EmptyString => True end.

End PyRe.

(** ** llm_agents/advanced_agent.py: AgentMemory *)

Module AgentMemory.

Record st_entry := {
  thought : string;
  action : string;
  result_ : string;
  timestamp : datetime;
  metadata : gmap string pyvalue
}.

Record lt_entry := {
  key : string;
  value : string;
  lt_timestamp : datetime;
  lt_metadata : gmap string pyvalue
}.

Record t {embedding : Type} := {
  short_term : list st_entry;
  long_term : list lt_entry;
  embeddings : PyDict.t embedding;
  max_short_term : Z;
  max_long_term : Z
}.
Arguments t : clear implicits.

Section WithModel.
Context {embedding score : Type}.
(** [embedding_model.encode] *)
Variable encode : string -> embedding.
(** [cosine_similarity([a], [b])[0][0]] *)
Variable cosine_similarity : embedding -> embedding -> score.
(** [<] on similarity values *)
Variable score_lt : score -> score -> bool.

(** [AgentMemory()] *)
Definition new : t embedding :=
  {| short_term := []; long_term := []; embeddings := [];
     max_short_term := 20; max_long_term := 1000 |}.

Definition add_short_term (self : t embedding)
    (thought action result : string)
    (metadata : option (gmap string pyvalue)) (now : datetime)
    : t embedding :=
  let memory_entry :=
    {| thought := thought; action := action; result_ := result;
       timestamp := now; metadata := default ∅ metadata |} in
  let st := short_term self ++ [memory_entry] in
  let st := if Z.of_nat (length st) >? max_short_term self
            then tail st else st in
  {| short_term := st; long_term := long_term self;
     embeddings := embeddings self;
     max_short_term := max_short_term self;
     max_long_term := max_long_term self |}.

Definition add_long_term (self : t embedding) (key value : string)
    (metadata : option (gmap string pyvalue)) (now : datetime)
    : t embedding :=
  let memory_entry :=
    {| key := key; value := value; lt_timestamp := now;
       lt_metadata := default ∅ metadata |} in
  let lt := long_term self ++ [memory_entry] in
  let emb := PyDict.set key (encode value) (embeddings self) in
  if Z.of_nat (length lt) >? max_long_term self then
    match lt with
    | oldest_entry :: rest =>
        let emb := if PyDict.mem (AgentMemory.key oldest_entry) emb
                   then PyDict.del (AgentMemory.key oldest_entry) emb
                   else emb in
        {| short_term := short_term self; long_term := rest;
           embeddings := emb;
           max_short_term := max_short_term self;
           max_long_term := max_long_term self |}
    | [] =>
        {| short_term := short_term self; long_term := lt;
           embeddings := emb;
           max_short_term := max_short_term self;
           max_long_term := max_long_term self |}
    end
  else
    {| short_term := short_term self; long_term := lt;
       embeddings := emb;
       max_short_term := max_short_term self;
       max_long_term := max_long_term self |}.

(** [next(item for item in self.long_term if item["key"] == key)] *)
Definition first_with_key (self : t embedding) (k : string)
    : result lt_entry :=
  match List.find (fun item => String.eqb (key item) k) (long_term self) with
  | Some item => Ok item
  | None => Raise StopIteration
  end.

(** The similarity [get_relevant_memory] computes for the embedding
    stored under [k]. *)
Definition similarity_of (self : t embedding) (query k : string)
    : option score :=
  cosine_similarity (encode query) <$> PyDict.get k (embeddings self).

Definition get_relevant_memory (self : t embedding) (query : string)
    (top_k : Z) : result (list lt_entry) :=
  let query_embedding := encode query in
  let similarities :=
    foldl (fun sims '(k, e) =>
             PyDict.set k (cosine_similarity query_embedding e) sims)
          [] (embeddings self) in
  let sorted_keys :=
    PyList.slice_to top_k
      (PyList.sorted_reverse score_lt snd similarities) in
  PyList.mapM (fun '(k, _) => first_with_key self k) sorted_keys.
End WithModel.

End AgentMemory.

(** ** The world outside the program

    The state of everything the program calls but does not define (tools,
    the language model, the clock, the console) is a value of an abstract
    type [W]; calling a collaborator is a computation on it. *)

Class Env (W : Type) := {
  (** [datetime.datetime.now()] *)
  datetime_now : W -> datetime * W;
  (** [str(datetime.date.today())] *)
  date_today : W -> string * W;
  (** [await asyncio.sleep(seconds)] *)
  asyncio_sleep : Z -> W -> W;
  (** [print(text)] *)
  print : string -> W -> W;
  (** [template.format] with keyword arguments: the text, or the exception
      [str.format] raises on a field that is not among the keywords or on a
      stray brace. *)
  str_format : string -> list (string * string) -> result string
}.

(** ** llm_agents/tools/base.py *)

Module ToolInterface.
Record t {W : Type} := {
  name : string;
  description : string;
  (** [await tool.use(input_text)] *)
  use : string -> M W string
}.
Arguments t : clear implicits.
End ToolInterface.

(** [next((t for t in tools if t.name == tool_name), None)] *)
Definition find_tool {W} (tools : list (ToolInterface.t W))
    (tool_name : string) : option (ToolInterface.t W) :=
  List.find (fun t => String.eqb (ToolInterface.name t) tool_name) tools.

(** ** llm_agents/tools/enhanced_tool_manager.py *)

Module ToolStats.
Record t := {
  usage_count : Z;
  success_count : Z;
  error_count : Z;
  last_used : option datetime;
  average_response_time : float
}.

(** [ToolStats()] *)
Definition new : t :=
  {| usage_count := 0; success_count := 0; error_count := 0;
     last_used := None; average_response_time := 0%float |}.

Definition incr_usage (st : t) : t :=
  {| usage_count := usage_count st + 1; success_count := success_count st;
     error_count := error_count st; last_used := last_used st;
     average_response_time := average_response_time st |}.

Definition incr_success (st : t) : t :=
  {| usage_count := usage_count st; success_count := success_count st + 1;
     error_count := error_count st; last_used := last_used st;
     average_response_time := average_response_time st |}.

Definition incr_error (st : t) : t :=
  {| usage_count := usage_count st; success_count := success_count st;
     error_count := error_count st + 1; last_used := last_used st;
     average_response_time := average_response_time st |}.

Definition set_last_used (now : datetime) (st : t) : t :=
  {| usage_count := usage_count st; success_count := success_count st;
     error_count := error_count st; last_used := Some now;
     average_response_time := average_response_time st |}.

Definition set_average (avg : float) (st : t) : t :=
  {| usage_count := usage_count st; success_count := success_count st;
     error_count := error_count st; last_used := last_used st;
     average_response_time := avg |}.

(** [(avg * (usage_count - 1) + response_time) / usage_count] *)
Definition running_mean (avg : float) (usage_count : Z)
    (response_time : float) : float :=
  PrimFloat.div
    (PrimFloat.add (PrimFloat.mul avg (float_of_int (usage_count - 1)))
                   response_time)
    (float_of_int usage_count).
End ToolStats.

Module EnhancedToolManager.
Record t {W : Type} := {
  tools : list (ToolInterface.t W);
  tool_stats : gmap string ToolStats.t;
  tool_chains : gmap string (list string)
}.
Arguments t : clear implicits.

Section WithWorld.
Context {W : Type} `{Env W}.

(** The manager and the world it acts on. *)
Definition state : Type := t W * W.

(** [EnhancedToolManager(tools)] *)
Definition __init__ (tools : list (ToolInterface.t W)) : t W :=
  {| tools := tools;
     tool_stats :=
       foldl (fun stats tool => <[ToolInterface.name tool := ToolStats.new]> stats)
             ∅ tools;
     tool_chains := ∅ |}.

Definition define_tool_chain (self : t W) (name : string)
    (tool_names : list string) : t W :=
  {| tools := tools self; tool_stats := tool_stats self;
     tool_chains := <[name := tool_names]> (tool_chains self) |}.

Definition with_stats (self : t W) (ts : gmap string ToolStats.t) : t W :=
  {| tools := tools self; tool_stats := ts; tool_chains := tool_chains self |}.

(** [self.tool_stats[tool_name]], read *)
Definition get_stats (tool_name : string) : M state ToolStats.t :=
  fun s => match tool_stats s.1 !! tool_name with
           | Some st => (Ok st, s)
           | None => (Raise (KeyError tool_name), s)
           end.

(** An assignment to a field of [self.tool_stats[tool_name]]. *)
Definition update_stats (tool_name : string) (f : ToolStats.t -> ToolStats.t)
    : M state unit :=
  fun s => match tool_stats s.1 !! tool_name with
           | Some st =>
               (Ok tt,
                (with_stats s.1 (<[tool_name := f st]> (tool_stats s.1)),
                 s.2))
           | None => (Raise (KeyError tool_name), s)
           end.

(** The [finally] block of both execute methods. *)
Definition finally_block (tool_name : string) (start_time : datetime)
    : M state unit :=
  (update_stats tool_name ToolStats.incr_usage ;;;
   now <- on_snd (total datetime_now) ;;
   update_stats tool_name (ToolStats.set_last_used now) ;;;
   now' <- on_snd (total datetime_now) ;;
   let response_time := total_seconds now' start_time in
   st <- get_stats tool_name ;;
   if ToolStats.usage_count st =? 0
   then raise (ZeroDivisionError "float division by zero")
   else update_stats tool_name
          (ToolStats.set_average
             (ToolStats.running_mean (ToolStats.average_response_time st)
                (ToolStats.usage_count st) response_time)))%py.

(** The [try] statement both execute methods contain, word for word: call
    the tool and count a success, or count an error and raise again; in
    both cases run the [finally] block. *)
Definition tracked_use (tool : ToolInterface.t W)
    (tool_name input_text : string) (start_time : datetime)
    : M state string :=
  try_finally
    (try_except
       (result <- on_snd (ToolInterface.use tool input_text) ;;
        update_stats tool_name ToolStats.incr_success ;;;
        ret result)%py
       (fun e =>
          update_stats tool_name ToolStats.incr_error ;;;
          raise e)%py)
    (finally_block tool_name start_time).

Definition execute_tool (tool_name input_text : string) : M state string :=
  fun s =>
    match find_tool (tools s.1) tool_name with
    | None => (Raise (ValueError ("Tool '" +:+ tool_name +:+ "' not found")), s)
    | Some tool =>
        (start_time <- on_snd (total datetime_now) ;;
         tracked_use tool tool_name input_text start_time)%py s
    end.

(** The [for] loop of [execute_tool_chain] over the rest of the chain. *)
Fixpoint chain_loop (chain_name : string) (chain : list string)
    (current_input : string) : M state string :=
  match chain with
  | [] => ret current_input
  | tool_name :: chain' =>
      fun s =>
        match find_tool (tools s.1) tool_name with
        | None =>
            (Raise (ValueError ("Tool '" +:+ tool_name
                                +:+ "' not found in chain '" +:+ chain_name
                                +:+ "'")), s)
        | Some tool =>
            (start_time <- on_snd (total datetime_now) ;;
             result <- tracked_use tool tool_name current_input start_time ;;
             chain_loop chain_name chain' result)%py s
        end
  end.

Definition execute_tool_chain (chain_name initial_input : string)
    : M state string :=
  fun s =>
    match tool_chains s.1 !! chain_name with
    | None =>
        (Raise (ValueError ("Tool chain '" +:+ chain_name +:+ "' not found")),
         s)
    | Some chain => chain_loop chain_name chain initial_input s
    end.

Definition get_tool_stats (self : t W) : gmap string ToolStats.t :=
  tool_stats self.

(** The keys of [tool_stats] in the order in which [__init__] stores them:
    one per tool name, at the place of the first tool of that name.  No
    method adds or removes a key afterwards. *)
Definition stats_keys (self : t W) : list string :=
  PyDict.keys
    (foldl (fun d tool => PyDict.set (ToolInterface.name tool) tt d)
           [] (tools self)).

(** [self.tool_stats.items()] *)
Definition stats_items (self : t W) : list (string * ToolStats.t) :=
  omap (fun n => pair n <$> tool_stats self !! n) (stats_keys self).

(** [get_most_used_tools]; an element stands for the dict with the keys
    tool and stats. *)
Definition get_most_used_tools (self : t W) (limit : Z)
    : list (string * ToolStats.t) :=
  PyList.slice_to limit
    (PyList.sorted_reverse Z.ltb
       (fun x : string * ToolStats.t => ToolStats.usage_count x.2)
       (stats_items self)).

End WithWorld.
End EnhancedToolManager.

(** ** llm_agents/tools/advanced_tool.py *)

Module ToolMetadata.
Record t {ty : Type} := {
  name : string;
  description : string;
  version : string;
  author : string;
  created_at : datetime;
  last_updated : datetime;
  (** The class each declared parameter has to be an instance of. *)
  parameters : gmap string ty;
  required_parameters : list string;
  optional_parameters : list string
}.
Arguments t : clear implicits.
End ToolMetadata.

Module AdvancedTool.

(** [ToolError(message, tool_name, error_type)] *)
Definition ToolError (message tool_name error_type : string) : exn :=
  Exn "ToolError"
      (tool_name +:+ " error (" +:+ error_type +:+ "): " +:+ message).

Record t {W : Type} := {
  name : string;
  description : string;
  max_retries : Z;
  timeout : Z;
  cache_results : bool;
  result_cache : gmap string string;
  (** Each processor returns a string or raises. *)
  pre_processors : list (string -> result string);
  post_processors : list (string -> result string);
  (** [await asyncio.wait_for(self._execute(x), timeout=seconds)]: the
      tool's result, [asyncio.TimeoutError] when it takes longer, or the
      exception the tool raises. *)
  _execute_within : Z -> string -> M W string
}.
Arguments t : clear implicits.

Section WithWorld.
Context {W : Type} `{Env W}.

(** The tool object and the world it acts on. *)
Definition state : Type := t W * W.

Definition set_cache (self : t W) (cache : gmap string string) : t W :=
  {| name := name self; description := description self;
     max_retries := max_retries self; timeout := timeout self;
     cache_results := cache_results self; result_cache := cache;
     pre_processors := pre_processors self;
     post_processors := post_processors self;
     _execute_within := _execute_within self |}.

(** [for processor in processors: x = processor(x)] *)
Fixpoint apply_processors (processors : list (string -> result string))
    (x : string) : result string :=
  match processors with
  | [] => Ok x
  | processor :: rest =>
      match processor x with
      | Ok y => apply_processors rest y
      | Raise e => Raise e
      end
  end.

(** The body of the [try] in one attempt, up to the post-processed result. *)
Definition attempt_once (self : t W) (processed_input : string)
    : M W string :=
  fun w =>
    match _execute_within self (timeout self) processed_input w with
    | (Ok result, w') => (apply_processors (post_processors self) result, w')
    | (Raise e, w') => (Raise e, w')
    end.

(** What the [except] clauses store in [last_error]. *)
Definition error_text (self : t W) (e : exn) : string :=
  if String.eqb (exn_class e) "TimeoutError"
  then "Timeout after " +:+ str_int (timeout self) +:+ " seconds"
  else exn_str e.

(** The iterations of [for attempt in range(self.max_retries)] from
    [attempt] on, [n] of them, and the [raise] after the loop. *)
Fixpoint retry_loop (n : nat) (attempt : Z) (input_text processed_input : string)
    (last_error : option string) : M state string :=
  match n with
  | O =>
      fun s =>
        (Raise (Exception ("Failed after " +:+ str_int (max_retries s.1)
                           +:+ " attempts. Last error: "
                           +:+ str_optional last_error)), s)
  | S n' =>
      fun s =>
        let self := s.1 in
        match attempt_once self processed_input s.2 with
        | (Ok result, w') =>
            let self' :=
              if cache_results self
              then set_cache self (<[input_text := result]> (result_cache self))
              else self in
            (Ok result, (self', w'))
        | (Raise e, w') =>
            let last_error := Some (error_text self e) in
            let w'' := if attempt <? max_retries self - 1
                       then asyncio_sleep 1 w' else w' in
            retry_loop n' (attempt + 1) input_text processed_input last_error
              (self, w'')
        end
  end.

(** [AdvancedTool.use] *)
Definition use (input_text : string) : M state string :=
  fun s =>
    let self := s.1 in
    match (if cache_results self then result_cache self !! input_text
           else None) with
    | Some cached => (Ok cached, s)
    | None =>
        match apply_processors (pre_processors self) input_text with
        | Raise e => (Raise e, s)
        | Ok processed_input =>
            retry_loop (Z.to_nat (max_retries self)) 0 input_text
              processed_input None s
        end
    end.

(** The tool as the manager and the agents see it. *)
Definition as_tool (self : t W) : ToolInterface.t state :=
  {| ToolInterface.name := name self;
     ToolInterface.description := description self;
     ToolInterface.use := use |}.

(** The next [k] attempts all fail: the world and [last_error] after them,
    each followed by the one-second sleep. *)
Fixpoint failed_attempts (self : t W) (processed_input : string) (k : nat)
    (w : W) (last_error : option string) : option (W * option string) :=
  match k with
  | O => Some (w, last_error)
  | S k' =>
      match attempt_once self processed_input w with
      | (Raise e, w') =>
          failed_attempts self processed_input k' (asyncio_sleep 1 w')
            (Some (error_text self e))
      | (Ok _, _) => None
      end
  end.

Definition set_processors (self : t W)
    (pre post : list (string -> result string)) : t W :=
  {| name := name self; description := description self;
     max_retries := max_retries self; timeout := timeout self;
     cache_results := cache_results self;
     result_cache := result_cache self;
     pre_processors := pre; post_processors := post;
     _execute_within := _execute_within self |}.

Definition add_pre_processor (self : t W)
    (processor : string -> result string) : t W :=
  set_processors self (pre_processors self ++ [processor])
    (post_processors self).

Definition add_post_processor (self : t W)
    (processor : string -> result string) : t W :=
  set_processors self (pre_processors self)
    (post_processors self ++ [processor]).

Definition clear_cache (self : t W) : t W := set_cache self ∅.

End WithWorld.

(** The world of a manager that holds one [AdvancedTool]: the clock and the
    console are those of the world the tool runs in. *)
#[global] Instance env_with_tool {W : Type} `{Env W} : Env (t W * W) := {|
  datetime_now := fun s => let (now, w) := datetime_now s.2 in (now, (s.1, w));
  date_today := fun s => let (d, w) := date_today s.2 in (d, (s.1, w));
  asyncio_sleep := fun n s => (s.1, asyncio_sleep n s.2);
  print := fun text s => (s.1, print text s.2);
  str_format := str_format (W := W)
|}.

Section Validation.
(** The values of the parameters and the classes they are checked
    against. *)
Context {value ty : Type}.
(** [isinstance(value, expected_type)] *)
Variable isinstance : value -> ty -> bool.
(** [expected_type.__name__] *)
Variable type_name : ty -> string.

(** The loop over [params.items()] that checks the declared types. *)
Fixpoint check_types (metadata : ToolMetadata.t ty)
    (items : list (string * value)) : result unit :=
  match items with
  | [] => Ok tt
  | (param, value) :: rest =>
      match ToolMetadata.parameters metadata !! param with
      | Some expected_type =>
          if isinstance value expected_type then check_types metadata rest
          else Raise (ToolError
                        ("Parameter '" +:+ param +:+ "' must be of type "
                         +:+ type_name expected_type)
                        (ToolMetadata.name metadata) "validation")
      | None => check_types metadata rest
      end
  end.

(** [AdvancedTool._validate_parameters], [metadata] being
    [self.metadata]. *)
Definition _validate_parameters (metadata : ToolMetadata.t ty)
    (params : PyDict.t value) : result unit :=
  let missing_params :=
    filter (fun param => PyDict.mem param params = false)
           (ToolMetadata.required_parameters metadata) in
  match missing_params with
  | _ :: _ =>
      Raise (ToolError
               ("Missing required parameters: "
                +:+ PyStr.join ", " missing_params)
               (ToolMetadata.name metadata) "validation")
  | [] => check_types metadata params
  end.
End Validation.

End AdvancedTool.
(** ** llm_agents/tools/search.py: the response of the search API *)

(** A decoded JSON value. *)
Unset Elimination Schemes.
Inductive json :=
| JNone
| JBool (b : bool)
| JInt (z : Z)
| JFloat (f : float)
| JStr (s : string)
| JList (l : list json)
| JDict (d : list (string * json)).
Set Elimination Schemes.

Definition IndexError (msg : string) : exn := Exn "IndexError" msg.

Module Json.
(** [type(v).__name__] *)
Definition type_name (v : json) : string :=
  match v with
  | JNone => "NoneType"
  | JBool _ => "bool"
  | JInt _ => "int"
  | JFloat _ => "float"
  | JStr _ => "str"
  | JList _ => "list"
  | JDict _ => "dict"
  end.

(** [v.keys()] *)
Definition keys (v : json) : result (list string) :=
  match v with
  | JDict d => Ok (PyDict.keys d)
  | _ =>
      Raise (AttributeError
               ("'" +:+ type_name v +:+ "' object has no attribute 'keys'"))
  end.

(** [v[0]]; the keys of a decoded dict are strings, so 0 is not among
    them. *)
Definition first (v : json) : result json :=
  match v with
  | JList (x :: _) => Ok x
  | JList [] => Raise (IndexError "list index out of range")
  | JStr (String c _) => Ok (JStr (String c EmptyString))
  | JStr EmptyString => Raise (IndexError "string index out of range")
  | JDict _ => Raise (Exn "KeyError" "0")
  | _ =>
      Raise (Exn "TypeError"
               ("'" +:+ type_name v +:+ "' object is not subscriptable"))
  end.
End Json.

Module SerpAPI.
Section WithStr.
(** [str(v)], as an f-string prints a value. *)
Variable py_str : json -> string.

(** What the test [outer in res.keys() and inner in res[outer].keys()]
    finds: the value [res[outer][inner]] when both keys are there, nothing
    when one is missing, and the error of [.keys()] when [res[outer]] is
    no dict. *)
Definition nested (res : PyDict.t json) (outer inner : string)
    : result (option json) :=
  match PyDict.get outer res with
  | None => Ok None
  | Some (JDict d) => Ok (PyDict.get inner d)
  | Some v => match Json.keys v with
              | Raise e => Raise e
              | Ok _ => Ok None
              end
  end.

(** The last two branches: the snippet of the first organic result, or the
    text that nothing was found. *)
Definition organic (res : PyDict.t json) : result json :=
  match PyDict.get "organic_results" res with
  | None => Raise (KeyError "organic_results")
  | Some results =>
      match Json.first results with
      | Raise e => Raise e
      | Ok (JDict d) =>
          match PyDict.get "snippet" d with
          | Some snippet => Ok snippet
          | None => Ok (JStr "No good search result found")
          end
      | Ok v => match Json.keys v with
                | Raise e => Raise e
                | Ok _ => Ok (JStr "No good search result found")
                end
      end
  end.

(** The [if]/[elif] chain from [try_] on: the first test that holds picks
    the value. *)
Fixpoint pick (res : PyDict.t json)
    (tests : list (string * string * (json -> result json)))
    : result json :=
  match tests with
  | [] => organic res
  | (outer, inner, get) :: rest =>
      match nested res outer inner with
      | Raise e => Raise e
      | Ok (Some v) => get v
      | Ok None => pick res rest
      end
  end.

Definition _process_response (res : PyDict.t json) : result json :=
  match PyDict.get "error" res with
  | Some error =>
      Raise (ValueError ("Got error from SerpAPI: " +:+ py_str error))
  | None =>
      pick res
        [("answer_box", "answer", Ok);
         ("answer_box", "snippet", Ok);
         ("answer_box", "snippet_highlighted_words", Json.first);
         ("sports_results", "game_spotlight", Ok);
         ("knowledge_graph", "description", Ok)]
  end.
End WithStr.
End SerpAPI.

(** ** llm_agents/tools/search.py and llm_agents/tools/searx.py: the tools

    Both [use] methods return a text built from the query inside a [try]
    whose handler turns an exception into a text as well. *)

Module SearchTool.
Definition name : string := "SearchTool".
Definition description : string :=
  "A tool for performing web searches. Input should be a search query.".
Definition base_url : string := "https://api.search.com/v1".

Definition use {W : Type} (query : string) : M W string :=
  try_except
    (ret ("Search results for: " +:+ query +:+ "
This is a placeholder implementation. Please configure a real search API."))
    (fun e => ret ("Error performing search: " +:+ exn_str e)).

Definition tool {W : Type} : ToolInterface.t W :=
  {| ToolInterface.name := name; ToolInterface.description := description;
     ToolInterface.use := use |}.
End SearchTool.

Module SearxTool.
Definition name : string := "SearxTool".
Definition description : string :=
  "A tool for performing Searx searches. Input should be a search query.".
Definition base_url : string := "https://searx.example.com".

Definition use {W : Type} (query : string) : M W string :=
  try_except
    (ret ("Searx results for: " +:+ query +:+ "
This is a placeholder implementation. Please configure a real Searx instance."))
    (fun e => ret ("Error performing search: " +:+ exn_str e)).

Definition tool {W : Type} : ToolInterface.t W :=
  {| ToolInterface.name := name; ToolInterface.description := description;
     ToolInterface.use := use |}.
End SearxTool.
(** ** llm_agents/llm.py *)

Definition TypeError (msg : string) : exn := Exn "TypeError" msg.

Module ChatLLM.
Record t := {
  model : string;
  temperature : float;
  max_tokens : Z;
  top_p : float;
  frequency_penalty : float;
  presence_penalty : float
}.

(** [ChatLLM()], with the API key set. *)
Definition new : t :=
  {| model := "gpt-3.5-turbo";
     temperature := 0x1.6666666666666p-1%float; (* 0.7 *)
     max_tokens := 1000; top_p := 1%float;
     frequency_penalty := 0%float; presence_penalty := 0%float |}.

Section WithApi.
Context {W : Type}.
(** [openai.ChatCompletion.create(...).choices[0].message.content] for the
    settings of [self], one user message and the stop sequences: the
    content of the reply, which may be [None], or the exception of the
    request. *)
Variable chat_completion :
  t -> string -> option (list string) -> M W (option string).

(** [content.strip()] *)
Definition strip_content (content : option string) : M W string :=
  match content with
  | Some text => ret (PyStr.strip text)
  | None =>
      raise (AttributeError "'NoneType' object has no attribute 'strip'")
  end.

Definition generate (self : t) (prompt : string)
    (stop : option (list string)) : M W string :=
  try_except
    (content <- chat_completion self prompt stop ;; strip_content content)%py
    (fun e => raise (Exception ("Error generating response: " +:+ exn_str e))).

(** [await self.llm.generate(prompt, stop=stop)] as the agent writes it:
    [generate] is an ordinary method, so the call runs it to its end, and
    [await] then finds a [str] where it needs an awaitable. *)
Definition awaited_generate (self : t) (prompt : string)
    (stop : list string) : M W string :=
  (_ <- generate self prompt (Some stop) ;;
   raise (TypeError "object str can't be used in 'await' expression"))%py.
End WithApi.
End ChatLLM.

(** ** llm_agents/agent.py: the action parser *)

Module Parser.

Definition FINAL_ANSWER_TOKEN : string := "Final Answer:".
Definition OBSERVATION_TOKEN : string := "Observation:".
Definition THOUGHT_TOKEN : string := "Thought:".

Definition newline : ascii := ascii_of_nat 10.
Definition double_quote : string := String (ascii_of_nat 34) EmptyString.

(** The regex of [_parse], searched with [re.DOTALL]: the literal
    "Action: ", an optional "[", a lazy group of any characters, an
    optional "]", any number of newlines, the literal "Action Input:", any
    number of whitespace characters, and a greedy group of any
    characters. *)
Definition action_regex : PyRe.pattern :=
  PyRe.lits "Action: "
  ++ [PyRe.Opt (PyRe.is_char "[");
      PyRe.GroupOpen; PyRe.LazyStar PyRe.any_char; PyRe.GroupClose;
      PyRe.Opt (PyRe.is_char "]");
      PyRe.Star (PyRe.is_char newline)]
  ++ PyRe.lits "Action Input:"
  ++ [PyRe.Star PyStr.is_space;
      PyRe.GroupOpen; PyRe.Star PyRe.any_char; PyRe.GroupClose].

(** [EnhancedAgent._parse] *)
Definition _parse (generated : string) : result (string * string) :=
  if PyStr.contains FINAL_ANSWER_TOKEN generated then
    Ok ("Final Answer",
        PyStr.strip
          (PyStr.last_piece (PyStr.split FINAL_ANSWER_TOKEN generated)))
  else
    match PyRe.search action_regex generated with
    | None =>
        Raise (ValueError
                 ("Output of LLM is not parsable for next tool use: `"
                  +:+ generated +:+ "`"))
    | Some m =>
        let tool := PyStr.strip (PyRe.group 1 m) in
        let tool_input := PyRe.group 2 m in
        Ok (tool,
            PyStr.strip_chars double_quote
              (PyStr.strip_chars " " tool_input))
    end.

(** The text holds an action label and, after it, an input label. *)
Definition has_action_block (generated : string) : Prop :=
  exists pre mid post,
    generated = pre +:+ "Action: " +:+ mid +:+ "Action Input:" +:+ post.

(** A model output with two final-answer markers. *)
Definition two_answers : string := "Final Answer: 4 Final Answer: 5".

End Parser.

(** ** llm_agents/agent.py: EnhancedAgent *)

Module EnhancedAgent.

Definition nl : string := String Parser.newline EmptyString.
Definition tab : string := String (ascii_of_nat 9) EmptyString.

Definition PROMPT_TEMPLATE : string := "Today is {today} and you can use tools to get new information. 
Here's some relevant previous experience:
{memory_context}

Answer the question as best as you can using the following tools: 

{tool_description}

Use the following format:

Question: the input question you must answer
Thought: comment on what you want to do next
Action: the action to take, exactly one element of [{tool_names}]
Action Input: the input to the action
Observation: the result of the action
... (this Thought/Action/Action Input/Observation repeats N times, use it until you are sure of the answer)
Thought: I now know the final answer
Final Answer: your final answer to the original input question

Begin!

Question: {question}
Thought: {previous_responses}
".

Record t {W : Type} := {
  (** [await self.llm.generate(prompt, stop=stop)] *)
  llm_generate : string -> list string -> M W string;
  tools : list (ToolInterface.t W);
  memory : Memory.t;
  prompt_template : string;
  max_loops : Z;
  stop_pattern : list string;
  confidence_threshold : float;
  current_goal : option string;
  sub_goals : list string
}.
Arguments t : clear implicits.

Section WithWorld.
Context {W : Type} `{Env W}.

(** The agent object and the world it acts on. *)
Definition state : Type := t W * W.

(** [EnhancedAgent(llm=llm, tools=tools)], the other fields at their
    defaults. *)
Definition new (llm_generate : string -> list string -> M W string)
    (tools : list (ToolInterface.t W)) : t W :=
  {| llm_generate := llm_generate; tools := tools; memory := Memory.new;
     prompt_template := PROMPT_TEMPLATE; max_loops := 15;
     stop_pattern := [nl +:+ Parser.OBSERVATION_TOKEN;
                      nl +:+ tab +:+ Parser.OBSERVATION_TOKEN];
     confidence_threshold := 0x1.6666666666666p-1%float; (* 0.7 *)
     current_goal := None; sub_goals := [] |}.

Definition tool_description (self : t W) : string :=
  PyStr.join nl
    ((fun tool => ToolInterface.name tool +:+ ": "
                  +:+ ToolInterface.description tool) <$> tools self).

Definition tool_names (self : t W) : string :=
  PyStr.join "," (ToolInterface.name <$> tools self).

(** [{tool.name: tool for tool in self.tools}]: of two tools with one name
    the later one stays. *)
Definition tool_by_names (self : t W) : gmap string (ToolInterface.t W) :=
  foldl (fun d tool => <[ToolInterface.name tool := tool]> d) ∅ (tools self).

Definition set_memory (self : t W) (m : Memory.t) : t W :=
  {| llm_generate := llm_generate self; tools := tools self; memory := m;
     prompt_template := prompt_template self; max_loops := max_loops self;
     stop_pattern := stop_pattern self;
     confidence_threshold := confidence_threshold self;
     current_goal := current_goal self; sub_goals := sub_goals self |}.

Definition _decompose_goal (goal : string) : list string := [goal].

Definition set_goal (self : t W) (goal : string) : t W :=
  {| llm_generate := llm_generate self; tools := tools self;
     memory := memory self;
     prompt_template := prompt_template self; max_loops := max_loops self;
     stop_pattern := stop_pattern self;
     confidence_threshold := confidence_threshold self;
     current_goal := Some goal; sub_goals := _decompose_goal goal |}.

(** [not self.current_goal] *)
Definition no_goal (self : t W) : bool :=
  match current_goal self with
  | None | Some EmptyString => true
  | Some _ => false
  end.

Definition decide_next_action (prompt : string)
    : M state (string * string * string) :=
  (self <- (fun s => (Ok s.1, s)) ;;
   generated <- on_snd (llm_generate self prompt (stop_pattern self)) ;;
   match Parser._parse generated with
   | Ok (tool, tool_input) => ret (generated, tool, tool_input)
   | Raise e => raise e
   end)%py.

(** The [try] statement of the loop: the observation, and [generated] as
    the statement leaves it. *)
Definition use_tool (tool : ToolInterface.t W)
    (generated tool_name tool_input : string) : M state (string * string) :=
  try_except
    (tool_result <- on_snd (ToolInterface.use tool tool_input) ;;
     now <- on_snd (total datetime_now) ;;
     modify (fun s : state =>
               (set_memory s.1
                  (Memory.add_short_term (memory s.1)
                     (PyStr.strip
                        (PyStr.last_piece
                           (PyStr.split Parser.THOUGHT_TOKEN generated)))
                     (tool_name +:+ ": " +:+ tool_input)
                     tool_result now),
                s.2)) ;;;
     ret (tool_result, generated))%py
    (fun e =>
       ret ("Error executing tool: " +:+ exn_str e,
            generated +:+ nl
            +:+ "Thought: I encountered an error. Let me try a different approach.")).

(** The iterations of the [while] loop that remain, at most [fuel] of them:
    [num_loops] counts up by one from 0 and the loop ends when it reaches
    [max_loops], so [run] starts it with [max_loops] iterations to go.
    Falling out of the loop returns [None]. *)
Fixpoint run_loop (fuel : nat) (question prompt : string)
    (previous_responses : list string) : M state (option string) :=
  match fuel with
  | O => ret None
  | S fuel' =>
      (curr_prompt <-
         (fun s => (str_format prompt
                      [("previous_responses",
                        PyStr.join nl previous_responses)], s)) ;;
       action <- decide_next_action curr_prompt ;;
       let '(generated, tool, tool_input) := action in
       if String.eqb tool "Final Answer" then
         now <- on_snd (total datetime_now) ;;
         modify (fun s : state =>
                   (set_memory s.1
                      (Memory.add_long_term (memory s.1) question tool_input
                         now), s.2)) ;;;
         ret (Some tool_input)
       else
         self <- (fun s => (Ok s.1, s)) ;;
         match tool_by_names self !! tool with
         | None => raise (ValueError ("Unknown tool: " +:+ tool))
         | Some the_tool =>
             observed <- use_tool the_tool generated tool tool_input ;;
             let '(tool_result, generated) := observed in
             let generated :=
               generated +:+ nl +:+ Parser.OBSERVATION_TOKEN +:+ " "
               +:+ tool_result +:+ nl +:+ Parser.THOUGHT_TOKEN in
             on_snd (total (fun w => (tt, print generated w))) ;;;
             run_loop fuel' question prompt
               (previous_responses ++ [generated])
         end)%py
  end.

(** [EnhancedAgent.run] *)
Definition run (question : string) : M state (option string) :=
  (modify (fun s : state =>
             if no_goal s.1 then (set_goal s.1 question, s.2) else s) ;;;
   self <- (fun s => (Ok s.1, s)) ;;
   today <- on_snd (total date_today) ;;
   prompt <-
     (fun s =>
        (str_format (prompt_template self)
           [("today", today);
            ("tool_description", tool_description self);
            ("tool_names", tool_names self);
            ("question", question);
            ("previous_responses", "{previous_responses}");
            ("memory_context",
             PyStr.join nl
               ((fun m => "Previous experience: " +:+ Memory.value m)
                  <$> Memory.get_relevant_memory (memory self) question))],
         s)) ;;
   shown <- (fun s => (str_format prompt [("previous_responses", "")], s)) ;;
   on_snd (total (fun w => (tt, print shown w))) ;;;
   run_loop (Z.to_nat (max_loops self)) question prompt [])%py.

End WithWorld.
End EnhancedAgent.

(** ** llm_agents/advanced_agent.py: AgentGoal and AdvancedAgent *)

Module AgentGoal.
Record t := {
  main_goal : string;
  sub_goals : list string;
  status : string;
  progress : float;
  created_at : datetime;
  updated_at : datetime
}.

(** [AgentGoal(main_goal=goal)]; the two timestamps are two readings of
    the clock. *)
Definition new (main_goal : string) (created updated : datetime) : t :=
  {| main_goal := main_goal; sub_goals := []; status := "in_progress";
     progress := 0%float; created_at := created; updated_at := updated |}.

Definition update_progress (self : t) (progress : float) (now : datetime)
    : t :=
  {| main_goal := main_goal self; sub_goals := sub_goals self;
     status := status self; progress := progress;
     created_at := created_at self; updated_at := now |}.

Definition add_sub_goal (self : t) (sub_goal : string) (now : datetime) : t :=
  {| main_goal := main_goal self; sub_goals := sub_goals self ++ [sub_goal];
     status := status self; progress := progress self;
     created_at := created_at self; updated_at := now |}.

Definition set_status (self : t) (status : string) : t :=
  {| main_goal := main_goal self; sub_goals := sub_goals self;
     status := status; progress := progress self;
     created_at := created_at self; updated_at := updated_at self |}.
End AgentGoal.

Module AdvancedAgent.

(** An action: a dict with the key type and, optionally, tool, input,
    thought and confidence. *)
Record action := {
  a_type : string;
  a_tool : option string;
  a_input : option string;
  a_thought : option string;
  a_confidence : option float
}.

(** One entry of [tool_stats]: the success and failure counters. *)
Record counters := { success : Z; failure : Z }.

Record t {W embedding : Type} := {
  (** [await self.llm.generate(prompt)] *)
  llm_generate : string -> M W string;
  tools : list (ToolInterface.t W);
  memory : AgentMemory.t embedding;
  current_goal : option AgentGoal.t;
  confidence_threshold : float;
  max_loops : Z;
  max_parallel_tools : Z;
  tool_stats : gmap string counters;
  learning_rate : float
}.
Arguments t : clear implicits.

Section WithWorld.
Context {W embedding : Type} `{Env W}.

(** The agent object and the world it acts on. *)
Definition state : Type := t W embedding * W.

Definition set_goal (self : t W embedding) (g : option AgentGoal.t)
    : t W embedding :=
  {| llm_generate := llm_generate self; tools := tools self;
     memory := memory self; current_goal := g;
     confidence_threshold := confidence_threshold self;
     max_loops := max_loops self;
     max_parallel_tools := max_parallel_tools self;
     tool_stats := tool_stats self; learning_rate := learning_rate self |}.

Definition set_memory (self : t W embedding) (m : AgentMemory.t embedding)
    : t W embedding :=
  {| llm_generate := llm_generate self; tools := tools self;
     memory := m; current_goal := current_goal self;
     confidence_threshold := confidence_threshold self;
     max_loops := max_loops self;
     max_parallel_tools := max_parallel_tools self;
     tool_stats := tool_stats self; learning_rate := learning_rate self |}.

Definition set_tool_stats (self : t W embedding) (ts : gmap string counters)
    : t W embedding :=
  {| llm_generate := llm_generate self; tools := tools self;
     memory := memory self; current_goal := current_goal self;
     confidence_threshold := confidence_threshold self;
     max_loops := max_loops self;
     max_parallel_tools := max_parallel_tools self;
     tool_stats := ts; learning_rate := learning_rate self |}.

(** [AdvancedAgent(llm=llm, tools=tools, memory=memory)], the other fields
    at their defaults: [__init__] gives every tool name a pair of zero
    counters. *)
Definition __init__ (llm_generate : string -> M W string)
    (tools : list (ToolInterface.t W)) (memory : AgentMemory.t embedding)
    : t W embedding :=
  {| llm_generate := llm_generate; tools := tools; memory := memory;
     current_goal := None;
     confidence_threshold := 0x1.6666666666666p-1%float; (* 0.7 *)
     max_loops := 20; max_parallel_tools := 3;
     tool_stats :=
       foldl (fun d tool =>
                <[ToolInterface.name tool := {| success := 0; failure := 0 |}]> d)
             ∅ tools;
     learning_rate := 0x1.999999999999ap-4%float (* 0.1 *) |}.

(** A method the class calls and does not define: the attribute lookup
    raises. *)
Definition missing_method {A : Type} (name : string) : M state A :=
  raise (AttributeError
           ("'AdvancedAgent' object has no attribute '" +:+ name +:+ "'")).

(** [self.current_goal], set at the start of [run]. *)
Definition the_goal : M state AgentGoal.t :=
  fun s => match current_goal s.1 with
           | Some g => (Ok g, s)
           | None =>
               (Raise (AttributeError
                         "'NoneType' object has no attribute 'progress'"), s)
           end.

Definition now : M state datetime := on_snd (total datetime_now).

(** A change of [self.current_goal] that reads the clock. *)
Definition touch_goal (f : AgentGoal.t -> datetime -> AgentGoal.t)
    : M state unit :=
  (g <- the_goal ;;
   t <- now ;;
   modify (fun s : state => (set_goal s.1 (Some (f g t)), s.2)))%py.

Definition _decompose_goal (goal : string) : M state unit :=
  (touch_goal (fun g t => AgentGoal.add_sub_goal g "First sub-goal" t) ;;;
   touch_goal (fun g t => AgentGoal.add_sub_goal g "Second sub-goal" t))%py.

Definition _build_context (previous_responses : list (action * string))
    : string := "Context built from memory and responses".

Definition _calculate_confidence (response : string) : float :=
  0x1.ccccccccccccdp-1%float. (* 0.9 *)

Definition _parse_action (response : string) : action :=
  {| a_type := "tool"; a_tool := Some "example"; a_input := Some "example";
     a_thought := None; a_confidence := None |}.

Definition _generate_fallback_action (context : string) : action :=
  {| a_type := "tool"; a_tool := Some "fallback"; a_input := Some "fallback";
     a_thought := None; a_confidence := None |}.

Definition _generate_action (context : string) : M state (action * float) :=
  (prompt <- missing_method "_build_action_prompt" ;;
   self <- (fun s => (Ok s.1, s)) ;;
   response <- on_snd (llm_generate self prompt) ;;
   ret (_parse_action response, _calculate_confidence response))%py.

(** [action[key]] *)
Definition item (key : string) (x : option string) : M state string :=
  match x with
  | Some v => ret v
  | None => raise (KeyError key)
  end.

(** [self.tool_stats[tool_name][field] += 1] *)
Definition count (tool_name : string) (f : counters -> counters)
    : M state unit :=
  fun s => match tool_stats s.1 !! tool_name with
           | Some c =>
               (Ok tt, (set_tool_stats s.1
                          (<[tool_name := f c]> (tool_stats s.1)), s.2))
           | None => (Raise (KeyError tool_name), s)
           end.

(** [next(t for t in self.tools if t.name == tool_name)] inside a
    coroutine, under [asyncio.wait_for]: a timeout shows as the
    [TimeoutError] outcome of [use]. *)
Definition _execute_tool_with_timeout (tool_name tool_input : string)
    : M state string :=
  fun s => match find_tool (tools s.1) tool_name with
           | Some tool => on_snd (ToolInterface.use tool tool_input) s
           | None =>
               (Raise (Exn "RuntimeError" "coroutine raised StopIteration"),
                s)
           end.

Definition _execute_tool (a : action) : M state string :=
  (tool_name <- item "tool" (a_tool a) ;;
   tool_input <- item "input" (a_input a) ;;
   try_except
     (result <- _execute_tool_with_timeout tool_name tool_input ;;
      count tool_name
        (fun c => {| success := success c + 1; failure := failure c |}) ;;;
      ret result)
     (fun e =>
        count tool_name
          (fun c => {| success := success c; failure := failure c + 1 |}) ;;;
        ret ("Error executing tool " +:+ tool_name +:+ ": " +:+ exn_str e)))%py.

Definition _execute_action (a : action) : M state string :=
  if String.eqb (a_type a) "tool" then _execute_tool a
  else if String.eqb (a_type a) "sub_goal"
       then missing_method "_execute_sub_goal"
       else raise (ValueError ("Unknown action type: " +:+ a_type a)).

Definition _update_memory (a : action) (result : string) : M state unit :=
  (t <- now ;;
   modify (fun s : state =>
             (set_memory s.1
                (AgentMemory.add_short_term (memory s.1)
                   (default "" (a_thought a))
                   (a_type a +:+ ": " +:+ default "" (a_tool a))
                   result
                   (Some {["confidence" :=
                             VFloat (default 0%float (a_confidence a))]})
                   t),
              s.2)))%py.

(** [min(1.0, self.current_goal.progress + 0.1)] *)
Definition _calculate_progress (g : AgentGoal.t) : float :=
  let p := PrimFloat.add (AgentGoal.progress g)
             0x1.999999999999ap-4%float (* 0.1 *) in
  if PrimFloat.ltb p 1%float then p else 1%float.

Definition _update_goal_progress (result : string) : M state unit :=
  (g <- the_goal ;;
   touch_goal (fun g' t =>
                 AgentGoal.update_progress g' (_calculate_progress g) t))%py.

Definition _is_goal_completed (result : string) : M state bool :=
  (g <- the_goal ;; ret (PrimFloat.leb 1%float (AgentGoal.progress g)))%py.

Definition _generate_final_answer
    (previous_responses : list (action * string)) : string :=
  "Final answer based on all interactions".

(** [self.current_goal.status = "completed"] *)
Definition mark_completed : M state unit :=
  modify (fun s : state =>
            (set_goal s.1
               ((fun g => AgentGoal.set_status g "completed")
                  <$> current_goal s.1), s.2)).

(** The iterations of the [while] loop that remain, at most [fuel] of them
    ([num_loops] counts up by one from 0 to [max_loops]), and the [return]
    after the loop. *)
Fixpoint run_loop (fuel : nat) (previous_responses : list (action * string))
    : M state string :=
  match fuel with
  | O => ret (_generate_final_answer previous_responses)
  | S fuel' =>
      (g <- the_goal ;;
       if String.eqb (AgentGoal.status g) "completed"
       then ret (_generate_final_answer previous_responses)
       else
         let context := _build_context previous_responses in
         generated <- _generate_action context ;;
         let '(action, confidence) := generated in
         self <- (fun s => (Ok s.1, s)) ;;
         let action :=
           if PrimFloat.ltb confidence (confidence_threshold self)
           then _generate_fallback_action context else action in
         result <- _execute_action action ;;
         _update_memory action result ;;;
         _update_goal_progress result ;;;
         let previous_responses := previous_responses ++ [(action, result)] in
         completed <- _is_goal_completed result ;;
         if (completed : bool) then
           mark_completed ;;;
           ret (_generate_final_answer previous_responses)
         else run_loop fuel' previous_responses)%py
  end.

(** [AdvancedAgent.run] *)
Definition run (goal : string) : M state string :=
  (created <- now ;;
   updated <- now ;;
   modify (fun s : state =>
             (set_goal s.1 (Some (AgentGoal.new goal created updated)),
              s.2)) ;;;
   _decompose_goal goal ;;;
   self <- (fun s => (Ok s.1, s)) ;;
   run_loop (Z.to_nat (max_loops self)) [])%py.

End WithWorld.
End AdvancedAgent.

(** ** Sequences of calls on the memory stores *)

Module MemoryCalls.

(** The arguments of one [add_short_term] call and the clock value it
    reads. *)
Record st_call := {
  c_thought : string;
  c_action : string;
  c_result : string;
  c_metadata : option (gmap string pyvalue);
  c_now : datetime
}.

Definition entry_of (c : st_call) : Memory.st_entry :=
  {| Memory.thought := c_thought c; Memory.action := c_action c;
     Memory.result_ := c_result c; Memory.timestamp := c_now c |}.

Definition agent_entry_of (c : st_call) : AgentMemory.st_entry :=
  {| AgentMemory.thought := c_thought c; AgentMemory.action := c_action c;
     AgentMemory.result_ := c_result c; AgentMemory.timestamp := c_now c;
     AgentMemory.metadata := default ∅ (c_metadata c) |}.

(** [Memory.add_short_term] called once per element, in order. *)
Definition add_short_terms (m : Memory.t) (calls : list st_call)
    : Memory.t :=
  foldl (fun m c =>
           Memory.add_short_term m (c_thought c) (c_action c) (c_result c)
             (c_now c))
        m calls.

(** [AgentMemory.add_short_term] called once per element, in order. *)
Definition agent_add_short_terms {embedding}
    (m : AgentMemory.t embedding) (calls : list st_call)
    : AgentMemory.t embedding :=
  foldl (fun m c =>
           AgentMemory.add_short_term m (c_thought c) (c_action c)
             (c_result c) (c_metadata c) (c_now c))
        m calls.

(** The arguments of one [add_long_term] call and the clock value it
    reads. *)
Record lt_call := {
  l_key : string;
  l_value : string;
  l_metadata : option (gmap string pyvalue);
  l_now : datetime
}.

Definition lt_entry_of (c : lt_call) : AgentMemory.lt_entry :=
  {| AgentMemory.key := l_key c; AgentMemory.value := l_value c;
     AgentMemory.lt_timestamp := l_now c;
     AgentMemory.lt_metadata := default ∅ (l_metadata c) |}.

Definition agent_add_long_term {embedding} (encode : string -> embedding)
    (m : AgentMemory.t embedding) (c : lt_call) : AgentMemory.t embedding :=
  AgentMemory.add_long_term encode m (l_key c) (l_value c) (l_metadata c)
    (l_now c).

(** [AgentMemory.add_long_term] called once per element, in order. *)
Definition agent_add_long_terms {embedding} (encode : string -> embedding)
    (m : AgentMemory.t embedding) (calls : list lt_call)
    : AgentMemory.t embedding :=
  foldl (agent_add_long_term encode) m calls.

(** An [AgentMemory] with nothing stored and the given capacities. *)
Definition agent_empty {embedding} (max_st max_lt : Z)
    : AgentMemory.t embedding :=
  {| AgentMemory.short_term := []; AgentMemory.long_term := [];
     AgentMemory.embeddings := [];
     AgentMemory.max_short_term := max_st;
     AgentMemory.max_long_term := max_lt |}.

(** A [Memory] with nothing stored and the given capacities. *)
Definition empty (max_st max_lt : Z) : Memory.t :=
  {| Memory.short_term := []; Memory.long_term := [];
     Memory.max_short_term := max_st; Memory.max_long_term := max_lt |}.

End MemoryCalls.

(** ** The invariants the long-term store is specified to keep *)

Module LongTermSpec.
Section Spec.
Context {embedding : Type}.

(** The number of live long-term entries stored under key [k]. *)
Definition live_count (m : AgentMemory.t embedding) (k : string) : nat :=
  length (filter (fun e => AgentMemory.key e = k)
                 (AgentMemory.long_term m)).

(** Every embedding key has a live long-term entry, and the embeddings
    map lists no key twice. *)
Definition embeddings_live (m : AgentMemory.t embedding) : Prop :=
  NoDup (PyDict.keys (AgentMemory.embeddings m))
  /\ forall k, k ∈ PyDict.keys (AgentMemory.embeddings m) ->
       exists e, e ∈ AgentMemory.long_term m /\ AgentMemory.key e = k.

(** Every key of the embeddings map has exactly one live entry. *)
Definition exactly_one_live (m : AgentMemory.t embedding) : Prop :=
  forall k, k ∈ PyDict.keys (AgentMemory.embeddings m) ->
            live_count m k = 1%nat.

(** Every key of the embeddings map has at least one live entry. *)
Definition some_live (m : AgentMemory.t embedding) : Prop :=
  forall k, k ∈ PyDict.keys (AgentMemory.embeddings m) ->
            (1 <= live_count m k)%nat.
End Spec.

(** Two values stored under one key. *)
Definition same_key_twice : list MemoryCalls.lt_call :=
  [ {| MemoryCalls.l_key := "capital"; MemoryCalls.l_value := "Paris";
       MemoryCalls.l_metadata := None; MemoryCalls.l_now := 1 |};
    {| MemoryCalls.l_key := "capital"; MemoryCalls.l_value := "Lyon";
       MemoryCalls.l_metadata := None; MemoryCalls.l_now := 2 |} ].
End LongTermSpec.

(** ** Relevance retrieval: the order the specification asks for *)

Module RelevanceSpec.
(** Entries of equal similarity appear most recent first. *)
Definition ties_recent_first {score : Type}
    (score_lt : score -> score -> bool)
    (sim : AgentMemory.lt_entry -> option score)
    (res : list AgentMemory.lt_entry) : Prop :=
  forall i j a b sa sb,
    (i < j)%nat -> res !! i = Some a -> res !! j = Some b ->
    sim a = Some sa -> sim b = Some sb ->
    score_lt sa sb = false -> score_lt sb sa = false ->
    AgentMemory.lt_timestamp b <= AgentMemory.lt_timestamp a.

(** A stand-in embedding model: the text itself, and similarity 1 for
    identical texts, 0 otherwise. *)
Definition text_encode (v : string) : string := v.
Definition text_similarity (a b : string) : Z :=
  if String.eqb a b then 1 else 0.

(** Three notes, the first two with the same text. *)
Definition notes : list MemoryCalls.lt_call :=
  [ {| MemoryCalls.l_key := "q1"; MemoryCalls.l_value := "Paris";
       MemoryCalls.l_metadata := None; MemoryCalls.l_now := 1 |};
    {| MemoryCalls.l_key := "q2"; MemoryCalls.l_value := "Paris";
       MemoryCalls.l_metadata := None; MemoryCalls.l_now := 2 |};
    {| MemoryCalls.l_key := "q3"; MemoryCalls.l_value := "Rome";
       MemoryCalls.l_metadata := None; MemoryCalls.l_now := 3 |} ].

Definition notes_memory : AgentMemory.t string :=
  MemoryCalls.agent_add_long_terms text_encode
    (MemoryCalls.agent_empty 20 1000) notes.
End RelevanceSpec.

(** Scenario D of the specification: four events on a window of three. *)
Module ScenarioD.
Definition event (n : Z) (text : string) : MemoryCalls.st_call :=
  {| MemoryCalls.c_thought := text; MemoryCalls.c_action := "Search: x";
     MemoryCalls.c_result := text; MemoryCalls.c_metadata := None;
     MemoryCalls.c_now := n |}.
Definition events : list MemoryCalls.st_call :=
  [event 1 "one"; event 2 "two"; event 3 "three"; event 4 "four"].
End ScenarioD.

(** ** Sequences of calls on the tool manager *)

Module ManagerCalls.
Inductive call :=
| ExecuteTool (tool_name input_text : string)
| ExecuteToolChain (chain_name initial_input : string)
| DefineToolChain (name : string) (tool_names : list string).

Section WithWorld.
Context {W : Type} `{Env W}.

(** One call; the caller goes on whether it returned or raised. *)
Definition step (s : EnhancedToolManager.state) (c : call)
    : EnhancedToolManager.state :=
  match c with
  | ExecuteTool tool_name input_text =>
      (EnhancedToolManager.execute_tool tool_name input_text s).2
  | ExecuteToolChain chain_name initial_input =>
      (EnhancedToolManager.execute_tool_chain chain_name initial_input s).2
  | DefineToolChain name tool_names =>
      (EnhancedToolManager.define_tool_chain s.1 name tool_names, s.2)
  end.

(** The manager built from [tools], after the calls. *)
Definition after (tools : list (ToolInterface.t W)) (calls : list call)
    (w : W) : EnhancedToolManager.state :=
  foldl step (EnhancedToolManager.__init__ tools, w) calls.

(** The statistics one tracked invocation leaves for a tool whose
    statistics were [st]: [ok] tells whether the tool returned, [t1] is the
    clock read for [last_used], [elapsed] the response time. *)
Definition tracked (st : ToolStats.t) (ok : bool) (t1 : datetime)
    (elapsed : float) : ToolStats.t :=
  {| ToolStats.usage_count := ToolStats.usage_count st + 1;
     ToolStats.success_count :=
       ToolStats.success_count st + (if ok then 1 else 0);
     ToolStats.error_count :=
       ToolStats.error_count st + (if ok then 0 else 1);
     ToolStats.last_used := Some t1;
     ToolStats.average_response_time :=
       ToolStats.running_mean (ToolStats.average_response_time st)
         (ToolStats.usage_count st + 1) elapsed |}.
(** Counters are consistent and every registered tool has its entry. *)
Definition stats_consistent (self : EnhancedToolManager.t W) : Prop :=
  (forall tool, tool ∈ EnhancedToolManager.tools self ->
     is_Some (EnhancedToolManager.tool_stats self !! ToolInterface.name tool))
  /\ forall n st, EnhancedToolManager.tool_stats self !! n = Some st ->
       0 <= ToolStats.usage_count st
       /\ ToolStats.usage_count st
          = ToolStats.success_count st + ToolStats.error_count st.

(** The computations of the manager never change its list of tools. *)
Definition keeps_tools {A} (m : M (EnhancedToolManager.state (W := W)) A)
    : Prop :=
  forall s, EnhancedToolManager.tools (m s).2.1 = EnhancedToolManager.tools s.1.

End WithWorld.

Definition is_ok {A} (r : result A) : bool :=
  match r with Ok _ => true | Raise _ => false end.

Section Errors.
Context {W : Type}.

(** No tool of the manager ever raises. *)
Definition tools_return (self : EnhancedToolManager.t W) : Prop :=
  forall tool, tool ∈ EnhancedToolManager.tools self ->
  forall input w, is_ok (ToolInterface.use tool input w).1 = true.

(** No error has been counted, and every use was a success. *)
Definition error_free (self : EnhancedToolManager.t W) : Prop :=
  forall n st, EnhancedToolManager.tool_stats self !! n = Some st ->
    ToolStats.error_count st = 0
    /\ ToolStats.success_count st = ToolStats.usage_count st.

(** The computation [m] leaves the part [part] of the manager as it found
    it. *)
Definition keeps {X A : Type} (part : EnhancedToolManager.t W -> X)
    (m : M (EnhancedToolManager.t W * W) A) : Prop :=
  forall s, part (m s).2.1 = part s.1.

(** The tools, the chains, and the statistics stored under [n]. *)
Definition apart_from_others (n : string) (self : EnhancedToolManager.t W)
    : list (ToolInterface.t W) * gmap string (list string)
      * option ToolStats.t :=
  (EnhancedToolManager.tools self, EnhancedToolManager.tool_chains self,
   EnhancedToolManager.tool_stats self !! n).

(** Consistent counters, tools that return, and no error counted. *)
Definition quiet (self : EnhancedToolManager.t W) : Prop :=
  stats_consistent self /\ tools_return self /\ error_free self.

End Errors.
End ManagerCalls.

(** ** A small concrete world

    The clock ticks once per reading, and the world keeps the list of tool
    invocations and of printed texts: the invocation counters of a test. *)

Module TestWorld.
Record t := {
  clock : Z;
  invocations : list (string * string);
  printed : list string;
  (** What the language model will answer, call after call. *)
  responses : list string;
  llm_calls : nat
}.

Definition start : t :=
  {| clock := 0; invocations := []; printed := []; responses := [];
     llm_calls := 0 |}.

(** The start of a run in which the model will give [answers]. *)
Definition scripted (answers : list string) : t :=
  {| clock := 0; invocations := []; printed := []; responses := answers;
     llm_calls := 0 |}.

Definition invoked (tool_name input : string) (w : t) : t :=
  {| clock := clock w;
     invocations := invocations w ++ [(tool_name, input)];
     printed := printed w; responses := responses w;
     llm_calls := llm_calls w |}.

#[global] Instance env : Env t := {|
  datetime_now := fun w =>
    (clock w, {| clock := clock w + 1; invocations := invocations w;
                 printed := printed w; responses := responses w;
                 llm_calls := llm_calls w |});
  date_today := fun w => ("2024-01-01", w);
  asyncio_sleep := fun seconds w =>
    {| clock := clock w + seconds * 1000000; invocations := invocations w;
       printed := printed w; responses := responses w;
       llm_calls := llm_calls w |};
  print := fun text w =>
    {| clock := clock w; invocations := invocations w;
       printed := printed w ++ [text]; responses := responses w;
       llm_calls := llm_calls w |};
  str_format := fun template _ => Ok template
|}.

(** The scripted language model: the next answer of the script, an error
    when the script is over; every call is counted. *)
Definition llm (prompt : string) (stop : list string) : M t string :=
  fun w =>
    match responses w with
    | answer :: rest =>
        (Ok answer,
         {| clock := clock w; invocations := invocations w;
            printed := printed w; responses := rest;
            llm_calls := S (llm_calls w) |})
    | [] =>
        (Raise (Exception "Error generating response: end of script"),
         {| clock := clock w; invocations := invocations w;
            printed := printed w; responses := [];
            llm_calls := S (llm_calls w) |})
    end.

(** A tool that records the call and returns [output]. *)
Definition returning (name output : string) : ToolInterface.t t :=
  {| ToolInterface.name := name;
     ToolInterface.description := "returns a fixed text";
     ToolInterface.use := fun input w => (Ok output, invoked name input w) |}.

(** A tool that records the call and raises. *)
Definition raising (name : string) (e : exn) : ToolInterface.t t :=
  {| ToolInterface.name := name;
     ToolInterface.description := "always fails";
     ToolInterface.use := fun input w => (Raise e, invoked name input w) |}.

Definition fetch : ToolInterface.t t := returning "Fetch" "raw-text".

(** A manager that knows [Fetch] only, with a chain that also names
    [Summarize]. *)
Definition manager : EnhancedToolManager.t t :=
  EnhancedToolManager.define_tool_chain
    (EnhancedToolManager.__init__ [fetch])
    "pipeline" ["Fetch"; "Summarize"].

(** An [EnhancedAgent] with the scripted model and the tools [Fetch], which
    returns, and [Broken], which raises. *)
Definition agent : EnhancedAgent.t t :=
  EnhancedAgent.new llm
    [fetch; raising "Broken" (Exception "connection refused")].

(** The same agent with a budget of [n] iterations. *)
Definition agent_with_budget (n : Z) : EnhancedAgent.t t :=
  {| EnhancedAgent.llm_generate := llm;
     EnhancedAgent.tools := EnhancedAgent.tools agent;
     EnhancedAgent.memory := Memory.new;
     EnhancedAgent.prompt_template := EnhancedAgent.PROMPT_TEMPLATE;
     EnhancedAgent.max_loops := n;
     EnhancedAgent.stop_pattern := EnhancedAgent.stop_pattern agent;
     EnhancedAgent.confidence_threshold :=
       EnhancedAgent.confidence_threshold agent;
     EnhancedAgent.current_goal := None;
     EnhancedAgent.sub_goals := [] |}.

(** Model outputs: a call of a tool the agent does not have, a call of the
    failing tool, a call of [Fetch], a final answer, and text with neither
    an action nor an answer. *)
Definition calls_calculator : string := "Thought: compute
Action: Calculator
Action Input: 2+2".
Definition calls_broken : string := "Thought: look it up
Action: Broken
Action Input: topic".
Definition calls_fetch : string := "Thought: look it up
Action: Fetch
Action Input: topic".
Definition answers_paris : string := "Thought: I now know the final answer
Final Answer: Paris".
Definition rambles : string := "I am not sure what to do next.".
End TestWorld.

(** ** Retrying tools in the test world *)

Module TestTools.
(** A tool that fails with [e] until it has been invoked [failures] times
    and returns [done] from then on. *)
Definition flaky (failures : nat) (e : exn) (max_retries : Z)
    : AdvancedTool.t TestWorld.t :=
  {| AdvancedTool.name := "Flaky";
     AdvancedTool.description := "fails a few times";
     AdvancedTool.max_retries := max_retries;
     AdvancedTool.timeout := 1;
     AdvancedTool.cache_results := true;
     AdvancedTool.result_cache := ∅;
     AdvancedTool.pre_processors := [];
     AdvancedTool.post_processors := [];
     AdvancedTool._execute_within := fun seconds x w =>
       (if (length (TestWorld.invocations w) <? failures)%nat
        then Raise e else Ok "done",
        TestWorld.invoked "Flaky" x w) |}.

(** The manager that holds the one tool [tool]. *)
Definition manager_of (tool : AdvancedTool.t TestWorld.t)
    : EnhancedToolManager.t (AdvancedTool.state (W := TestWorld.t)) :=
  EnhancedToolManager.__init__ [AdvancedTool.as_tool tool].

(** [execute_tool] on the manager of [tool], from the start of the test
    world. *)
Definition run_once (tool : AdvancedTool.t TestWorld.t) (input : string)
    : result string
      * (EnhancedToolManager.t (AdvancedTool.state (W := TestWorld.t))
         * (AdvancedTool.t TestWorld.t * TestWorld.t)) :=
  EnhancedToolManager.execute_tool (AdvancedTool.name tool) input
    (manager_of tool, (tool, TestWorld.start)).
End TestTools.

(** ** The iteration budget of the agent loop *)

Module Budget.
Section WithWorld.
Context {W : Type} `{Env W}.
(** A counter somewhere in the world. *)
Variable calls : W -> nat.
Variable self0 : EnhancedAgent.t W.

(** The agent still has the model, the tools and the budget of [self0]. *)
Definition same_agent (self : EnhancedAgent.t W) : Prop :=
  EnhancedAgent.llm_generate self = EnhancedAgent.llm_generate self0
  /\ EnhancedAgent.tools self = EnhancedAgent.tools self0
  /\ EnhancedAgent.max_loops self = EnhancedAgent.max_loops self0.

(** [m] calls the model at most [n] times. *)
Definition at_most (n : nat) {A} (m : M (EnhancedAgent.state (W := W)) A)
    : Prop :=
  forall s, same_agent s.1 ->
    same_agent (m s).2.1 /\ (calls (m s).2.2 <= calls s.2 + n)%nat.

End WithWorld.
End Budget.
(** ** Sequences of calls on the long-term list of [Memory] *)

Module LongTermCalls.
Definition entry_of (c : MemoryCalls.lt_call) : Memory.lt_entry :=
  {| Memory.key := MemoryCalls.l_key c;
     Memory.value := MemoryCalls.l_value c;
     Memory.lt_timestamp := MemoryCalls.l_now c |}.

(** [Memory.add_long_term] called once per element, in order. *)
Definition add_long_terms (m : Memory.t) (calls : list MemoryCalls.lt_call)
    : Memory.t :=
  foldl (fun m c =>
           Memory.add_long_term m (MemoryCalls.l_key c)
             (MemoryCalls.l_value c) (MemoryCalls.l_now c))
        m calls.
End LongTermCalls.

(** ** What a run leaves of the agent *)

Module AgentFrame.
Section WithWorld.
Context {W : Type} `{Env W}.

(** The agents [a] and [b] differ at most in their memory. *)
Definition same_but_memory (a b : EnhancedAgent.t W) : Prop :=
  EnhancedAgent.set_memory a (EnhancedAgent.memory b) = b.

(** [m] changes nothing of the agent but its memory. *)
Definition memory_only {A} (m : M (EnhancedAgent.state (W := W)) A)
    : Prop :=
  forall s, same_but_memory s.1 (m s).2.1.

End WithWorld.
End AgentFrame.

(** ** The shape of a response that asks for a tool *)

Module ActionBlock.
(** The characters a tool name is taken not to hold: the square brackets
    and the newline. *)
Definition is_delimiter (c : ascii) : bool :=
  PyStr.char_in c ("[]" +:+ String Parser.newline EmptyString).

(** A tool name free of delimiters and of the input label. *)
Definition plain (name : string) : Prop :=
  PyRe.all_chars (fun c => negb (is_delimiter c)) name = true
  /\ PyStr.contains "Action Input:" name = false.

(** What may stand between the tool name and the input label: a closing
    bracket or nothing, then newlines. *)
Definition closes (close newlines : string) : Prop :=
  (close = "" \/ close = "]")
  /\ PyRe.all_chars (PyRe.is_char Parser.newline) newlines = true.

(** Text before the action label, the label, the tool name between
    [open] and [close], the newlines after it, the input label and what
    follows it. *)
Definition text (pre open name close newlines input : string) : string :=
  pre +:+ "Action: " +:+ open +:+ name +:+ close +:+ newlines
  +:+ "Action Input:" +:+ input.
End ActionBlock.

(** ** Repeated progress updates of [AdvancedAgent] *)

Module Progress.
Section WithWorld.
Context {W embedding : Type} `{Env W}.

(** [_update_goal_progress] called once per result, in order. *)
Fixpoint updates (results : list string)
    : M (AdvancedAgent.state (W := W) (embedding := embedding)) unit :=
  match results with
  | [] => ret tt
  | result :: rest =>
      (AdvancedAgent._update_goal_progress result ;;; updates rest)%py
  end.

(** The progress value after one more update. *)
Definition step (progress : float) : float :=
  let p := PrimFloat.add progress 0x1.999999999999ap-4%float in
  if PrimFloat.ltb p 1%float then p else 1%float.
End WithWorld.
End Progress.

(** ** Which entry stands for a key of the long-term store *)

Module RecallSpec.
Section Spec.
Context {embedding : Type}.
Variable encode : string -> embedding.
Implicit Types (m : AgentMemory.t embedding) (x : AgentMemory.lt_entry).

(** No live entry added after [x] has the key of [x]. *)
Definition newest m x : Prop :=
  exists l1 l2,
    AgentMemory.long_term m = l1 ++ x :: l2
    /\ forall y, y ∈ l2 -> AgentMemory.key y <> AgentMemory.key x.

(** No live entry added before [x] has the key of [x]. *)
Definition oldest m x : Prop :=
  exists l1 l2,
    AgentMemory.long_term m = l1 ++ x :: l2
    /\ forall y, y ∈ l1 -> AgentMemory.key y <> AgentMemory.key x.

(** Every embedding is that of the newest live entry under its key. *)
Definition embeds_newest m : Prop :=
  forall k v,
    PyDict.get k (AgentMemory.embeddings m) = Some v ->
    exists x, newest m x /\ AgentMemory.key x = k
              /\ v = encode (AgentMemory.value x).
End Spec.
End RecallSpec.

(** ** An [AdvancedAgent] in the test world *)

Module TestAgents.
(** The agent built from the scripted model and the tool [Fetch], with an
    empty memory whose embeddings are the texts themselves. *)
Definition advanced : AdvancedAgent.t TestWorld.t string :=
  AdvancedAgent.__init__ (fun prompt => TestWorld.llm prompt [])
    [TestWorld.fetch] (MemoryCalls.agent_empty 20 1000).

(** The same agent at work on a goal just created. *)
Definition advanced_with_goal : AdvancedAgent.t TestWorld.t string :=
  AdvancedAgent.set_goal advanced (Some (AgentGoal.new "report" 0 1)).

(** An action that names the tool [Fetch]. *)
Definition fetch_topic : AdvancedAgent.action :=
  {| AdvancedAgent.a_type := "tool"; AdvancedAgent.a_tool := Some "Fetch";
     AdvancedAgent.a_input := Some "topic";
     AdvancedAgent.a_thought := None; AdvancedAgent.a_confidence := None |}.
End TestAgents.

(** ** The agent of [run_agent.py] in the test world *)

Module ShippedAgent.
(** The API answers from the script of the test world. *)
Definition api (self : ChatLLM.t) (prompt : string)
    (stop : option (list string)) : M TestWorld.t (option string) :=
  fun w => match TestWorld.llm prompt (default [] stop) w with
           | (Ok text, w') => (Ok (Some text), w')
           | (Raise e, w') => (Raise e, w')
           end.

(** [EnhancedAgent(llm=ChatLLM(), tools=tools)] *)
Definition agent : EnhancedAgent.t TestWorld.t :=
  EnhancedAgent.new (ChatLLM.awaited_generate api ChatLLM.new)
    [TestWorld.fetch].
End ShippedAgent.

(** ** A model that never gives a final answer *)

Module AlwaysFetch.
(** The model asks for [Fetch] at every call; every call is counted. *)
Definition llm (prompt : string) (stop : list string)
    : M TestWorld.t string :=
  fun w =>
    (Ok TestWorld.calls_fetch,
     {| TestWorld.clock := TestWorld.clock w;
        TestWorld.invocations := TestWorld.invocations w;
        TestWorld.printed := TestWorld.printed w;
        TestWorld.responses := TestWorld.responses w;
        TestWorld.llm_calls := S (TestWorld.llm_calls w) |}).

(** [EnhancedAgent(llm=llm, tools=tools)] with that model and the tools of
    the test agent; [max_loops] has its default, 15. *)
Definition agent : EnhancedAgent.t TestWorld.t :=
  EnhancedAgent.new llm (EnhancedAgent.tools TestWorld.agent).
End AlwaysFetch.

(** * Properties *)

(** ** The bounded windows of the memory stores *)

Section Fifo.
Context {A : Type}.
Implicit Types (l all : list A) (x : A).
Local Abbreviation fifo_push := PyList.fifo_push.
Local Abbreviation window := PyList.window.

Lemma window_length cap all :
  0 <= cap -> (Z.of_nat (length (window cap all)) <= cap)%Z.
Proof.
  intros Hcap. unfold PyList.window. rewrite length_drop. lia.
Qed.

Lemma fifo_push_window cap all x :
  0 <= cap -> fifo_push cap (window cap all) x = window cap (all ++ [x]).
Proof.
  intros Hcap. unfold PyList.fifo_push, PyList.window.
  rewrite !length_app, length_drop. simpl.
  set (n := length all). set (c := Z.to_nat cap).
  destruct (Z.gtb_spec (Z.of_nat (n - (n - c) + 1)) cap) as [Hgt | Hle].
  - assert (Hc : (c <= n)%nat) by lia.
    replace (n + 1 - c)%nat with (n - c + 1)%nat by lia.
    destruct (decide (c = 0%nat)) as [Hz | Hnz].
    + replace (n - c)%nat with n by lia.
      rewrite (drop_ge all n) by (unfold n; lia). simpl.
      rewrite drop_ge; [done | rewrite length_app; simpl; fold n; lia].
    + rewrite (drop_app_le all [x] (n - c + 1)) by (fold n; lia).
      rewrite <- (drop_drop all 1 (n - c)).
      destruct (drop (n - c) all) as [| y l] eqn:Hd.
      * apply (f_equal length) in Hd. rewrite length_drop in Hd.
        simpl in Hd. fold n in Hd. lia.
      * simpl. by rewrite drop_0.
  - replace (n - c)%nat with 0%nat by lia.
    replace (n + 1 - c)%nat with 0%nat by lia.
    by rewrite !drop_0.
Qed.
End Fifo.

Lemma add_short_terms_window cap max_lt calls :
  0 <= cap ->
  Memory.short_term
    (MemoryCalls.add_short_terms (MemoryCalls.empty cap max_lt) calls)
  = PyList.window cap (MemoryCalls.entry_of <$> calls).
Proof.
  intros Hcap.
  induction calls as [| c calls IH] using rev_ind; [done |].
  unfold MemoryCalls.add_short_terms in *.
  rewrite foldl_app, fmap_app. simpl.
  rewrite <- fifo_push_window by done. rewrite <- IH.
  unfold Memory.add_short_term, PyList.fifo_push; simpl.
  set (m := foldl _ _ calls) in *.
  assert (Hmax : Memory.max_short_term m = cap).
  { subst m. clear IH. induction calls as [| d calls IH] using rev_ind;
      [done | by rewrite foldl_app]. }
  by rewrite Hmax.
Qed.

Lemma agent_add_short_terms_window {embedding} cap max_lt calls :
  0 <= cap ->
  AgentMemory.short_term
    (MemoryCalls.agent_add_short_terms
       (MemoryCalls.agent_empty (embedding := embedding) cap max_lt) calls)
  = PyList.window cap (MemoryCalls.agent_entry_of <$> calls).
Proof.
  intros Hcap.
  induction calls as [| c calls IH] using rev_ind; [done |].
  unfold MemoryCalls.agent_add_short_terms in *.
  rewrite foldl_app, fmap_app. simpl.
  rewrite <- fifo_push_window by done. rewrite <- IH.
  unfold AgentMemory.add_short_term, PyList.fifo_push; simpl.
  set (m := foldl _ _ calls) in *.
  assert (Hmax : AgentMemory.max_short_term m = cap).
  { subst m. clear IH. induction calls as [| d calls IH] using rev_ind;
      [done | by rewrite foldl_app]. }
  by rewrite Hmax.
Qed.

(** C3. Starting from an empty store of capacity [max_short_term >= 0],
    after any sequence of [add_short_term] calls the short-term list holds
    at most [max_short_term] entries, and they are the last
    [max_short_term] entries added (all of them when fewer were added), in
    the order of insertion.  This holds for [Memory] and for
    [AgentMemory]. *)
Theorem C3_short_term_window (embedding : Type)
    (max_short_term max_lt : Z) (calls : list MemoryCalls.st_call) :
  0 <= max_short_term ->
  let m := MemoryCalls.add_short_terms
             (MemoryCalls.empty max_short_term max_lt) calls in
  let am := MemoryCalls.agent_add_short_terms
              (MemoryCalls.agent_empty (embedding := embedding)
                 max_short_term max_lt) calls in
  (Z.of_nat (length (Memory.short_term m)) <= max_short_term
   /\ Memory.short_term m
      = drop (length calls - Z.to_nat max_short_term)
             (MemoryCalls.entry_of <$> calls))
  /\ (Z.of_nat (length (AgentMemory.short_term am)) <= max_short_term
      /\ AgentMemory.short_term am
         = drop (length calls - Z.to_nat max_short_term)
                (MemoryCalls.agent_entry_of <$> calls)).
Proof.
  intros Hcap m am. subst m am.
  rewrite add_short_terms_window, agent_add_short_terms_window by done.
  repeat split; try (by apply window_length);
    unfold PyList.window; by rewrite length_fmap.
Qed.

(** Scenario D: with [max_short_term = 3], adding four entries leaves
    entries 2, 3 and 4. *)
Lemma C3_scenario_D_witness :
  0 <= 3
  /\ Memory.short_term
       (MemoryCalls.add_short_terms (MemoryCalls.empty 3 100) ScenarioD.events)
     = MemoryCalls.entry_of <$>
         [ScenarioD.event 2 "two"; ScenarioD.event 3 "three";
          ScenarioD.event 4 "four"].
Proof.
  split; [lia |].
  exact (proj2 (proj1 (C3_short_term_window unit 3 100 ScenarioD.events
                         ltac:(lia)))).
Defined.

(** ** The insertion-ordered dictionary *)

Section PyDictFacts.
Context {V : Type}.
Implicit Types (d : PyDict.t V) (k : string) (v : V).

Lemma pydict_mem_keys k d : PyDict.mem k d = true <-> k ∈ PyDict.keys d.
Proof.
  unfold PyDict.mem, PyDict.keys.
  induction d as [| [k' v'] d IH]; csimpl.
  - split; [done | by intros ?%elem_of_nil].
  - destruct (String.eqb_spec k k') as [-> | Hne].
    + split; [intros _; left | done].
    + rewrite IH. split; [by right |].
      intros [? | ?]%elem_of_cons; [congruence | done].
Qed.

Lemma pydict_get_keys k d : is_Some (PyDict.get k d) <-> k ∈ PyDict.keys d.
Proof.
  rewrite <- pydict_mem_keys. unfold PyDict.mem.
  destruct (PyDict.get k d); split; try done; try (by eauto);
    by intros [? ?].
Qed.

Lemma pydict_keys_set k v d :
  PyDict.keys (PyDict.set k v d)
  = if PyDict.mem k d then PyDict.keys d else PyDict.keys d ++ [k].
Proof.
  unfold PyDict.mem, PyDict.keys.
  induction d as [| [k' v'] d IH]; csimpl; [done |].
  destruct (String.eqb_spec k k') as [-> | Hne]; csimpl; [done |].
  rewrite IH. by destruct (PyDict.get k d).
Qed.

Lemma pydict_elem_keys_set k k' v d :
  k' ∈ PyDict.keys (PyDict.set k v d) <-> k' = k \/ k' ∈ PyDict.keys d.
Proof.
  rewrite pydict_keys_set.
  destruct (PyDict.mem k d) eqn:Hm.
  - apply pydict_mem_keys in Hm. split; [by right |].
    by intros [-> | ?].
  - rewrite elem_of_app, list_elem_of_singleton. tauto.
Qed.

Lemma pydict_nodup_set k v d :
  NoDup (PyDict.keys d) -> NoDup (PyDict.keys (PyDict.set k v d)).
Proof.
  intros Hnd. rewrite pydict_keys_set.
  destruct (PyDict.mem k d) eqn:Hm; [done |].
  apply NoDup_app. split_and!; [done | | apply NoDup_singleton].
  intros x Hx ->%list_elem_of_singleton.
  apply pydict_mem_keys in Hx. congruence.
Qed.

Lemma pydict_elem_keys_del k k' d :
  NoDup (PyDict.keys d) ->
  k' ∈ PyDict.keys (PyDict.del k d) <-> k' ≠ k /\ k' ∈ PyDict.keys d.
Proof.
  unfold PyDict.keys.
  induction d as [| [k0 v0] d IH]; csimpl; intros Hnd.
  - split; [by intros ?%elem_of_nil | by intros [_ ?%elem_of_nil]].
  - apply NoDup_cons in Hnd as [Hk0 Hnd].
    destruct (String.eqb_spec k k0) as [-> | Hne].
    + split.
      * intros Hin. split; [intros -> | by right]. done.
      * intros [Hne [? | ?]%elem_of_cons]; done.
    + csimpl. rewrite !elem_of_cons, IH by done. split.
      * intros [-> | [? ?]]; [split; [done | by left] | split; [done | by right]].
      * intros [? [-> | ?]]; [by left | by right].
Qed.

Lemma pydict_nodup_del k d :
  NoDup (PyDict.keys d) -> NoDup (PyDict.keys (PyDict.del k d)).
Proof.
  unfold PyDict.keys.
  induction d as [| [k0 v0] d IH]; csimpl; intros Hnd; [done |].
  apply NoDup_cons in Hnd as [Hk0 Hnd].
  destruct (String.eqb_spec k k0) as [-> | Hne]; [done |].
  csimpl. apply NoDup_cons. split; [| by apply IH].
  intros Hin. apply (pydict_elem_keys_del k k0 d Hnd) in Hin. tauto.
Qed.

Lemma pydict_get_elem k v d :
  NoDup (PyDict.keys d) -> (k, v) ∈ d -> PyDict.get k d = Some v.
Proof.
  unfold PyDict.keys.
  induction d as [| [k0 v0] d IH]; csimpl; intros Hnd Hin.
  - by apply elem_of_nil in Hin.
  - apply NoDup_cons in Hnd as [Hk0 Hnd].
    apply elem_of_cons in Hin as [[= -> ->] | Hin].
    + by rewrite String.eqb_refl.
    + destruct (String.eqb_spec k k0) as [-> | Hne]; [| by apply IH].
      destruct Hk0. apply list_elem_of_fmap. by exists (k0, v).
Qed.
End PyDictFacts.

(** ** Long-term memory and its embeddings *)

Section LongTerm.
Context {embedding : Type}.
Variable encode : string -> embedding.
Implicit Types (m : AgentMemory.t embedding) (c : MemoryCalls.lt_call).
Local Abbreviation embeddings_live := LongTermSpec.embeddings_live.

Lemma add_long_term_max m c :
  AgentMemory.max_long_term (MemoryCalls.agent_add_long_term encode m c)
  = AgentMemory.max_long_term m.
Proof.
  unfold MemoryCalls.agent_add_long_term, AgentMemory.add_long_term.
  destruct (_ >? _); [| done].
  by destruct (AgentMemory.long_term m ++ _).
Qed.

(** What an evicting call leaves. *)
Lemma add_long_term_evicts m c oldest rest :
  NoDup (PyDict.keys (AgentMemory.embeddings m)) ->
  AgentMemory.long_term m ++ [MemoryCalls.lt_entry_of c] = oldest :: rest ->
  Z.of_nat (length (oldest :: rest)) > AgentMemory.max_long_term m ->
  let m' := MemoryCalls.agent_add_long_term encode m c in
  AgentMemory.long_term m' = rest
  /\ AgentMemory.key oldest ∉ PyDict.keys (AgentMemory.embeddings m').
Proof.
  intros Hnd Hlt Hgt m'. subst m'.
  unfold MemoryCalls.agent_add_long_term, AgentMemory.add_long_term.
  fold (MemoryCalls.lt_entry_of c). rewrite Hlt.
  destruct (Z.gtb_spec (Z.of_nat (length (oldest :: rest)))
              (AgentMemory.max_long_term m)) as [_ | ?]; [| lia].
  simpl. split; [done |].
  destruct (PyDict.mem _ _) eqn:Hm.
  - rewrite pydict_elem_keys_del by by apply pydict_nodup_set. tauto.
  - intros Hin%pydict_mem_keys. congruence.
Qed.

Lemma add_long_term_live m c :
  embeddings_live m ->
  embeddings_live (MemoryCalls.agent_add_long_term encode m c).
Proof.
  intros [Hnd Hlive].
  unfold MemoryCalls.agent_add_long_term, AgentMemory.add_long_term.
  fold (MemoryCalls.lt_entry_of c).
  set (lt := AgentMemory.long_term m ++ [MemoryCalls.lt_entry_of c]).
  set (emb := PyDict.set (MemoryCalls.l_key c)
                (encode (MemoryCalls.l_value c)) (AgentMemory.embeddings m)).
  assert (Hnd1 : NoDup (PyDict.keys emb)) by by apply pydict_nodup_set.
  assert (Hlive1 : forall k, k ∈ PyDict.keys emb ->
            exists e, e ∈ lt /\ AgentMemory.key e = k).
  { intros k [-> | Hk]%pydict_elem_keys_set.
    - exists (MemoryCalls.lt_entry_of c). split; [| done].
      apply elem_of_app. right. by apply list_elem_of_singleton.
    - destruct (Hlive k Hk) as (e & He & <-). exists e. split; [| done].
      apply elem_of_app. by left. }
  destruct (_ >? _); [| by split].
  destruct lt as [| oldest rest]; [by split |].
  unfold embeddings_live; simpl.
  destruct (PyDict.mem (AgentMemory.key oldest) emb) eqn:Hm.
  - split; [by apply pydict_nodup_del |].
    intros k [Hne Hk]%pydict_elem_keys_del; [| done].
    destruct (Hlive1 k Hk) as (e & [-> | He]%elem_of_cons & Hkey); [done |].
    by exists e.
  - split; [done |]. intros k Hk.
    destruct (Hlive1 k Hk) as (e & [-> | He]%elem_of_cons & Hkey).
    + apply pydict_mem_keys in Hk. congruence.
    + by exists e.
Qed.

Lemma add_long_terms_live m calls :
  embeddings_live m ->
  embeddings_live (MemoryCalls.agent_add_long_terms encode m calls).
Proof.
  revert m. induction calls as [| c calls IH]; intros m Hm; [done |].
  simpl. apply IH. by apply add_long_term_live.
Qed.

Lemma add_long_terms_max m calls :
  AgentMemory.max_long_term (MemoryCalls.agent_add_long_terms encode m calls)
  = AgentMemory.max_long_term m.
Proof.
  revert m. induction calls as [| c calls IH]; intros m; [done |].
  simpl. by rewrite IH, add_long_term_max.
Qed.

Lemma empty_live max_st max_lt :
  embeddings_live (MemoryCalls.agent_empty (embedding := embedding)
                     max_st max_lt).
Proof.
  split; [apply NoDup_nil_2 |]. by intros k ?%elem_of_nil.
Qed.

(** The live entries are a suffix of the entries added. *)
Lemma add_long_terms_suffix max_st max_lt calls :
  exists n,
    AgentMemory.long_term
      (MemoryCalls.agent_add_long_terms encode
         (MemoryCalls.agent_empty max_st max_lt) calls)
    = drop n (MemoryCalls.lt_entry_of <$> calls).
Proof.
  induction calls as [| c calls IH] using rev_ind; [by exists 0%nat |].
  destruct IH as [n IH].
  unfold MemoryCalls.agent_add_long_terms in *.
  rewrite foldl_app, fmap_app. simpl.
  set (m := foldl _ _ calls) in *.
  unfold MemoryCalls.agent_add_long_term, AgentMemory.add_long_term.
  fold (MemoryCalls.lt_entry_of c). rewrite IH.
  set (all := MemoryCalls.lt_entry_of <$> calls).
  destruct (decide (n <= length all)%nat) as [Hn | Hn].
  - rewrite <- (drop_app_le all [MemoryCalls.lt_entry_of c] n) by done.
    destruct (_ >? _); [| by exists n].
    destruct (drop n (all ++ _)) as [| o r] eqn:Hd; [by exists n |].
    exists (S n). simpl.
    replace (S n) with (n + 1)%nat by lia.
    rewrite <- drop_drop, Hd. simpl. by rewrite drop_0.
  - rewrite (drop_ge all n) by lia. simpl.
    exists (if Z.of_nat 1 >? AgentMemory.max_long_term m
            then S (length all) else length all).
    destruct (_ >? _); simpl.
    + rewrite drop_ge; [done | rewrite length_app; simpl; lia].
    + by rewrite drop_app_length.
Qed.
End LongTerm.

Lemma filter_none {A : Type} (P : A -> Prop) `{forall x, Decision (P x)}
    (l : list A) :
  (forall x, x ∈ l -> ~ P x) -> filter P l = [].
Proof.
  induction l as [| y l IH]; intros Hl; [done |].
  rewrite filter_cons, decide_False by (apply Hl; left).
  apply IH. intros x Hx. apply Hl. by right.
Qed.

Lemma filter_key_unique {A B : Type} `{EqDecision B} (f : A -> B)
    (l : list A) (x : A) :
  NoDup (f <$> l) -> x ∈ l ->
  length (filter (fun e => f e = f x) l) = 1%nat.
Proof.
  induction l as [| y l IH]; csimpl; intros Hnd Hin.
  - by apply elem_of_nil in Hin.
  - apply NoDup_cons in Hnd as [Hy Hnd]. rewrite filter_cons.
    apply elem_of_cons in Hin as [-> | Hin].
    + rewrite decide_True by done. simpl. f_equal.
      rewrite filter_none; [done |]. intros z Hz Heq. apply Hy.
      rewrite <- Heq. by apply list_elem_of_fmap_2.
    + rewrite decide_False; [by apply IH |].
      intros Heq. apply Hy. rewrite Heq. by apply list_elem_of_fmap_2.
Qed.

Lemma live_count_pos {embedding} (m : AgentMemory.t embedding) k :
  (exists e, e ∈ AgentMemory.long_term m /\ AgentMemory.key e = k) ->
  (1 <= LongTermSpec.live_count m k)%nat.
Proof.
  intros (e & He & Hk). unfold LongTermSpec.live_count.
  assert (Hin : e ∈ filter (fun e => AgentMemory.key e = k)
                      (AgentMemory.long_term m))
    by by apply list_elem_of_filter.
  destruct (filter _ _); [by apply elem_of_nil in Hin | simpl; lia].
Qed.

(** C4 (as amended). After any sequence of [add_long_term] calls on an
    initially empty [AgentMemory]: every key of the embeddings map has at
    least one live long-term entry (no embedding key outlives its entries);
    a call that overflows the capacity drops the oldest entry and leaves no
    embedding under that entry's key; and when the calls used pairwise
    distinct keys, every embedding key has exactly one live entry. *)
Theorem C4_embedding_keys_live (embedding : Type)
    (encode : string -> embedding) (max_st max_lt : Z)
    (calls : list MemoryCalls.lt_call) :
  let m := MemoryCalls.agent_add_long_terms encode
             (MemoryCalls.agent_empty max_st max_lt) calls in
  LongTermSpec.some_live m
  /\ (forall c oldest rest,
        AgentMemory.long_term m ++ [MemoryCalls.lt_entry_of c]
          = oldest :: rest ->
        Z.of_nat (length (oldest :: rest)) > max_lt ->
        let m' := MemoryCalls.agent_add_long_term encode m c in
        AgentMemory.long_term m' = rest
        /\ AgentMemory.key oldest ∉ PyDict.keys (AgentMemory.embeddings m'))
  /\ (NoDup (MemoryCalls.l_key <$> calls) -> LongTermSpec.exactly_one_live m).
Proof.
  intros m.
  assert (Hlive : LongTermSpec.embeddings_live m)
    by apply add_long_terms_live, empty_live.
  destruct Hlive as [Hnd Hlive].
  split_and!.
  - intros k Hk. by apply live_count_pos, Hlive.
  - intros c oldest rest Hlt Hgt.
    apply add_long_term_evicts; [done | done |].
    subst m. by rewrite add_long_terms_max.
  - intros Hkeys k Hk.
    destruct (Hlive k Hk) as (e & He & <-).
    apply filter_key_unique; [| done].
    destruct (add_long_terms_suffix encode max_st max_lt calls) as [n Hn].
    fold m in Hn. rewrite Hn, fmap_drop.
    eapply sublist_NoDup; [| apply sublist_drop].
    by rewrite <- list_fmap_compose.
Qed.

(** C4, counterexample. Storing two values under one key leaves one
    embedding key with two live long-term entries, not exactly one. *)
Lemma C4_same_key_twice_counterexample :
  ~ LongTermSpec.exactly_one_live
      (MemoryCalls.agent_add_long_terms (fun v : string => v)
         (MemoryCalls.agent_empty 20 1000) LongTermSpec.same_key_twice).
Proof.
  intros H. specialize (H "capital").
  assert (Hc : LongTermSpec.live_count
                 (MemoryCalls.agent_add_long_terms (fun v : string => v)
                    (MemoryCalls.agent_empty 20 1000)
                    LongTermSpec.same_key_twice) "capital" = 2%nat)
    by (vm_compute; reflexivity).
  rewrite Hc in H. discriminate H.
  vm_compute. left.
Qed.

(** ** Sorting in descending order, stably *)

Section SortedReverse.
Context {A K : Type}.
Variable lt : K -> K -> bool.
Variable key : A -> K.
Hypothesis lt_asym : forall a b, lt a b = true -> lt b a = false.
Hypothesis lt_negtrans :
  forall a b c, lt a b = false -> lt b c = false -> lt a c = false.

Implicit Types (l s : list A) (x y z a b : A).
Local Abbreviation ranked_before := (PyList.ranked_before lt key).

Lemma before_cons l x a b : before l a b -> before (x :: l) a b.
Proof. intros (l1 & l2 & -> & Hb). by exists (x :: l1), l2. Qed.

Lemma before_head l x b : b ∈ l -> before (x :: l) x b.
Proof. intros Hb. by exists [], l. Qed.

Lemma ranked_before_cons l x a b :
  ranked_before l a b -> ranked_before (x :: l) a b.
Proof.
  intros [Hlt Htie]. split; [done |].
  intros Ht. by apply before_cons, Htie.
Qed.

Lemma sorted_ranked_cons l x s :
  StronglySorted (ranked_before l) s ->
  StronglySorted (ranked_before (x :: l)) s.
Proof.
  induction 1 as [| y s Hs IH Hy]; constructor; [done |].
  eapply Forall_impl; [exact Hy |].
  intros z. apply ranked_before_cons.
Qed.

Lemma insert_desc_elem x s z :
  z ∈ PyList.insert_desc lt key x s <-> z = x \/ z ∈ s.
Proof.
  induction s as [| y s IH]; simpl.
  - rewrite list_elem_of_singleton, elem_of_nil. tauto.
  - destruct (lt (key x) (key y)); rewrite !elem_of_cons; [rewrite IH |];
      tauto.
Qed.

Lemma sorted_reverse_elem l z :
  z ∈ PyList.sorted_reverse lt key l <-> z ∈ l.
Proof.
  induction l as [| x l IH]; simpl; [done |].
  rewrite insert_desc_elem, elem_of_cons, IH. tauto.
Qed.

Lemma insert_desc_length x s :
  length (PyList.insert_desc lt key x s) = S (length s).
Proof.
  induction s as [| y s IH]; simpl; [done |].
  destruct (lt (key x) (key y)); simpl; by rewrite ?IH.
Qed.

Lemma sorted_reverse_length l :
  length (PyList.sorted_reverse lt key l) = length l.
Proof.
  induction l as [| x l IH]; simpl; [done |].
  by rewrite insert_desc_length, IH.
Qed.

Lemma insert_desc_sorted l x s :
  (forall z, z ∈ s -> z ∈ l) ->
  StronglySorted (ranked_before l) s ->
  StronglySorted (ranked_before (x :: l)) (PyList.insert_desc lt key x s).
Proof.
  intros Hsub Hs. induction Hs as [| y s Hs IH Hy]; simpl.
  - repeat constructor.
  - assert (Hsub' : forall z, z ∈ s -> z ∈ l)
      by (intros z Hz; apply Hsub; by right).
    destruct (lt (key x) (key y)) eqn:Hxy.
    + constructor; [by apply IH |].
      apply Forall_forall. intros z [-> | Hz]%insert_desc_elem.
      * split; [by apply lt_asym | congruence].
      * rewrite Forall_forall in Hy.
        by apply ranked_before_cons, Hy.
    + constructor.
      * apply sorted_ranked_cons. by constructor.
      * apply Forall_forall. intros z Hz.
        assert (Hxz : lt (key x) (key z) = false).
        { apply elem_of_cons in Hz as [-> | Hz]; [done |].
          rewrite Forall_forall in Hy. destruct (Hy z Hz) as [Hyz _].
          by apply (lt_negtrans _ (key y)). }
        split; [done |]. intros _. apply before_head. by apply Hsub.
Qed.

Lemma sorted_reverse_sorted l :
  StronglySorted (ranked_before l) (PyList.sorted_reverse lt key l).
Proof.
  induction l as [| x l IH]; simpl; [constructor |].
  apply insert_desc_sorted; [| done].
  intros z. by rewrite sorted_reverse_elem.
Qed.

Lemma sorted_lookup (R : A -> A -> Prop) l i j a b :
  StronglySorted R l -> (i < j)%nat ->
  l !! i = Some a -> l !! j = Some b -> R a b.
Proof.
  intros Hs Hij Hi Hj.
  rewrite <- (take_drop j l) in Hs.
  eapply StronglySorted_app_1_elem_of; [exact Hs | |].
  - apply list_elem_of_lookup. exists i. by rewrite lookup_take_lt.
  - apply list_elem_of_lookup. exists 0%nat.
    by rewrite lookup_drop, Nat.add_0_r.
Qed.
End SortedReverse.

Lemma slice_to_take {A : Type} (k : Z) (l : list A) :
  exists n, PyList.slice_to k l = take n l.
Proof. unfold PyList.slice_to. destruct (k <? 0); eauto. Qed.

Lemma slice_to_length {A : Type} (k : Z) (l : list A) :
  0 <= k -> Z.of_nat (length (PyList.slice_to k l)) <= k.
Proof.
  intros Hk. unfold PyList.slice_to.
  destruct (Z.ltb_spec k 0); [lia |]. rewrite length_take. lia.
Qed.

Lemma mapM_ok {A B : Type} (f : A -> result B) (l : list A) :
  (forall x, x ∈ l -> exists y, f x = Ok y) ->
  exists ys, PyList.mapM f l = Ok ys /\ Forall2 (fun x y => f x = Ok y) l ys.
Proof.
  induction l as [| x l IH]; intros Hl; simpl.
  - exists []. by split.
  - destruct (Hl x) as [y Hy]; [by left |].
    destruct IH as (ys & Hys & Hall); [intros z Hz; apply Hl; by right |].
    exists (y :: ys). rewrite Hy, Hys. split; [done | by constructor].
Qed.

Lemma pydict_set_fresh {V : Type} k (v : V) (d : PyDict.t V) :
  k ∉ PyDict.keys d -> PyDict.set k v d = d ++ [(k, v)].
Proof.
  unfold PyDict.keys.
  induction d as [| [k' v'] d IH]; csimpl; intros Hk; [done |].
  apply not_elem_of_cons in Hk as [Hne Hk].
  destruct (String.eqb_spec k k') as [-> | _]; [done |].
  by rewrite IH.
Qed.

Lemma pydict_fold_set {V W : Type} (f : V -> W) (d : PyDict.t V)
    (acc : PyDict.t W) :
  NoDup (PyDict.keys d) ->
  (forall k, k ∈ PyDict.keys acc -> k ∉ PyDict.keys d) ->
  foldl (fun sims '(k, e) => PyDict.set k (f e) sims) acc d
  = acc ++ ((fun '(k, e) => (k, f e)) <$> d).
Proof.
  unfold PyDict.keys. revert acc.
  induction d as [| [k e] d IH]; csimpl; intros acc Hnd Hdisj.
  - by rewrite app_nil_r.
  - apply NoDup_cons in Hnd as [Hk Hnd].
    rewrite pydict_set_fresh.
    + rewrite IH, <- app_assoc; [done | done |].
      intros k' Hk' Hin. rewrite fmap_app in Hk'. csimpl in Hk'.
      apply elem_of_app in Hk' as [Hk' | ->%list_elem_of_singleton].
      * apply (Hdisj k' Hk'). by right.
      * done.
    + intros Hin. apply (Hdisj k Hin). by left.
Qed.

Section Relevance.
Context {embedding score : Type}.
Variable encode : string -> embedding.
Variable cosine_similarity : embedding -> embedding -> score.
Variable score_lt : score -> score -> bool.
Hypothesis lt_asym : forall a b, score_lt a b = true -> score_lt b a = false.
Hypothesis lt_negtrans :
  forall a b c, score_lt a b = false -> score_lt b c = false ->
                score_lt a c = false.

Lemma first_with_key_ok (m : AgentMemory.t embedding) k item :
  AgentMemory.first_with_key m k = Ok item ->
  item ∈ AgentMemory.long_term m /\ AgentMemory.key item = k.
Proof.
  unfold AgentMemory.first_with_key.
  destruct (find _ _) as [x |] eqn:Hf; [| done].
  intros [= <-]. apply find_some in Hf as [Hin Heq].
  split; [by apply list_elem_of_In | by apply String.eqb_eq].
Qed.

Lemma first_with_key_live (m : AgentMemory.t embedding) k :
  (exists e, e ∈ AgentMemory.long_term m /\ AgentMemory.key e = k) ->
  exists item, AgentMemory.first_with_key m k = Ok item.
Proof.
  intros (e & He & Hk). unfold AgentMemory.first_with_key.
  destruct (find _ _) as [x |] eqn:Hf; [by eauto |].
  apply find_none with (x := e) in Hf; [| by apply list_elem_of_In].
  apply String.eqb_neq in Hf. done.
Qed.

Lemma relevant_ranked (m : AgentMemory.t embedding) query top_k :
  LongTermSpec.embeddings_live m ->
  exists res,
    AgentMemory.get_relevant_memory encode cosine_similarity score_lt
      m query top_k = Ok res
    /\ (0 <= top_k -> Z.of_nat (length res) <= top_k)
    /\ forall i j a b,
         (i < j)%nat -> res !! i = Some a -> res !! j = Some b ->
         a ∈ AgentMemory.long_term m /\ b ∈ AgentMemory.long_term m
         /\ exists sa sb,
              AgentMemory.similarity_of encode cosine_similarity m query
                (AgentMemory.key a) = Some sa
              /\ AgentMemory.similarity_of encode cosine_similarity m query
                   (AgentMemory.key b) = Some sb
              /\ score_lt sa sb = false
              /\ (score_lt sb sa = false ->
                  before (PyDict.keys (AgentMemory.embeddings m))
                    (AgentMemory.key a) (AgentMemory.key b)).
Proof.
  intros [Hnd Hlive]. unfold AgentMemory.get_relevant_memory.
  rewrite (pydict_fold_set (cosine_similarity (encode query))) by
    (done || by intros k ?%elem_of_nil).
  rewrite app_nil_l.
  set (sims := (fun '(k, e) => (k, cosine_similarity (encode query) e))
                 <$> AgentMemory.embeddings m).
  set (sorted := PyList.sorted_reverse score_lt snd sims).
  destruct (slice_to_take top_k sorted) as [n Hn].
  assert (Hkeys : sims.*1 = PyDict.keys (AgentMemory.embeddings m)).
  { unfold sims, PyDict.keys. rewrite <- list_fmap_compose.
    apply list_fmap_ext. by intros _ [k e] _. }
  assert (Hsim : forall k s, (k, s) ∈ sims ->
            AgentMemory.similarity_of encode cosine_similarity m query k
            = Some s).
  { intros k s ([k' e] & [= -> ->] & Hin)%list_elem_of_fmap.
    unfold AgentMemory.similarity_of.
    by rewrite (pydict_get_elem k' e). }
  assert (Hranked : forall p, p ∈ PyList.slice_to top_k sorted -> p ∈ sims).
  { intros p Hp. rewrite Hn in Hp.
    apply (sorted_reverse_elem score_lt snd).
    by apply (subseteq_take n sorted). }
  destruct (mapM_ok (fun '(k, _) => AgentMemory.first_with_key m k)
              (PyList.slice_to top_k sorted)) as (res & Hres & Hall).
  { intros [k s] Hp%Hranked. apply first_with_key_live, Hlive.
    rewrite <- Hkeys. apply list_elem_of_fmap. by exists (k, s). }
  exists res. split; [done |]. split.
  { intros Hk. rewrite <- (Forall2_length _ _ _ Hall).
    by apply slice_to_length. }
  intros i j a b Hij Ha Hb.
  destruct (Forall2_lookup_r _ _ _ _ _ Hall Ha) as ([ka sa] & Hpa & Hfa).
  destruct (Forall2_lookup_r _ _ _ _ _ Hall Hb) as ([kb sb] & Hpb & Hfb).
  apply first_with_key_ok in Hfa as [Hina <-].
  apply first_with_key_ok in Hfb as [Hinb <-].
  split; [done |]. split; [done |]. exists sa, sb.
  assert (Hsorted : StronglySorted (PyList.ranked_before score_lt snd sims)
                      (PyList.slice_to top_k sorted)).
  { rewrite Hn. apply (StronglySorted_app_1_l _ _ (drop n sorted)).
    rewrite take_drop. by apply sorted_reverse_sorted. }
  destruct (sorted_lookup _ _ _ _ _ _ Hsorted Hij Hpa Hpb) as [Hlt Htie].
  split_and!.
  - apply Hsim, Hranked. by eapply list_elem_of_lookup_2.
  - apply Hsim, Hranked. by eapply list_elem_of_lookup_2.
  - done.
  - intros Hback. destruct (Htie Hback) as (l1 & l2 & Hsplit & Hin).
    exists (l1.*1), (l2.*1). split.
    + by rewrite <- Hkeys, Hsplit, fmap_app.
    + apply list_elem_of_fmap. by exists (AgentMemory.key b, sb).
Qed.
End Relevance.

(** C7 (as amended). Let [<] on similarity values be asymmetric and let
    "not smaller" be transitive (no NaN).  After any sequence of
    [add_long_term] calls, [get_relevant_memory query top_k] returns
    entries of the long-term store; at most [top_k] of them when
    [top_k >= 0]; ordered by non-increasing similarity between the query's
    embedding and the embedding stored under each entry's key; and of two
    entries of equal similarity the one whose key entered the embeddings
    map first comes first. *)
Theorem C7_relevant_ranked (embedding score : Type)
    (encode : string -> embedding)
    (cosine_similarity : embedding -> embedding -> score)
    (score_lt : score -> score -> bool)
    (max_st max_lt : Z) (calls : list MemoryCalls.lt_call)
    (query : string) (top_k : Z) :
  (forall a b, score_lt a b = true -> score_lt b a = false) ->
  (forall a b c, score_lt a b = false -> score_lt b c = false ->
                 score_lt a c = false) ->
  let m := MemoryCalls.agent_add_long_terms encode
             (MemoryCalls.agent_empty max_st max_lt) calls in
  exists res,
    AgentMemory.get_relevant_memory encode cosine_similarity score_lt
      m query top_k = Ok res
    /\ (0 <= top_k -> Z.of_nat (length res) <= top_k)
    /\ forall i j a b,
         (i < j)%nat -> res !! i = Some a -> res !! j = Some b ->
         a ∈ AgentMemory.long_term m /\ b ∈ AgentMemory.long_term m
         /\ exists sa sb,
              AgentMemory.similarity_of encode cosine_similarity m query
                (AgentMemory.key a) = Some sa
              /\ AgentMemory.similarity_of encode cosine_similarity m query
                   (AgentMemory.key b) = Some sb
              /\ score_lt sa sb = false
              /\ (score_lt sb sa = false ->
                  before (PyDict.keys (AgentMemory.embeddings m))
                    (AgentMemory.key a) (AgentMemory.key b)).
Proof.
  intros Hasym Hneg m.
  apply relevant_ranked; [done | done |].
  apply add_long_terms_live, empty_live.
Qed.

(** C7 at a concrete store: integer similarities, three notes, the two best
    asked for. *)
Lemma C7_relevant_ranked_witness :
  (forall a b, (a <? b) = true -> (b <? a) = false)
  /\ (forall a b c, (a <? b) = false -> (b <? c) = false -> (a <? c) = false)
  /\ exists res,
       AgentMemory.get_relevant_memory RelevanceSpec.text_encode
         RelevanceSpec.text_similarity Z.ltb RelevanceSpec.notes_memory
         "Paris" 2 = Ok res
       /\ (0 <= 2 -> Z.of_nat (length res) <= 2).
Proof.
  assert (H1 : forall a b, (a <? b) = true -> (b <? a) = false) by lia.
  assert (H2 : forall a b c,
             (a <? b) = false -> (b <? c) = false -> (a <? c) = false) by lia.
  split; [exact H1 |]. split; [exact H2 |].
  destruct (C7_relevant_ranked string Z RelevanceSpec.text_encode
              RelevanceSpec.text_similarity Z.ltb 20 1000
              RelevanceSpec.notes "Paris" 2 H1 H2) as (res & Hres & Hlen & _).
  exists res. split; [exact Hres | exact Hlen].
Defined.

(** C7, counterexample. Two entries of equal similarity come back oldest
    first, not most recent first; and with [top_k = -1] on three stored
    entries two are returned, more than [top_k]. *)
Lemma C7_ties_and_negative_k_counterexample :
  (exists res,
     AgentMemory.get_relevant_memory RelevanceSpec.text_encode
       RelevanceSpec.text_similarity Z.ltb RelevanceSpec.notes_memory
       "Paris" 2 = Ok res
     /\ ~ RelevanceSpec.ties_recent_first Z.ltb
          (fun e => AgentMemory.similarity_of RelevanceSpec.text_encode
                      RelevanceSpec.text_similarity
                      RelevanceSpec.notes_memory "Paris" (AgentMemory.key e))
          res)
  /\ (exists res,
        AgentMemory.get_relevant_memory RelevanceSpec.text_encode
          RelevanceSpec.text_similarity Z.ltb RelevanceSpec.notes_memory
          "Paris" (-1) = Ok res
        /\ ~ Z.of_nat (length res) <= -1).
Proof.
  split.
  - eexists. split; [vm_compute; reflexivity |].
    intros H.
    specialize (H 0%nat 1%nat _ _ 1 1 ltac:(lia) eq_refl eq_refl
                  eq_refl eq_refl eq_refl eq_refl).
    vm_compute in H. by apply H.
  - eexists. split; [vm_compute; reflexivity |]. simpl. lia.
Qed.

(** ** Strings *)

Section StringFacts.
Implicit Types (s t u sep : string) (c : ascii).

Lemma str_app_cons c s t : String c s +:+ t = String c (s +:+ t).
Proof. reflexivity. Qed.

Lemma str_app_nil_l s : "" +:+ s = s.
Proof. reflexivity. Qed.

Lemma str_app_nil_r s : s +:+ "" = s.
Proof.
  induction s as [| c s IH]; [done | by rewrite str_app_cons, IH].
Qed.

Lemma str_app_assoc s t u : (s +:+ t) +:+ u = s +:+ (t +:+ u).
Proof.
  induction s as [| c s IH]; [done | by rewrite !str_app_cons, IH].
Qed.

Lemma str_app_length s t :
  String.length (s +:+ t) = (String.length s + String.length t)%nat.
Proof.
  induction s as [| c s IH]; [done |].
  rewrite str_app_cons. simpl. by rewrite IH.
Qed.

Lemma prefix_spec sep s :
  String.prefix sep s = true <-> exists r, s = sep +:+ r.
Proof.
  revert s. induction sep as [| c sep IH]; intros s.
  - destruct s; simpl; (split; [eauto | done]).
  - destruct s as [| c' s]; simpl; [split; [done | by intros [r ?]] |].
    destruct (ascii_dec c c') as [-> | Hne].
    + rewrite IH. split; intros [r Hr]; exists r.
      * by rewrite str_app_cons, <- Hr.
      * rewrite str_app_cons in Hr. congruence.
    + split; [done | intros [r Hr]].
      rewrite str_app_cons in Hr. congruence.
Qed.

Lemma drop_app sep r : PyStr.drop (String.length sep) (sep +:+ r) = r.
Proof.
  induction sep as [| c sep IH]; [by destruct r |].
  by rewrite str_app_cons.
Qed.

Lemma contains_spec sep s :
  PyStr.contains sep s = true <-> exists a b, s = a +:+ sep +:+ b.
Proof.
  induction s as [| c s IH].
  - cbn [PyStr.contains].
    destruct (String.prefix sep "") eqn:Hp.
    + apply prefix_spec in Hp as [r Hr]. split; [| done].
      intros _. by exists "", r.
    + split; [done |]. intros (a & b & Hab).
      assert (String.prefix sep "" = true); [| congruence].
      apply prefix_spec. destruct a; [by exists b | done].
  - cbn [PyStr.contains].
    destruct (String.prefix sep (String c s)) eqn:Hp.
    + apply prefix_spec in Hp as [r Hr]. split; [| done].
      intros _. by exists "", r.
    + rewrite IH. split.
      * intros (a & b & ->). by exists (String c a), b.
      * intros ([| c' a] & b & Hab).
        -- assert (String.prefix sep (String c s) = true); [| congruence].
           apply prefix_spec. by exists b.
        -- injection Hab as -> ->. by exists a, b.
Qed.

Lemma contains_app_r sep a b :
  PyStr.contains sep b = true -> PyStr.contains sep (a +:+ b) = true.
Proof.
  rewrite !contains_spec. intros (x & y & ->).
  exists (a +:+ x), y. by rewrite str_app_assoc.
Qed.

Lemma partition_none sep s :
  PyStr.partition sep s = None <-> PyStr.contains sep s = false.
Proof.
  induction s as [| c s IH]; cbn [PyStr.partition PyStr.contains];
    destruct (String.prefix sep _); try done.
  destruct (PyStr.partition sep s) as [[b a] |]; rewrite <- IH; done.
Qed.

Lemma prefix_drop sep s :
  String.prefix sep s = true -> s = sep +:+ PyStr.drop (String.length sep) s.
Proof.
  intros [r ->]%prefix_spec. by rewrite drop_app.
Qed.

Lemma partition_some sep s b a :
  PyStr.partition sep s = Some (b, a) -> s = b +:+ sep +:+ a.
Proof.
  revert b. induction s as [| c s IH]; intros b;
    cbn [PyStr.partition]; destruct (String.prefix sep _) eqn:Hp.
  - intros [= <- <-]. by apply prefix_drop.
  - done.
  - intros [= <- <-]. by apply prefix_drop.
  - destruct (PyStr.partition sep s) as [[b' a'] |]; [| done].
    intros [= <- <-]. rewrite str_app_cons. f_equal. by apply IH.
Qed.

(** The last piece of a split: the text after an occurrence of the separator
    that has no occurrence after it. *)
Lemma split_last sep s fuel :
  sep <> "" -> (String.length s <= fuel)%nat ->
  PyStr.contains sep s = true ->
  exists pre rest,
    s = pre +:+ sep +:+ rest
    /\ PyStr.contains sep rest = false
    /\ PyStr.last_piece (PyStr.split_fuel fuel sep s) = rest.
Proof.
  intros Hsep. revert s.
  induction fuel as [| fuel IH]; intros s Hlen Hc.
  - destruct s; [| simpl in Hlen; lia].
    apply contains_spec in Hc as (a & b & Hab).
    destruct a, sep; done.
  - cbn [PyStr.split_fuel].
    destruct (PyStr.partition sep s) as [[b a] |] eqn:Hp.
    + pose proof (partition_some _ _ _ _ Hp) as Hs.
      assert (Hla : (String.length a <= fuel)%nat).
      { apply (f_equal String.length) in Hs.
        rewrite !str_app_length in Hs.
        destruct sep; [done | simpl in Hs; lia]. }
      destruct (PyStr.contains sep a) eqn:Hca.
      * destruct (IH a Hla Hca) as (pre & rest & Ha & Hrest & Hlast).
        exists (b +:+ sep +:+ pre), rest. split_and!; [| done |].
        -- by rewrite Hs, Ha, !str_app_assoc.
        -- unfold PyStr.last_piece in *.
           destruct (PyStr.split_fuel fuel sep a) eqn:Hsf; [| done].
           destruct fuel; simpl in Hsf; [done |].
           by destruct (PyStr.partition sep a) as [[? ?] |].
      * exists b, a. split_and!; [done | done |].
        destruct fuel; [done |]. cbn [PyStr.split_fuel].
        apply partition_none in Hca. by rewrite Hca.
    + apply partition_none in Hp. congruence.
Qed.
End StringFacts.

(** ** The backtracking matcher finds a match exactly when one exists *)

Section Regex.
Implicit Types (p r : PyRe.pattern) (s : string) (st : PyRe.captures).

Lemma star_lang_step cls r x s :
  (exists a b, String x s = a +:+ b /\ PyRe.all_chars cls a = true
               /\ PyRe.lang r b)
  <-> PyRe.lang r (String x s)
      \/ (cls x = true
          /\ exists a b, s = a +:+ b /\ PyRe.all_chars cls a = true
                         /\ PyRe.lang r b).
Proof.
  split.
  - intros ([| y a] & b & Hab & Ha & Hb).
    + left. by rewrite Hab.
    + right. rewrite str_app_cons in Hab. injection Hab as -> ->.
      simpl in Ha. apply andb_prop in Ha as [Hy Ha]. eauto 6.
  - intros [Hr | (Hx & a & b & -> & Ha & Hb)].
    + by exists "", (String x s).
    + exists (String x a), b. split_and!; [done | | done].
      simpl. by rewrite Hx, Ha.
Qed.

Lemma star_lang_nil cls r :
  (exists a b, "" = a +:+ b /\ PyRe.all_chars cls a = true /\ PyRe.lang r b)
  <-> PyRe.lang r "".
Proof.
  split.
  - intros ([| y a] & b & Hab & _ & Hb); [by rewrite Hab | done].
  - intros Hr. by exists "", "".
Qed.

Lemma rmatch_lang p s st :
  is_Some (PyRe.rmatch p s st) <-> PyRe.lang p s.
Proof.
  revert s st. induction p as [| i r IH]; intros s st.
  - simpl. split; [done | by eauto].
  - destruct i as [c | cls | cls | cls | |]; simpl.
    + destruct s as [| x s]; [split; [by intros [? ?] | by intros (? & ? & ?)] |].
      destruct (Ascii.eqb_spec x c) as [-> | Hne].
      * rewrite IH. split; [by eauto | by intros (? & [= ->] & ?)].
      * split; [by intros [? ?] | intros (? & [= ? ?] & ?); done].
    + destruct s as [| x s].
      * rewrite IH. split; [by left | intros [? | (? & ? & ? & ?)]; done].
      * destruct (cls x) eqn:Hx.
        -- destruct (PyRe.rmatch r s (PyRe.push x st)) eqn:Hm.
           ++ split; [intros _ | by eauto]. right. exists x, s.
              split_and!; [done | done |]. apply (IH s (PyRe.push x st)).
              by rewrite Hm.
           ++ rewrite IH. split; [by left |].
              intros [? | (? & ? & [= <- <-] & _ & Hl)]; [done |].
              apply (IH s (PyRe.push x st)) in Hl. rewrite Hm in Hl.
              by destruct Hl.
        -- rewrite IH. split; [by left |].
           intros [? | (? & ? & [= <- <-] & ? & _)]; [done | congruence].
    + revert st. induction s as [| x s IHs]; intros st.
      * by rewrite IH, star_lang_nil.
      * rewrite star_lang_step. destruct (cls x) eqn:Hx.
        -- destruct ((fix star s st := _) s (PyRe.push x st)) eqn:Hm.
           ++ split; [intros _ | by eauto]. right. split; [done |].
              apply (IHs (PyRe.push x st)). by rewrite Hm.
           ++ rewrite IH. split; [by left |].
              intros [? | [_ Hl]]; [done |].
              apply (IHs (PyRe.push x st)) in Hl. rewrite Hm in Hl.
              by destruct Hl.
        -- rewrite IH. split; [by left | intros [? | [? _]]; done].
    + revert st. induction s as [| x s IHs]; intros st.
      * rewrite star_lang_nil.
        destruct (PyRe.rmatch r "" st) eqn:Hm.
        -- split; [intros _ | by eauto]. apply (IH "" st). by rewrite Hm.
        -- split; [by intros [? ?] |]. intros Hl%(IH "" st).
           by rewrite Hm in Hl.
      * rewrite star_lang_step.
        destruct (PyRe.rmatch r (String x s) st) eqn:Hm.
        -- split; [intros _ | by eauto]. left.
           apply (IH (String x s) st). by rewrite Hm.
        -- destruct (cls x) eqn:Hx.
           ++ rewrite IHs. split; [by right |].
              intros [Hl%(IH (String x s) st) | [_ ?]]; [| done].
              rewrite Hm in Hl. by destruct Hl.
           ++ split; [by intros [? ?] |].
              intros [Hl%(IH (String x s) st) | [? _]]; [| done].
              rewrite Hm in Hl. by destruct Hl.
    + apply IH.
    + apply IH.
Qed.

Lemma search_lang p s :
  is_Some (PyRe.search p s)
  <-> exists pre suf, s = pre +:+ suf /\ PyRe.lang p suf.
Proof.
  induction s as [| x s IHs]; cbn [PyRe.search].
  - destruct (PyRe.rmatch p "" PyRe.no_captures) eqn:Hm.
    + split; [intros _ | by eauto]. exists "", "". split; [done |].
      apply (rmatch_lang p "" PyRe.no_captures). by rewrite Hm.
    + split; [by intros [? ?] |].
      intros ([| ? ?] & suf & Hs & Hl); [| done].
      rewrite str_app_nil_l in Hs. subst suf.
      apply (rmatch_lang p "" PyRe.no_captures) in Hl. by rewrite Hm in Hl.
  - destruct (PyRe.rmatch p (String x s) PyRe.no_captures) eqn:Hm.
    + split; [intros _ | by eauto]. exists "", (String x s).
      split; [done |].
      apply (rmatch_lang p (String x s) PyRe.no_captures). by rewrite Hm.
    + rewrite IHs. split.
      * intros (pre & suf & -> & Hl). by exists (String x pre), suf.
      * intros ([| y pre] & suf & Hs & Hl).
        -- rewrite str_app_nil_l in Hs. subst suf.
           apply (rmatch_lang p (String x s) PyRe.no_captures) in Hl.
           rewrite Hm in Hl. by destruct Hl.
        -- rewrite str_app_cons in Hs. injection Hs as -> ->. by eauto.
Qed.

Lemma lang_lits l r s :
  PyRe.lang (PyRe.lits l ++ r) s <-> exists s', s = l +:+ s' /\ PyRe.lang r s'.
Proof.
  revert s. induction l as [| c l IH]; intros s; cbn [PyRe.lits app PyRe.lang].
  - split; [by eauto | by intros (s' & -> & ?)].
  - split.
    + intros (s1 & -> & (s' & -> & Hr)%IH). by exists s'.
    + intros (s' & -> & Hr). exists (l +:+ s'). split; [done |].
      apply IH. by exists s'.
Qed.

Lemma all_any s : PyRe.all_chars PyRe.any_char s = true.
Proof. induction s; [done | by simpl]. Qed.
End Regex.

(** ** The action parser *)

Lemma action_regex_lang s :
  PyRe.lang Parser.action_regex s
  <-> exists mid post, s = "Action: " +:+ mid +:+ "Action Input:" +:+ post.
Proof.
  unfold Parser.action_regex. rewrite lang_lits.
  split.
  - intros (s1 & -> & Hl). cbn [app PyRe.lang] in Hl.
    assert (Hrest : forall t,
              (exists a b, t = a +:+ b /\ PyRe.all_chars PyRe.any_char a = true
                 /\ (PyRe.lang
                       (PyRe.Star (PyRe.is_char Parser.newline)
                        :: PyRe.lits "Action Input:" ++
                           [PyRe.Star PyStr.is_space; PyRe.GroupOpen;
                            PyRe.Star PyRe.any_char; PyRe.GroupClose]) b
                     \/ exists x b',
                          b = String x b' /\ PyRe.is_char "]" x = true
                          /\ PyRe.lang
                               (PyRe.Star (PyRe.is_char Parser.newline)
                                :: PyRe.lits "Action Input:" ++
                                   [PyRe.Star PyStr.is_space; PyRe.GroupOpen;
                                    PyRe.Star PyRe.any_char;
                                    PyRe.GroupClose]) b')) ->
              exists mid post, t = mid +:+ "Action Input:" +:+ post).
    { intros t (a & b & -> & _ & [Hb | (x & b' & -> & _ & Hb)]);
        cbn [PyRe.lang] in Hb;
        destruct Hb as (nl & b2 & -> & _ & (post & -> & _)%lang_lits).
      - exists (a +:+ nl), post. by rewrite !str_app_assoc.
      - exists (a +:+ String x nl), post.
        by rewrite str_app_assoc, str_app_cons. }
    destruct Hl as [Hl | (x & s2 & -> & _ & Hl)].
    + destruct (Hrest _ Hl) as (mid & post & ->). by exists mid, post.
    + destruct (Hrest _ Hl) as (mid & post & ->).
      exists (String x mid), post. by rewrite !str_app_cons.
  - intros (mid & post & ->).
    exists (mid +:+ "Action Input:" +:+ post). split; [done |].
    cbn [app PyRe.lang]. left.
    exists mid, ("Action Input:" +:+ post).
    split_and!; [done | apply all_any |]. left.
    exists "", ("Action Input:" +:+ post). split_and!; [done | done |].
    apply lang_lits. exists post. split; [done |].
    cbn [PyRe.lang]. exists "", post. split_and!; [done | done |].
    exists post, "". split_and!; [by rewrite str_app_nil_r | apply all_any |].
    done.
Qed.

Lemma action_search_block generated :
  is_Some (PyRe.search Parser.action_regex generated)
  <-> Parser.has_action_block generated.
Proof.
  rewrite search_lang. unfold Parser.has_action_block. split.
  - intros (pre & suf & -> & (mid & post & ->)%action_regex_lang).
    by exists pre, mid, post.
  - intros (pre & mid & post & ->).
    exists pre, ("Action: " +:+ mid +:+ "Action Input:" +:+ post).
    split; [done |]. apply action_regex_lang. by exists mid, post.
Qed.

(** C5 (as amended). When the text contains the final-answer marker,
    [_parse] returns the action named Final Answer whose payload is the text
    after the last occurrence of the marker with the surrounding whitespace
    stripped, whatever else the text holds.  When the text contains neither
    the marker nor an action label followed by an input label, [_parse]
    raises [ValueError]; with such a block and no marker it returns a tool
    call. *)
Theorem C5_parse_priority (generated : string) :
  (PyStr.contains Parser.FINAL_ANSWER_TOKEN generated = true ->
   exists pre rest,
     generated = pre +:+ Parser.FINAL_ANSWER_TOKEN +:+ rest
     /\ PyStr.contains Parser.FINAL_ANSWER_TOKEN rest = false
     /\ Parser._parse generated = Ok ("Final Answer", PyStr.strip rest))
  /\ (PyStr.contains Parser.FINAL_ANSWER_TOKEN generated = false ->
      ~ Parser.has_action_block generated ->
      Parser._parse generated
      = Raise (ValueError
                 ("Output of LLM is not parsable for next tool use: `"
                  +:+ generated +:+ "`")))
  /\ (PyStr.contains Parser.FINAL_ANSWER_TOKEN generated = false ->
      Parser.has_action_block generated ->
      exists tool tool_input, Parser._parse generated = Ok (tool, tool_input)).
Proof.
  unfold Parser._parse. split_and!.
  - intros Hc. rewrite Hc.
    destruct (split_last Parser.FINAL_ANSWER_TOKEN generated
                (String.length generated)) as (pre & rest & H1 & H2 & H3);
      [done | done | done |].
    exists pre, rest. split_and!; [done | done |].
    unfold PyStr.split. by rewrite H3.
  - intros Hc Hno. rewrite Hc.
    destruct (PyRe.search Parser.action_regex generated) eqn:Hs; [| done].
    destruct Hno. apply action_search_block. by rewrite Hs.
  - intros Hc Hblock. rewrite Hc.
    apply action_search_block in Hblock as [m Hm]. rewrite Hm. by eauto.
Qed.

(** C5, counterexample. With two markers in the text the payload is what
    follows the last one, stripped: it is not everything after the marker,
    and no occurrence of the marker is followed by exactly the payload. *)
Lemma C5_payload_counterexample :
  Parser._parse Parser.two_answers = Ok ("Final Answer", "5")
  /\ Parser.two_answers
     = "" +:+ Parser.FINAL_ANSWER_TOKEN +:+ " 4 Final Answer: 5"
  /\ forall pre,
       Parser.two_answers <> pre +:+ Parser.FINAL_ANSWER_TOKEN +:+ "5".
Proof.
  split_and!; [by vm_compute | by vm_compute |].
  intros pre H.
  assert (Hlen : String.length pre = 17%nat).
  { apply (f_equal String.length) in H. rewrite str_app_length in H.
    change (String.length Parser.two_answers) with 31%nat in H.
    change (String.length (Parser.FINAL_ANSWER_TOKEN +:+ "5"))
      with 14%nat in H.
    lia. }
  apply (f_equal (PyStr.drop 17)) in H.
  replace (PyStr.drop 17 (pre +:+ Parser.FINAL_ANSWER_TOKEN +:+ "5"))
    with (Parser.FINAL_ANSWER_TOKEN +:+ "5") in H
    by (rewrite <- Hlen; by rewrite drop_app).
  vm_compute in H. discriminate H.
Qed.

(** Scenario B: an action block parses to the tool and its input. *)
Example parse_scenario_B :
  Parser._parse "Thought: plan
Action: Search
Action Input: capital of France"
  = Ok ("Search", "capital of France").
Proof. vm_compute. reflexivity. Qed.

(** Scenario C: a final answer wins over an action block before it. *)
Example parse_scenario_C :
  Parser._parse "Thought: plan
Action: Search
Action Input: capital of France
Final Answer: Paris"
  = Ok ("Final Answer", "Paris").
Proof. vm_compute. reflexivity. Qed.

(** Brackets around the tool name and the newlines after it are dropped;
    the input keeps its trailing newline. *)
Example parse_bracketed_tool :
  Parser._parse "Thought: plan
Action: [Search]

Action Input:   'capital of France'  
"
  = Ok ("Search", "'capital of France'  
").
Proof. vm_compute. reflexivity. Qed.

(** Of several action labels the first one opens the match, and the tool
    name runs up to the first input label. *)
Example parse_first_action_label :
  Parser._parse "Action: Action: [x
Action Input: Action: y
Action Input: z"
  = Ok ("Action: [x", "Action: y
Action Input: z").
Proof. vm_compute. reflexivity. Qed.

(** ** The tool manager's statistics *)

Section Manager.
Context {W : Type} `{Env W}.
Implicit Types (self : EnhancedToolManager.t W) (w : W)
  (s : EnhancedToolManager.state (W := W)).
Local Abbreviation stats_consistent := (ManagerCalls.stats_consistent (W := W)).
Local Abbreviation keeps_tools := (ManagerCalls.keeps_tools (W := W)).

Lemma tracked_use_spec tool tool_name input_text t0 self w st :
  EnhancedToolManager.tool_stats self !! tool_name = Some st ->
  ToolStats.usage_count st + 1 <> 0 ->
  let '(r, w2) := ToolInterface.use tool input_text w in
  let '(t1, w3) := datetime_now w2 in
  let '(t2, w4) := datetime_now w3 in
  EnhancedToolManager.tracked_use tool tool_name input_text t0 (self, w)
  = (r, (EnhancedToolManager.with_stats self
           (<[tool_name := ManagerCalls.tracked st (ManagerCalls.is_ok r) t1
                             (total_seconds t2 t0)]>
              (EnhancedToolManager.tool_stats self)), w4)).
Proof.
  intros Hst Hnz.
  destruct (ToolInterface.use tool input_text w) as [r w2] eqn:Huse.
  destruct (datetime_now w2) as [t1 w3] eqn:Ht1.
  destruct (datetime_now w3) as [t2 w4] eqn:Ht2.
  unfold EnhancedToolManager.tracked_use, EnhancedToolManager.finally_block,
    EnhancedToolManager.update_stats, EnhancedToolManager.get_stats,
    EnhancedToolManager.with_stats, try_finally, try_except.
  unfold bind, on_snd, total, ret, raise.
  cbn. rewrite Huse.
  destruct r as [result | e]; cbn; rewrite Hst; cbn;
    rewrite ?lookup_insert_eq; cbn; rewrite Ht1; cbn;
    rewrite ?lookup_insert_eq; cbn; rewrite Ht2; cbn;
    rewrite ?lookup_insert_eq; cbn;
    (destruct (Z.eqb_spec (ToolStats.usage_count st + 1) 0); [done |]);
    cbn; rewrite lookup_insert_eq; cbn; rewrite !insert_insert_eq;
    do 3 f_equal; unfold ManagerCalls.tracked; cbn;
    rewrite ?Z.add_0_r; reflexivity.
Qed.

Lemma find_tool_some (tools : list (ToolInterface.t W)) n tool :
  find_tool tools n = Some tool -> tool ∈ tools /\ ToolInterface.name tool = n.
Proof.
  intros [Hin Heq]%find_some.
  split; [by apply list_elem_of_In | by apply String.eqb_eq].
Qed.

Lemma tracked_use_consistent tool n input_text t0 self w :
  tool ∈ EnhancedToolManager.tools self -> ToolInterface.name tool = n ->
  stats_consistent self ->
  stats_consistent
    (EnhancedToolManager.tracked_use tool n input_text t0 (self, w)).2.1
  /\ EnhancedToolManager.tools
       (EnhancedToolManager.tracked_use tool n input_text t0 (self, w)).2.1
     = EnhancedToolManager.tools self
  /\ EnhancedToolManager.tool_chains
       (EnhancedToolManager.tracked_use tool n input_text t0 (self, w)).2.1
     = EnhancedToolManager.tool_chains self.
Proof.
  intros Hin Hname [Hreg Hok].
  destruct (Hreg tool Hin) as [st Hst]. rewrite Hname in Hst.
  destruct (Hok n st Hst) as [Hpos Heq].
  pose proof (tracked_use_spec tool n input_text t0 self w st Hst
                ltac:(lia)) as Hspec.
  destruct (ToolInterface.use tool input_text w) as [r w2].
  destruct (datetime_now w2) as [t1 w3].
  destruct (datetime_now w3) as [t2 w4].
  rewrite Hspec. cbn. split_and!; [| done | done].
  split.
  - intros tool' Hin'. cbn.
    destruct (decide (n = ToolInterface.name tool')) as [<- | Hne].
    + rewrite lookup_insert_eq. by eauto.
    + rewrite lookup_insert_ne by done. by apply Hreg.
  - intros n' st'. cbn.
    destruct (decide (n = n')) as [<- | Hne].
    + rewrite lookup_insert_eq. intros [= <-]. cbn.
      destruct r; cbn; lia.
    + rewrite lookup_insert_ne by done. apply Hok.
Qed.

Lemma execute_tool_consistent n input_text s :
  stats_consistent s.1 ->
  stats_consistent (EnhancedToolManager.execute_tool n input_text s).2.1.
Proof.
  destruct s as [self w]. intros Hinv.
  unfold EnhancedToolManager.execute_tool. cbn [fst snd].
  destruct (find_tool _ n) as [tool |] eqn:Hf; [| done].
  apply find_tool_some in Hf as [Hin Hname].
  unfold bind, on_snd, total. cbn [fst snd].
  destruct (datetime_now w) as [t0 w1].
  by apply tracked_use_consistent.
Qed.

Lemma chain_loop_consistent c chain input s :
  stats_consistent s.1 ->
  stats_consistent (EnhancedToolManager.chain_loop c chain input s).2.1.
Proof.
  revert input s.
  induction chain as [| n chain IH]; intros input [self w] Hinv; [done |].
  cbn [EnhancedToolManager.chain_loop fst snd].
  destruct (find_tool _ n) as [tool |] eqn:Hf; [| done].
  apply find_tool_some in Hf as [Hin Hname].
  unfold bind at 1, on_snd, total. cbn [fst snd].
  destruct (datetime_now w) as [t0 w1].
  unfold bind.
  destruct (tracked_use_consistent tool n input t0 self w1 Hin Hname Hinv)
    as (Hinv' & _ & _).
  destruct (EnhancedToolManager.tracked_use tool n input t0 (self, w1))
    as [[result | e] s']; [| done].
  by apply IH.
Qed.

Lemma init_consistent (tools : list (ToolInterface.t W)) :
  stats_consistent (EnhancedToolManager.__init__ tools).
Proof.
  unfold EnhancedToolManager.__init__, ManagerCalls.stats_consistent. cbn.
  assert (Hgen : forall (l : list (ToolInterface.t W))
                        (m : gmap string ToolStats.t),
            let m' := foldl (fun stats tool =>
                               <[ToolInterface.name tool := ToolStats.new]>
                                 stats) m l in
            (forall tool, tool ∈ l -> is_Some (m' !! ToolInterface.name tool))
            /\ (forall n, is_Some (m !! n) -> is_Some (m' !! n))
            /\ (forall n st, m' !! n = Some st ->
                  st = ToolStats.new \/ m !! n = Some st)).
  { induction l as [| tool l IH]; intros m; cbn.
    - split_and!; [by intros ? ?%elem_of_nil | done | by right].
    - destruct (IH (<[ToolInterface.name tool := ToolStats.new]> m))
        as (H1 & H2 & H3).
      split_and!.
      + intros tool' [-> | Hin]%elem_of_cons; [| by apply H1].
        apply H2. rewrite lookup_insert_eq. by eauto.
      + intros n Hn. apply H2.
        destruct (decide (ToolInterface.name tool = n)) as [<- | Hne].
        * rewrite lookup_insert_eq. by eauto.
        * by rewrite lookup_insert_ne.
      + intros n st [-> | Hst]%H3; [by left |].
        destruct (decide (ToolInterface.name tool = n)) as [<- | Hne].
        * rewrite lookup_insert_eq in Hst. left. congruence.
        * rewrite lookup_insert_ne in Hst by done. by right. }
  destruct (Hgen tools ∅) as (H1 & _ & H3). split; [done |].
  intros n st [-> | Hst]%H3; [done | by rewrite lookup_empty in Hst].
Qed.

Lemma after_consistent tools calls w :
  stats_consistent (ManagerCalls.after tools calls w).1.
Proof.
  unfold ManagerCalls.after.
  induction calls as [| c calls IH] using rev_ind;
    [apply init_consistent |].
  rewrite foldl_app. cbn [foldl].
  set (s := foldl ManagerCalls.step _ calls) in *.
  destruct c as [n input | c input | name names]; cbn [ManagerCalls.step].
  - by apply execute_tool_consistent.
  - unfold EnhancedToolManager.execute_tool_chain.
    destruct (_ !! c); [| done]. by apply chain_loop_consistent.
  - done.
Qed.

Lemma keeps_bind {A B} (m : M _ A) (f : A -> M _ B) :
  keeps_tools m -> (forall a, keeps_tools (f a)) -> keeps_tools (bind m f).
Proof.
  intros Hm Hf s. unfold bind. specialize (Hm s).
  destruct (m s) as [[a | e] s1]; [| done].
  by rewrite (Hf a s1).
Qed.

Lemma keeps_try_except {A} (m : M _ A) (h : exn -> M _ A) :
  keeps_tools m -> (forall e, keeps_tools (h e)) ->
  keeps_tools (try_except m h).
Proof.
  intros Hm Hh s. unfold try_except. specialize (Hm s).
  destruct (m s) as [[a | e] s1]; [done |].
  by rewrite (Hh e s1).
Qed.

Lemma keeps_try_finally {A} (m : M _ A) (f : M _ unit) :
  keeps_tools m -> keeps_tools f -> keeps_tools (try_finally m f).
Proof.
  intros Hm Hf s. unfold try_finally. specialize (Hm s).
  destruct (m s) as [r s1]. specialize (Hf s1).
  by destruct (f s1) as [[[] | e] s2]; cbn in *; congruence.
Qed.

Lemma keeps_on_snd {A} (m : M W A) : keeps_tools (on_snd m).
Proof. intros s. unfold on_snd. by destruct (m s.2). Qed.

Lemma keeps_update_stats n f :
  keeps_tools (EnhancedToolManager.update_stats n f).
Proof.
  intros s. unfold EnhancedToolManager.update_stats. by destruct (_ !! n).
Qed.

Lemma keeps_tracked_use tool n input t0 :
  keeps_tools (EnhancedToolManager.tracked_use tool n input t0).
Proof.
  unfold EnhancedToolManager.tracked_use, EnhancedToolManager.finally_block.
  apply keeps_try_finally.
  - apply keeps_try_except.
    + apply keeps_bind; [apply keeps_on_snd | intros result].
      apply keeps_bind; [apply keeps_update_stats | done].
    + intros e. apply keeps_bind; [apply keeps_update_stats | done].
  - apply keeps_bind; [apply keeps_update_stats | intros _].
    apply keeps_bind; [apply keeps_on_snd | intros t1].
    apply keeps_bind; [apply keeps_update_stats | intros _].
    apply keeps_bind; [apply keeps_on_snd | intros t2].
    apply keeps_bind.
    + intros s. unfold EnhancedToolManager.get_stats. by destruct (_ !! n).
    + intros st. destruct (_ =? _); [done | apply keeps_update_stats].
Qed.

Lemma keeps_chain_loop c chain input :
  keeps_tools (EnhancedToolManager.chain_loop c chain input).
Proof.
  revert input. induction chain as [| n chain IH]; intros input s; [done |].
  cbn [EnhancedToolManager.chain_loop].
  destruct (find_tool _ n) as [tool |]; [| done].
  apply (keeps_bind (on_snd (total datetime_now))); [apply keeps_on_snd |].
  intros t0. apply keeps_bind; [apply keeps_tracked_use | done].
Qed.

Lemma chain_loop_app c pre post input s :
  EnhancedToolManager.chain_loop c (pre ++ post) input s
  = match EnhancedToolManager.chain_loop c pre input s with
    | (Ok result, s') => EnhancedToolManager.chain_loop c post result s'
    | (Raise e, s') => (Raise e, s')
    end.
Proof.
  revert input s. induction pre as [| n pre IH]; intros input s; [done |].
  cbn [app EnhancedToolManager.chain_loop].
  destruct (find_tool _ n) as [tool |]; [| done].
  unfold bind at 1 3. destruct (on_snd _ s) as [[t0 | e] s1]; [| done].
  unfold bind.
  destruct (EnhancedToolManager.tracked_use tool n input t0 s1)
    as [[result | e] s2]; [| done].
  apply IH.
Qed.
End Manager.

(** C9. After any sequence of [execute_tool], [execute_tool_chain] and
    [define_tool_chain] calls on a manager built from its tools, whether
    the calls returned or raised: every tool's statistics satisfy
    [usage_count = success_count + error_count]; a call of [execute_tool]
    on a registered tool adds one to [usage_count] and one to
    [success_count] or [error_count], sets [last_used] and folds the
    response time into the running mean, all once and whether the tool
    returned or raised; and each step of a chain is that same call. *)
Theorem C9_stats_once_per_call (W : Type) (E : Env W)
    (tools : list (ToolInterface.t W)) (calls : list ManagerCalls.call)
    (w : W) :
  let s := ManagerCalls.after tools calls w in
  (forall n st,
     EnhancedToolManager.tool_stats s.1 !! n = Some st ->
     ToolStats.usage_count st
     = ToolStats.success_count st + ToolStats.error_count st)
  /\ (forall n input_text tool,
        find_tool (EnhancedToolManager.tools s.1) n = Some tool ->
        exists st,
          EnhancedToolManager.tool_stats s.1 !! n = Some st
          /\ let '(t0, w1) := datetime_now s.2 in
             let '(r, w2) := ToolInterface.use tool input_text w1 in
             let '(t1, w3) := datetime_now w2 in
             let '(t2, w4) := datetime_now w3 in
             EnhancedToolManager.execute_tool n input_text s
             = (r, (EnhancedToolManager.with_stats s.1
                      (<[n := ManagerCalls.tracked st (ManagerCalls.is_ok r)
                                t1 (total_seconds t2 t0)]>
                         (EnhancedToolManager.tool_stats s.1)), w4)))
  /\ (forall chain_name n rest input_text tool,
        find_tool (EnhancedToolManager.tools s.1) n = Some tool ->
        EnhancedToolManager.chain_loop chain_name (n :: rest) input_text s
        = bind (EnhancedToolManager.execute_tool n input_text)
               (EnhancedToolManager.chain_loop chain_name rest) s).
Proof.
  intros s.
  pose proof (after_consistent tools calls w) as [Hreg Hok]. fold s in Hreg, Hok.
  split_and!.
  - intros n st Hst. by apply (Hok n st).
  - intros n input_text tool Hf.
    pose proof (find_tool_some _ _ _ Hf) as [Hin Hname].
    destruct (Hreg tool Hin) as [st Hst]. rewrite Hname in Hst.
    exists st. split; [done |].
    destruct (Hok n st Hst) as [Hpos _].
    unfold EnhancedToolManager.execute_tool. rewrite Hf.
    unfold bind, on_snd, total.
    destruct s as [self w0]. cbn [fst snd] in *.
    destruct (datetime_now w0) as [t0 w1].
    by apply tracked_use_spec; [| lia].
  - intros chain_name n rest input_text tool Hf.
    cbn [EnhancedToolManager.chain_loop].
    unfold EnhancedToolManager.execute_tool, bind. rewrite Hf.
    by destruct (on_snd _ s) as [[t0 | e] s1].
Qed.

(** C6 (as amended). When the chain holds a tool name with no tool in the
    registry, [execute_tool_chain] first runs the tools named before it, in
    order, each on the output of the one before and with its statistics
    updated; when they have all returned it raises [ValueError] naming the
    missing tool and the chain, and no tool named after it runs.  So the
    error comes before any tool runs only when the missing name is the
    first of the chain. *)
Theorem C6_chain_validated_lazily (W : Type) (E : Env W)
    (s : EnhancedToolManager.state (W := W))
    (chain_name initial_input missing : string) (pre post : list string) :
  EnhancedToolManager.tool_chains s.1 !! chain_name
    = Some (pre ++ missing :: post) ->
  find_tool (EnhancedToolManager.tools s.1) missing = None ->
  EnhancedToolManager.execute_tool_chain chain_name initial_input s
  = match EnhancedToolManager.chain_loop chain_name pre initial_input s with
    | (Ok _, s') =>
        (Raise (ValueError ("Tool '" +:+ missing +:+ "' not found in chain '"
                            +:+ chain_name +:+ "'")), s')
    | (Raise e, s') => (Raise e, s')
    end.
Proof.
  intros Hchain Hmissing.
  unfold EnhancedToolManager.execute_tool_chain. rewrite Hchain.
  rewrite chain_loop_app.
  pose proof (keeps_chain_loop chain_name pre initial_input s) as Htools.
  destruct (EnhancedToolManager.chain_loop chain_name pre initial_input s)
    as [[result | e] s']; [| done].
  cbn [EnhancedToolManager.chain_loop]. cbn [fst snd] in Htools.
  by rewrite Htools, Hmissing.
Qed.

(** C6 at the test manager: [Fetch] is registered, [Summarize] is not. *)
Lemma C6_chain_validated_lazily_witness :
  EnhancedToolManager.tool_chains TestWorld.manager !! "pipeline"
    = Some (["Fetch"] ++ "Summarize" :: [])
  /\ find_tool (EnhancedToolManager.tools TestWorld.manager) "Summarize" = None
  /\ EnhancedToolManager.execute_tool_chain "pipeline" "topic"
       (TestWorld.manager, TestWorld.start)
     = match EnhancedToolManager.chain_loop "pipeline" ["Fetch"] "topic"
               (TestWorld.manager, TestWorld.start) with
       | (Ok _, s') =>
           (Raise (ValueError
                     ("Tool '" +:+ "Summarize" +:+ "' not found in chain '"
                      +:+ "pipeline" +:+ "'")), s')
       | (Raise e, s') => (Raise e, s')
       end.
Proof.
  split; [reflexivity |]. split; [reflexivity |].
  exact (C6_chain_validated_lazily TestWorld.t TestWorld.env
           (TestWorld.manager, TestWorld.start) "pipeline" "topic"
           "Summarize" ["Fetch"] [] eq_refl eq_refl).
Defined.

(** C6, counterexample. On the chain Fetch, Summarize with no tool named
    Summarize, the call raises only after [Fetch] has been invoked on the
    initial input and counted in its statistics. *)
Lemma C6_tool_runs_before_error_counterexample :
  let r := EnhancedToolManager.execute_tool_chain "pipeline" "topic"
             (TestWorld.manager, TestWorld.start) in
  r.1 = Raise (ValueError "Tool 'Summarize' not found in chain 'pipeline'")
  /\ TestWorld.invocations r.2.2 = [("Fetch", "topic")]
  /\ ToolStats.usage_count
       <$> EnhancedToolManager.tool_stats r.2.1 !! "Fetch" = Some 1.
Proof. vm_compute. done. Qed.

(** Scenario A: in the chain Fetch, Summarize the second tool receives
    exactly the output of the first. *)
Example chain_scenario_A :
  let tools := [TestWorld.fetch; TestWorld.returning "Summarize" "summary"] in
  let r := EnhancedToolManager.execute_tool_chain "pipeline" "topic"
             (EnhancedToolManager.define_tool_chain
                (EnhancedToolManager.__init__ tools)
                "pipeline" ["Fetch"; "Summarize"],
              TestWorld.start) in
  r.1 = Ok "summary"
  /\ TestWorld.invocations r.2.2
     = [("Fetch", "topic"); ("Summarize", "raw-text")].
Proof. vm_compute. done. Qed.

(** ** The retrying tool behind the manager *)

Section Retry.
Context {W : Type} `{Env W}.
Implicit Types (self : AdvancedTool.t W) (w : W).

Lemma retry_loop_failures self input processed k n a w last0 w2 last :
  a + Z.of_nat k <= AdvancedTool.max_retries self - 1 ->
  AdvancedTool.failed_attempts self processed k w last0 = Some (w2, last) ->
  AdvancedTool.retry_loop (k + n) a input processed last0 (self, w)
  = AdvancedTool.retry_loop n (a + Z.of_nat k) input processed last (self, w2).
Proof.
  revert a w last0. induction k as [| k IH]; intros a w last0 Ha Hf.
  - cbn in Hf. injection Hf as -> ->. cbn. by rewrite Z.add_0_r.
  - cbn [AdvancedTool.failed_attempts] in Hf.
    cbn [Nat.add AdvancedTool.retry_loop fst snd].
    destruct (AdvancedTool.attempt_once self processed w) as [[r | e] w'];
      [done |].
    destruct (Z.ltb_spec a (AdvancedTool.max_retries self - 1)); [| lia].
    rewrite (IH (a + 1) _ _ ltac:(lia) Hf). f_equal. lia.
Qed.

Lemma use_last_attempt self input processed k w w2 last :
  (AdvancedTool.cache_results self = false
   \/ AdvancedTool.result_cache self !! input = None) ->
  AdvancedTool.apply_processors (AdvancedTool.pre_processors self) input
    = Ok processed ->
  AdvancedTool.max_retries self = Z.of_nat (S k) ->
  AdvancedTool.failed_attempts self processed k w None = Some (w2, last) ->
  AdvancedTool.use input (self, w)
  = match AdvancedTool.attempt_once self processed w2 with
    | (Ok result, w3) =>
        (Ok result,
         (if AdvancedTool.cache_results self
          then AdvancedTool.set_cache self
                 (<[input := result]> (AdvancedTool.result_cache self))
          else self, w3))
    | (Raise e, w3) =>
        (Raise (Exception
                  ("Failed after " +:+ str_int (AdvancedTool.max_retries self)
                   +:+ " attempts. Last error: "
                   +:+ AdvancedTool.error_text self e)), (self, w3))
    end.
Proof.
  intros Hmiss Hpre Hmax Hf. unfold AdvancedTool.use. cbn [fst snd].
  assert (Hc : (if AdvancedTool.cache_results self
                then AdvancedTool.result_cache self !! input else None)
               = None).
  { destruct Hmiss as [-> | Hm]; [done |]. by destruct (_ : bool). }
  rewrite Hc, Hpre.
  replace (Z.to_nat (AdvancedTool.max_retries self)) with (k + 1)%nat by lia.
  rewrite (retry_loop_failures self input processed k 1 0 w None w2 last)
    by (done || lia).
  cbn [AdvancedTool.retry_loop fst snd].
  destruct (AdvancedTool.attempt_once self processed w2) as [[r | e] w3];
    [done |].
  destruct (Z.ltb_spec (0 + Z.of_nat k) (AdvancedTool.max_retries self - 1));
    [lia | reflexivity].
Qed.
End Retry.

(** C2 (as amended). A call of [execute_tool] on an [AdvancedTool] that
    misses the cache, with [max_retries >= 1], whose first [max_retries - 1]
    attempts fail: when the last attempt succeeds the call returns its
    post-processed result, [success_count] grows by one and [error_count]
    stays; when the last attempt fails too the call raises a plain
    [Exception] (not a [ToolError]) whose message is "Failed after
    max_retries attempts. Last error: " followed by the last error's text
    (for a timeout: "Timeout after timeout seconds"), [error_count] grows
    by one and [success_count] stays.  In both cases [usage_count] grows by
    one. *)
Theorem C2_retry_through_manager (W : Type) (E : Env W)
    (mgr : EnhancedToolManager.t (AdvancedTool.state (W := W)))
    (tool : ToolInterface.t (AdvancedTool.state (W := W)))
    (tool_name input_text processed : string)
    (self : AdvancedTool.t W) (w : W) (st : ToolStats.t) (k : nat)
    (w_last : W) (last : option string) :
  find_tool (EnhancedToolManager.tools mgr) tool_name = Some tool ->
  ToolInterface.use tool = AdvancedTool.use ->
  EnhancedToolManager.tool_stats mgr !! tool_name = Some st ->
  0 <= ToolStats.usage_count st ->
  (AdvancedTool.cache_results self = false
   \/ AdvancedTool.result_cache self !! input_text = None) ->
  AdvancedTool.apply_processors (AdvancedTool.pre_processors self) input_text
    = Ok processed ->
  AdvancedTool.max_retries self = Z.of_nat (S k) ->
  AdvancedTool.failed_attempts self processed k (datetime_now w).2 None
    = Some (w_last, last) ->
  let call := EnhancedToolManager.execute_tool tool_name input_text
                (mgr, (self, w)) in
  exists st',
    EnhancedToolManager.tool_stats call.2.1 !! tool_name = Some st'
    /\ ToolStats.usage_count st' = ToolStats.usage_count st + 1
    /\ match (AdvancedTool.attempt_once self processed w_last).1 with
       | Ok result =>
           call.1 = Ok result
           /\ ToolStats.success_count st' = ToolStats.success_count st + 1
           /\ ToolStats.error_count st' = ToolStats.error_count st
       | Raise e =>
           call.1
           = Raise (Exception
                      ("Failed after "
                       +:+ str_int (AdvancedTool.max_retries self)
                       +:+ " attempts. Last error: "
                       +:+ AdvancedTool.error_text self e))
           /\ ToolStats.success_count st' = ToolStats.success_count st
           /\ ToolStats.error_count st' = ToolStats.error_count st + 1
       end.
Proof.
  intros Hfind Huse Hst Hpos Hmiss Hpre Hmax Hfail call. subst call.
  unfold EnhancedToolManager.execute_tool. cbn [fst snd]. rewrite Hfind.
  unfold bind, on_snd, total. cbn [fst snd datetime_now
    AdvancedTool.env_with_tool].
  destruct (datetime_now w) as [t0 w1]. cbn [fst snd] in *.
  pose proof (tracked_use_spec tool tool_name input_text t0 mgr (self, w1) st
                Hst ltac:(lia)) as Hspec.
  rewrite Huse in Hspec.
  rewrite (use_last_attempt self input_text processed k w1 w_last last)
    in Hspec by done.
  destruct (AdvancedTool.attempt_once self processed w_last)
    as [[result | e] w3]; cbn [fst snd] in *.
  - cbn [datetime_now AdvancedTool.env_with_tool fst snd] in Hspec.
    destruct (datetime_now w3) as [t1 w4].
    cbn [datetime_now AdvancedTool.env_with_tool fst snd] in Hspec.
    destruct (datetime_now w4) as [t2 w5]. rewrite Hspec. cbn [fst snd].
    eexists. cbn. rewrite lookup_insert_eq. split; [reflexivity |].
    cbn. split_and!; (done || lia).
  - cbn [datetime_now AdvancedTool.env_with_tool fst snd] in Hspec.
    destruct (datetime_now w3) as [t1 w4].
    cbn [datetime_now AdvancedTool.env_with_tool fst snd] in Hspec.
    destruct (datetime_now w4) as [t2 w5]. rewrite Hspec. cbn [fst snd].
    eexists. cbn. rewrite lookup_insert_eq. split; [reflexivity |].
    cbn. split_and!; (done || lia).
Qed.

(** C2 at a tool that fails twice and then returns, with three attempts. *)
Lemma C2_retry_through_manager_witness :
  let tool := TestTools.flaky 2 (Exception "boom") 3 in
  (TestTools.run_once tool "x").1 = Ok "done"
  /\ ToolStats.success_count
       <$> EnhancedToolManager.tool_stats (TestTools.run_once tool "x").2.1
           !! "Flaky" = Some 1
  /\ ToolStats.error_count
       <$> EnhancedToolManager.tool_stats (TestTools.run_once tool "x").2.1
           !! "Flaky" = Some 0.
Proof.
  intros tool.
  destruct (C2_retry_through_manager TestWorld.t TestWorld.env
              (TestTools.manager_of tool) (AdvancedTool.as_tool tool)
              "Flaky" "x" "x" tool TestWorld.start ToolStats.new 2
              (TestWorld.invoked "Flaky" "x"
                 (asyncio_sleep 1
                    (TestWorld.invoked "Flaky" "x"
                       (asyncio_sleep 1 (datetime_now TestWorld.start).2))))
              (Some "boom")
              eq_refl eq_refl eq_refl ltac:(reflexivity)
              (or_intror eq_refl) eq_refl eq_refl eq_refl)
    as (st' & Hst' & Husage & Hres & Hsucc & Herr).
  unfold TestTools.run_once.
  change (AdvancedTool.name tool) with "Flaky".
  split; [exact Hres |].
  split.
  - transitivity (ToolStats.success_count <$> Some st');
      [exact (f_equal (fmap ToolStats.success_count) Hst') |].
    exact (f_equal Some Hsucc).
  - transitivity (ToolStats.error_count <$> Some st');
      [exact (f_equal (fmap ToolStats.error_count) Hst') |].
    exact (f_equal Some Herr).
Defined.

(** C2, counterexample. A tool whose three attempts all fail makes
    [execute_tool] raise a plain [Exception] carrying the last error; the
    exception is no [ToolError] of any kind. *)
Lemma C2_plain_exception_counterexample :
  let tool := TestTools.flaky 3 (Exception "boom") 3 in
  (TestTools.run_once tool "x").1
  = Raise (Exn "Exception" "Failed after 3 attempts. Last error: boom")
  /\ forall message tool_name error_type,
       (TestTools.run_once tool "x").1
       <> Raise (AdvancedTool.ToolError message tool_name error_type).
Proof.
  assert (Hrun : (TestTools.run_once
                    (TestTools.flaky 3 (Exception "boom") 3) "x").1
                 = Raise (Exn "Exception"
                            "Failed after 3 attempts. Last error: boom"))
    by (vm_compute; reflexivity).
  split; [exact Hrun |].
  intros message tool_name error_type. cbv zeta. rewrite Hrun.
  unfold AdvancedTool.ToolError. intros [=].
Qed.

(** Scenario E: a tool whose every attempt times out fails after
    [max_retries] attempts, the timeout as the last error. *)
Example retry_scenario_E :
  (TestTools.run_once (TestTools.flaky 3 TimeoutError 3) "x").1
  = Raise (Exception "Failed after 3 attempts. Last error: Timeout after 1 seconds").
Proof. vm_compute. reflexivity. Qed.

(** ** The agent loop *)

Lemma find_append {A : Type} (f : A -> bool) (l1 l2 : list A) :
  List.find f (l1 ++ l2)
  = match List.find f l1 with Some x => Some x | None => List.find f l2 end.
Proof.
  induction l1 as [| x l1 IH]; [done |]. cbn. by destruct (f x).
Qed.

Section AgentLoop.
Context {W : Type} `{Env W}.
Implicit Types (self : EnhancedAgent.t W) (w : W).

Lemma tool_by_names_fold (tools : list (ToolInterface.t W))
    (d : gmap string (ToolInterface.t W)) n :
  foldl (fun d tool => <[ToolInterface.name tool := tool]> d) d tools !! n
  = match List.find (fun t => String.eqb (ToolInterface.name t) n)
                    (rev tools) with
    | Some t => Some t
    | None => d !! n
    end.
Proof.
  revert d. induction tools as [| t tools IH]; intros d; [done |].
  cbn [foldl rev]. rewrite IH, find_append.
  destruct (find _ (rev tools)) as [t' |]; [done |]. cbn [find].
  destruct (String.eqb_spec (ToolInterface.name t) n) as [<- | Hne].
  - by rewrite lookup_insert_eq.
  - by rewrite lookup_insert_ne.
Qed.

Lemma tool_by_names_none self n :
  EnhancedAgent.tool_by_names self !! n = None
  <-> forall t, t ∈ EnhancedAgent.tools self -> ToolInterface.name t <> n.
Proof.
  unfold EnhancedAgent.tool_by_names. rewrite tool_by_names_fold.
  rewrite lookup_empty. split.
  - destruct (find _ _) as [t' |] eqn:Hf; [done |]. intros _ t Hin Heq.
    assert (Hfalse : String.eqb (ToolInterface.name t) n = false).
    { apply (find_none _ _ Hf t). apply in_rev. rewrite rev_involutive.
      by apply list_elem_of_In. }
    by apply String.eqb_neq in Hfalse.
  - intros Hall. destruct (find _ _) as [t' |] eqn:Hf; [| done].
    apply find_some in Hf as [Hin Heq%String.eqb_eq].
    destruct (Hall t'); [| done].
    apply list_elem_of_In. by apply in_rev.
Qed.

Lemma tool_by_names_some self n t :
  EnhancedAgent.tool_by_names self !! n = Some t ->
  t ∈ EnhancedAgent.tools self /\ ToolInterface.name t = n.
Proof.
  unfold EnhancedAgent.tool_by_names. rewrite tool_by_names_fold.
  rewrite lookup_empty.
  destruct (find _ _) as [t' |] eqn:Hf; [| done]. intros [= ->].
  apply find_some in Hf as [Hin Heq%String.eqb_eq].
  split; [| done]. apply list_elem_of_In. by apply in_rev.
Qed.

(** One iteration up to the parsed action. *)
Lemma run_loop_parsed fuel question prompt previous self w curr_prompt
    generated w' tool tool_input :
  str_format prompt [("previous_responses", PyStr.join EnhancedAgent.nl previous)]
    = Ok curr_prompt ->
  EnhancedAgent.llm_generate self curr_prompt (EnhancedAgent.stop_pattern self) w
    = (Ok generated, w') ->
  Parser._parse generated = Ok (tool, tool_input) ->
  EnhancedAgent.run_loop (S fuel) question prompt previous (self, w)
  = (if String.eqb tool "Final Answer" then
       now <- on_snd (total datetime_now) ;;
       modify (fun s : EnhancedAgent.state =>
                 (EnhancedAgent.set_memory s.1
                    (Memory.add_long_term (EnhancedAgent.memory s.1) question
                       tool_input now), s.2)) ;;;
       ret (Some tool_input)
     else
       self <- (fun s => (Ok s.1, s)) ;;
       match EnhancedAgent.tool_by_names self !! tool with
       | None => raise (ValueError ("Unknown tool: " +:+ tool))
       | Some the_tool =>
           observed <- EnhancedAgent.use_tool the_tool generated tool
                         tool_input ;;
           let '(tool_result, generated) := observed in
           let generated :=
             generated +:+ EnhancedAgent.nl +:+ Parser.OBSERVATION_TOKEN
             +:+ " " +:+ tool_result +:+ EnhancedAgent.nl
             +:+ Parser.THOUGHT_TOKEN in
           on_snd (total (fun w => (tt, print generated w))) ;;;
           EnhancedAgent.run_loop fuel question prompt
             (previous ++ [generated])
       end)%py (self, w').
Proof.
  intros Hfmt Hllm Hparse.
  cbn [EnhancedAgent.run_loop]. unfold bind at 1. rewrite Hfmt.
  unfold bind at 1. unfold EnhancedAgent.decide_next_action.
  unfold bind at 1. cbn [fst snd]. unfold bind at 1, on_snd at 1.
  cbn [fst snd]. rewrite Hllm, Hparse. reflexivity.
Qed.
End AgentLoop.

(** C8. In an iteration whose response parses to a tool name that is not
    Final Answer and that no tool of the agent bears, [run] raises
    [ValueError] at once: the agent, its memory included, is as the
    iteration found it, no tool is invoked, and nothing is appended for a
    next iteration. *)
Theorem C8_unknown_tool_raises (W : Type) (E : Env W)
    (self : EnhancedAgent.t W) (w w' : W) (fuel : nat)
    (question prompt curr_prompt generated tool tool_input : string)
    (previous : list string) :
  str_format prompt
    [("previous_responses", PyStr.join EnhancedAgent.nl previous)]
    = Ok curr_prompt ->
  EnhancedAgent.llm_generate self curr_prompt (EnhancedAgent.stop_pattern self) w
    = (Ok generated, w') ->
  Parser._parse generated = Ok (tool, tool_input) ->
  tool <> "Final Answer" ->
  (forall t, t ∈ EnhancedAgent.tools self -> ToolInterface.name t <> tool) ->
  EnhancedAgent.run_loop (S fuel) question prompt previous (self, w)
  = (Raise (ValueError ("Unknown tool: " +:+ tool)), (self, w')).
Proof.
  intros Hfmt Hllm Hparse Hne Hunknown.
  rewrite (run_loop_parsed fuel question prompt previous self w curr_prompt
             generated w' tool tool_input) by done.
  apply String.eqb_neq in Hne. rewrite Hne.
  apply tool_by_names_none in Hunknown.
  unfold bind. cbn [fst snd]. by rewrite Hunknown.
Qed.

(** C8 at the test agent, whose model asks for a calculator. *)
Lemma C8_unknown_tool_raises_witness :
  EnhancedAgent.run_loop 1 "What is 2+2?" "prompt" []
    (TestWorld.agent, TestWorld.scripted [TestWorld.calls_calculator])
  = (Raise (ValueError ("Unknown tool: " +:+ "Calculator")),
     (TestWorld.agent,
      (TestWorld.llm "prompt" []
         (TestWorld.scripted [TestWorld.calls_calculator])).2)).
Proof.
  apply (C8_unknown_tool_raises TestWorld.t TestWorld.env TestWorld.agent
           (TestWorld.scripted [TestWorld.calls_calculator]) _ 0
           "What is 2+2?" "prompt" "prompt" TestWorld.calls_calculator
           "Calculator" "2+2" []).
  - reflexivity.
  - reflexivity.
  - reflexivity.
  - discriminate.
  - intros t Ht.
    apply elem_of_cons in Ht as [-> | Ht]; [discriminate |].
    apply elem_of_cons in Ht as [-> | Ht]; [discriminate |].
    by apply elem_of_nil in Ht.
Defined.

(** C10. In an iteration whose tool raises, the agent object, and with it
    the short-term memory, goes unchanged into the next iteration; the
    error shows only in the text appended to the previous responses: the
    response, the thought about the error, and the observation "Error
    executing tool: " followed by the error's text. *)
Theorem C10_tool_error_absorbed (W : Type) (E : Env W)
    (self : EnhancedAgent.t W) (w w' w'' : W) (fuel : nat)
    (question prompt curr_prompt generated tool tool_input : string)
    (previous : list string) (the_tool : ToolInterface.t W) (e : exn) :
  str_format prompt
    [("previous_responses", PyStr.join EnhancedAgent.nl previous)]
    = Ok curr_prompt ->
  EnhancedAgent.llm_generate self curr_prompt (EnhancedAgent.stop_pattern self) w
    = (Ok generated, w') ->
  Parser._parse generated = Ok (tool, tool_input) ->
  tool <> "Final Answer" ->
  EnhancedAgent.tool_by_names self !! tool = Some the_tool ->
  ToolInterface.use the_tool tool_input w' = (Raise e, w'') ->
  let observed :=
    generated +:+ EnhancedAgent.nl
    +:+ "Thought: I encountered an error. Let me try a different approach."
    +:+ EnhancedAgent.nl +:+ Parser.OBSERVATION_TOKEN +:+ " "
    +:+ ("Error executing tool: " +:+ exn_str e)
    +:+ EnhancedAgent.nl +:+ Parser.THOUGHT_TOKEN in
  EnhancedAgent.run_loop (S fuel) question prompt previous (self, w)
  = EnhancedAgent.run_loop fuel question prompt (previous ++ [observed])
      (self, print observed w'').
Proof.
  intros Hfmt Hllm Hparse Hne Htool Huse observed.
  rewrite (run_loop_parsed fuel question prompt previous self w curr_prompt
             generated w' tool tool_input) by done.
  apply String.eqb_neq in Hne. rewrite Hne.
  unfold bind at 1. cbn [fst snd]. rewrite Htool.
  unfold bind at 1, EnhancedAgent.use_tool, try_except.
  unfold bind at 1, on_snd at 1. cbn [fst snd]. rewrite Huse.
  unfold ret at 1. unfold bind at 1, on_snd, total. cbn [fst snd].
  subst observed. by rewrite !str_app_assoc.
Qed.

(** C10 at the test agent, whose model calls the failing tool. *)
Lemma C10_tool_error_absorbed_witness :
  let observed :=
    TestWorld.calls_broken +:+ EnhancedAgent.nl
    +:+ "Thought: I encountered an error. Let me try a different approach."
    +:+ EnhancedAgent.nl +:+ Parser.OBSERVATION_TOKEN +:+ " "
    +:+ ("Error executing tool: " +:+ "connection refused")
    +:+ EnhancedAgent.nl +:+ Parser.THOUGHT_TOKEN in
  let w' := (TestWorld.llm "prompt" []
               (TestWorld.scripted [TestWorld.calls_broken])).2 in
  EnhancedAgent.run_loop 1 "question" "prompt" []
    (TestWorld.agent, TestWorld.scripted [TestWorld.calls_broken])
  = EnhancedAgent.run_loop 0 "question" "prompt" ([] ++ [observed])
      (TestWorld.agent,
       print observed (TestWorld.invoked "Broken" "topic" w')).
Proof.
  exact (C10_tool_error_absorbed TestWorld.t TestWorld.env TestWorld.agent
           (TestWorld.scripted [TestWorld.calls_broken]) _ _ 0
           "question" "prompt" "prompt" TestWorld.calls_broken
           "Broken" "topic" []
           (TestWorld.raising "Broken" (Exception "connection refused"))
           (Exception "connection refused")
           eq_refl eq_refl eq_refl ltac:(discriminate) eq_refl eq_refl).
Defined.

(** ** Counting the calls of the language model

    [calls w] reads a counter somewhere in the world that every call of the
    language model advances by one and that nothing else touches: the
    number of iterations the loop has started. *)

Section BudgetFacts.
Context {W : Type} `{Env W}.
Variable calls : W -> nat.
Variable self0 : EnhancedAgent.t W.
Hypothesis calls_now : forall w, calls (datetime_now w).2 = calls w.
Hypothesis calls_today : forall w, calls (date_today w).2 = calls w.
Hypothesis calls_print : forall text w, calls (print text w) = calls w.
Hypothesis calls_llm :
  forall prompt stop w,
    calls (EnhancedAgent.llm_generate self0 prompt stop w).2 = S (calls w).
Hypothesis calls_tool :
  forall t, t ∈ EnhancedAgent.tools self0 ->
  forall input w, calls (ToolInterface.use t input w).2 = calls w.

Implicit Types (s : EnhancedAgent.state (W := W)).
Local Abbreviation same_agent := (Budget.same_agent self0).
Local Abbreviation at_most := (Budget.at_most calls self0).

Lemma at_most_mono n n' {A} (m : M _ A) :
  (n <= n')%nat -> at_most n m -> at_most n' m.
Proof. intros Hn Hm s Hs. destruct (Hm s Hs). split; [done | lia]. Qed.

Lemma at_most_pure {A} (r : result A) : at_most 0 (fun s => (r, s)).
Proof. intros s Hs. cbn. split; [done | lia]. Qed.

Lemma at_most_bind n1 n2 {A B} (m : M _ A) (f : A -> M _ B) :
  at_most n1 m -> (forall a, at_most n2 (f a)) ->
  at_most (n1 + n2) (bind m f).
Proof.
  intros Hm Hf s Hs. unfold bind. destruct (Hm s Hs) as [Hs1 Hc1].
  destruct (m s) as [[a | e] s1]; cbn in *; [| split; [done | lia]].
  destruct (Hf a s1 Hs1). split; [done | lia].
Qed.

Lemma at_most_self n {A} (f : EnhancedAgent.t W -> M _ A) :
  (forall self, same_agent self -> at_most n (f self)) ->
  at_most n (bind (fun s => (Ok s.1, s)) f).
Proof. intros Hf s Hs. unfold bind. by apply Hf. Qed.

Lemma at_most_try_except n1 n2 {A} (m : M _ A) (h : exn -> M _ A) :
  at_most n1 m -> (forall e, at_most n2 (h e)) ->
  at_most (n1 + n2) (try_except m h).
Proof.
  intros Hm Hh s Hs. unfold try_except. destruct (Hm s Hs) as [Hs1 Hc1].
  destruct (m s) as [[a | e] s1]; cbn in *; [split; [done | lia] |].
  destruct (Hh e s1 Hs1). split; [done | lia].
Qed.

Lemma at_most_now : at_most 0 (on_snd (total datetime_now)).
Proof.
  intros s Hs. unfold on_snd, total. pose proof (calls_now s.2) as Hc.
  destruct (datetime_now s.2). cbn in *. split; [done | lia].
Qed.

Lemma at_most_today : at_most 0 (on_snd (total date_today)).
Proof.
  intros s Hs. unfold on_snd, total. pose proof (calls_today s.2) as Hc.
  destruct (date_today s.2). cbn in *. split; [done | lia].
Qed.

Lemma at_most_print text :
  at_most 0 (on_snd (total (fun w => (tt, print text w)))).
Proof.
  intros s Hs. unfold on_snd, total. cbn. rewrite calls_print.
  split; [done | lia].
Qed.

Lemma at_most_modify (f : EnhancedAgent.state (W := W) -> EnhancedAgent.state (W := W)) :
  (forall s, same_agent s.1 -> same_agent (f s).1 /\ (f s).2 = s.2) ->
  at_most 0 (modify f).
Proof.
  intros Hf s Hs. unfold modify. cbn. destruct (Hf s Hs) as [? ->].
  split; [done | lia].
Qed.

Lemma at_most_decide prompt :
  at_most 1 (EnhancedAgent.decide_next_action prompt).
Proof.
  unfold EnhancedAgent.decide_next_action.
  apply at_most_self. intros self (Hllm & _ & _).
  apply (at_most_bind 1 0).
  - intros s Hs. unfold on_snd. rewrite Hllm.
    pose proof (calls_llm prompt (EnhancedAgent.stop_pattern self) s.2) as Hc.
    destruct (EnhancedAgent.llm_generate self0 _ _ s.2). cbn in *.
    split; [done | lia].
  - intros generated. destruct (Parser._parse generated) as [[tool ti] | e];
      apply at_most_pure.
Qed.

Lemma at_most_use_tool t generated tool tool_input :
  t ∈ EnhancedAgent.tools self0 ->
  at_most 0 (EnhancedAgent.use_tool t generated tool tool_input).
Proof.
  intros Ht. unfold EnhancedAgent.use_tool.
  apply (at_most_try_except 0 0); [| intros e; apply at_most_pure].
  apply (at_most_bind 0 0).
  - intros s Hs. unfold on_snd. pose proof (calls_tool t Ht tool_input s.2).
    destruct (ToolInterface.use t tool_input s.2). cbn in *.
    split; [done | lia].
  - intros tool_result. apply (at_most_bind 0 0); [apply at_most_now |].
    intros now. apply (at_most_bind 0 0); [| intros _; apply at_most_pure].
    apply at_most_modify. by intros s Hs.
Qed.

Lemma at_most_run_loop fuel question prompt previous :
  at_most fuel (EnhancedAgent.run_loop fuel question prompt previous).
Proof.
  revert previous. induction fuel as [| fuel IH]; intros previous;
    [apply at_most_pure |].
  cbn [EnhancedAgent.run_loop].
  apply (at_most_bind 0 (S fuel)); [apply at_most_pure |].
  intros curr_prompt.
  apply (at_most_bind 1 fuel); [apply at_most_decide |].
  intros [[generated tool] tool_input].
  destruct (String.eqb tool "Final Answer").
  - apply (at_most_mono 0); [lia |].
    apply (at_most_bind 0 0); [apply at_most_now |]. intros now.
    apply (at_most_bind 0 0); [| intros _; apply at_most_pure].
    apply at_most_modify. by intros s Hs.
  - apply at_most_self. intros self (_ & Htools & _).
    destruct (EnhancedAgent.tool_by_names self !! tool) as [t |] eqn:Ht;
      [| apply (at_most_mono 0); [lia | apply at_most_pure]].
    apply tool_by_names_some in Ht as [Ht _]. rewrite Htools in Ht.
    apply (at_most_bind 0 fuel); [by apply at_most_use_tool |].
    intros [tool_result generated'].
    apply (at_most_bind 0 fuel); [apply at_most_print |].
    intros _. apply IH.
Qed.

Lemma at_most_run question :
  at_most (Z.to_nat (EnhancedAgent.max_loops self0))
    (EnhancedAgent.run question).
Proof.
  unfold EnhancedAgent.run.
  apply (at_most_bind 0 _).
  { apply at_most_modify. intros s Hs. destruct (EnhancedAgent.no_goal s.1);
      by split. }
  intros _. apply at_most_self. intros self (_ & _ & Hmax).
  apply (at_most_bind 0 _); [apply at_most_today |]. intros today.
  apply (at_most_bind 0 _); [apply at_most_pure |]. intros prompt.
  apply (at_most_bind 0 _); [apply at_most_pure |]. intros shown.
  apply (at_most_bind 0 _); [apply at_most_print |]. intros _.
  rewrite Hmax. apply at_most_run_loop.
Qed.
End BudgetFacts.

Section Answers.
Context {W : Type} `{Env W}.

(** A response that carries the final-answer marker ends the run with its
    payload. *)
Lemma run_loop_final fuel question prompt previous
    (self : EnhancedAgent.t W) (w w' : W) curr_prompt generated :
  str_format prompt
    [("previous_responses", PyStr.join EnhancedAgent.nl previous)]
    = Ok curr_prompt ->
  EnhancedAgent.llm_generate self curr_prompt (EnhancedAgent.stop_pattern self) w
    = (Ok generated, w') ->
  PyStr.contains Parser.FINAL_ANSWER_TOKEN generated = true ->
  (EnhancedAgent.run_loop (S fuel) question prompt previous (self, w)).1
  = Ok (Some (PyStr.strip
                (PyStr.last_piece
                   (PyStr.split Parser.FINAL_ANSWER_TOKEN generated)))).
Proof.
  intros Hfmt Hllm Hc.
  rewrite (run_loop_parsed fuel question prompt previous self w curr_prompt
             generated w' "Final Answer"
             (PyStr.strip
                (PyStr.last_piece
                   (PyStr.split Parser.FINAL_ANSWER_TOKEN generated))));
    [| done | done | unfold Parser._parse; by rewrite Hc].
  cbn [String.eqb Ascii.eqb Bool.eqb].
  unfold bind, on_snd, total, modify, ret. cbn [fst snd].
  by destruct (datetime_now w').
Qed.

(** A failure of the model, or a response that does not parse, ends the run
    with that exception. *)
Lemma run_loop_fatal fuel question prompt previous
    (self : EnhancedAgent.t W) (w w' : W) curr_prompt r e :
  str_format prompt
    [("previous_responses", PyStr.join EnhancedAgent.nl previous)]
    = Ok curr_prompt ->
  EnhancedAgent.llm_generate self curr_prompt (EnhancedAgent.stop_pattern self) w
    = (r, w') ->
  r = Raise e \/ (exists generated,
                    r = Ok generated /\ Parser._parse generated = Raise e) ->
  EnhancedAgent.run_loop (S fuel) question prompt previous (self, w)
  = (Raise e, (self, w')).
Proof.
  intros Hfmt Hllm Hr. cbn [EnhancedAgent.run_loop].
  unfold bind at 1. rewrite Hfmt.
  unfold bind at 1. unfold EnhancedAgent.decide_next_action.
  unfold bind at 1. cbn [fst snd]. unfold bind at 1, on_snd at 1.
  cbn [fst snd]. rewrite Hllm.
  destruct Hr as [-> | (generated & -> & Hparse)]; [done |].
  by rewrite Hparse.
Qed.
End Answers.

Section Advanced.
Context {W embedding : Type} `{Env W}.
Implicit Types (s : AdvancedAgent.state (W := W) (embedding := embedding)).

(** Out of budget, the loop of [AdvancedAgent.run] hands back the
    synthesized answer. *)
Lemma advanced_run_loop_exhausted previous s :
  AdvancedAgent.run_loop 0 previous s
  = (Ok "Final answer based on all interactions", s).
Proof. reflexivity. Qed.

(** With budget left and the goal not completed, the iteration raises: the
    class calls [_build_action_prompt] and does not define it. *)
Lemma advanced_run_loop_raises fuel previous s g :
  AdvancedAgent.current_goal s.1 = Some g ->
  AgentGoal.status g <> "completed" ->
  AdvancedAgent.run_loop (S fuel) previous s
  = (Raise (AttributeError
              "'AdvancedAgent' object has no attribute '_build_action_prompt'"),
     s).
Proof.
  intros Hg Hstatus. cbn [AdvancedAgent.run_loop].
  unfold bind at 1, AdvancedAgent.the_goal. rewrite Hg.
  apply String.eqb_neq in Hstatus. by rewrite Hstatus.
Qed.

(** [AdvancedAgent.run] as a whole: the synthesized answer when the budget
    is zero or less, the missing method's [AttributeError] otherwise. *)
Lemma advanced_run_outcome goal s :
  (AdvancedAgent.run goal s).1
  = if AdvancedAgent.max_loops s.1 <=? 0
    then Ok "Final answer based on all interactions"
    else Raise (AttributeError
                  "'AdvancedAgent' object has no attribute '_build_action_prompt'").
Proof.
  destruct s as [self w].
  unfold AdvancedAgent.run, AdvancedAgent._decompose_goal,
    AdvancedAgent.touch_goal, AdvancedAgent.the_goal, AdvancedAgent.now.
  unfold bind, on_snd, total, modify. cbn [fst snd].
  destruct (datetime_now w) as [t1 w1]. cbn [fst snd].
  destruct (datetime_now w1) as [t2 w2].
  cbn [fst snd AdvancedAgent.current_goal AdvancedAgent.set_goal].
  destruct (datetime_now w2) as [t3 w3].
  cbn [fst snd AdvancedAgent.current_goal AdvancedAgent.set_goal].
  destruct (datetime_now w3) as [t4 w4].
  cbn [fst snd AdvancedAgent.current_goal AdvancedAgent.set_goal
       AdvancedAgent.max_loops].
  destruct (Z.leb_spec (AdvancedAgent.max_loops self) 0) as [Hle | Hgt].
  - by replace (Z.to_nat (AdvancedAgent.max_loops self)) with 0%nat by lia.
  - destruct (Z.to_nat (AdvancedAgent.max_loops self)) as [| fuel] eqn:Hn;
      [lia |].
    by erewrite advanced_run_loop_raises.
Qed.
End Advanced.

Section NeverAnswers.
Context {W : Type} `{Env W}.
Variable calls : W -> nat.
Variable self0 : EnhancedAgent.t W.
Hypothesis calls_now : forall w, calls (datetime_now w).2 = calls w.
Hypothesis calls_today : forall w, calls (date_today w).2 = calls w.
Hypothesis calls_print : forall text w, calls (print text w) = calls w.
Hypothesis calls_llm :
  forall prompt stop w,
    calls (EnhancedAgent.llm_generate self0 prompt stop w).2 = S (calls w).
Hypothesis calls_tool :
  forall t, t ∈ EnhancedAgent.tools self0 ->
  forall input w, calls (ToolInterface.use t input w).2 = calls w.
(** Every template can be filled in. *)
Hypothesis formats :
  forall template args, exists text, str_format template args = Ok text.
(** Whatever the prompt, the model asks for a tool the agent has. *)
Hypothesis asks_for_a_tool :
  forall prompt stop w, exists generated tool tool_input,
    (EnhancedAgent.llm_generate self0 prompt stop w).1 = Ok generated
    /\ Parser._parse generated = Ok (tool, tool_input)
    /\ tool <> "Final Answer"
    /\ is_Some (EnhancedAgent.tool_by_names self0 !! tool).

Implicit Types (s : EnhancedAgent.state (W := W)).
Local Abbreviation same_agent := (Budget.same_agent self0).

(** The [try] statement of the loop never raises: the tool's result or the
    text of its error becomes the observation. *)
Lemma use_tool_returns t generated tool tool_input s :
  t ∈ EnhancedAgent.tools self0 -> same_agent s.1 ->
  exists observed s',
    EnhancedAgent.use_tool t generated tool tool_input s = (Ok observed, s')
    /\ same_agent s'.1 /\ calls s'.2 = calls s.2.
Proof.
  intros Ht Hs. unfold EnhancedAgent.use_tool, try_except.
  unfold bind at 1, on_snd at 1. cbn [fst snd].
  pose proof (calls_tool t Ht tool_input s.2) as Hc.
  destruct (ToolInterface.use t tool_input s.2) as [[r | e] w'];
    cbn [fst snd] in *.
  - unfold bind, on_snd, total, modify, ret. cbn [fst snd].
    pose proof (calls_now w') as Hn.
    destruct (datetime_now w') as [now w'']. cbn [fst snd] in *.
    eexists _, _. split; [reflexivity |]. cbn [fst snd].
    split; [exact Hs | lia].
  - unfold ret. eexists _, _. split; [reflexivity |]. cbn [fst snd].
    by split.
Qed.

(** With such a model every iteration ends in an observation, and the loop
    is left, after [fuel] calls of the model, with [None]. *)
Lemma run_loop_falls_through fuel question prompt previous s :
  same_agent s.1 ->
  exists s',
    EnhancedAgent.run_loop fuel question prompt previous s = (Ok None, s')
    /\ calls s'.2 = (calls s.2 + fuel)%nat.
Proof.
  revert previous s. induction fuel as [| fuel IH]; intros previous s Hs.
  - exists s. split; [reflexivity | lia].
  - destruct s as [self w]. cbn [fst snd] in *.
    destruct (formats prompt
                [("previous_responses", PyStr.join EnhancedAgent.nl previous)])
      as [curr_prompt Hfmt].
    destruct Hs as (Hllm & Htools & Hmax).
    destruct (asks_for_a_tool curr_prompt (EnhancedAgent.stop_pattern self) w)
      as (generated & tool & tool_input & Hgen & Hparse & Hne & [t Ht]).
    pose proof (calls_llm curr_prompt (EnhancedAgent.stop_pattern self) w)
      as Hc.
    rewrite <- Hllm in Hgen, Hc.
    destruct (EnhancedAgent.llm_generate self curr_prompt
                (EnhancedAgent.stop_pattern self) w) as [r w'] eqn:Hcall.
    cbn [fst snd] in Hgen, Hc. subst r.
    rewrite (run_loop_parsed fuel question prompt previous self w curr_prompt
               generated w' tool tool_input Hfmt Hcall Hparse).
    apply String.eqb_neq in Hne. rewrite Hne.
    unfold bind at 1. cbn [fst snd].
    assert (Hnames : EnhancedAgent.tool_by_names self
                     = EnhancedAgent.tool_by_names self0)
      by (unfold EnhancedAgent.tool_by_names; by rewrite Htools).
    rewrite Hnames, Ht.
    assert (Hin : t ∈ EnhancedAgent.tools self0)
      by (by apply tool_by_names_some in Ht as [Hin _]).
    destruct (use_tool_returns t generated tool tool_input (self, w') Hin
                (conj Hllm (conj Htools Hmax)))
      as ([tool_result generated'] & s3 & Huse & Hs3 & Hc3).
    unfold bind at 1. rewrite Huse.
    unfold bind at 1, on_snd at 1, total at 1. cbn [fst snd].
    destruct (IH (previous
                  ++ [generated' +:+ EnhancedAgent.nl
                      +:+ Parser.OBSERVATION_TOKEN +:+ " " +:+ tool_result
                      +:+ EnhancedAgent.nl +:+ Parser.THOUGHT_TOKEN])
                (s3.1, print (generated' +:+ EnhancedAgent.nl
                              +:+ Parser.OBSERVATION_TOKEN +:+ " "
                              +:+ tool_result +:+ EnhancedAgent.nl
                              +:+ Parser.THOUGHT_TOKEN) s3.2) Hs3)
      as (s' & Hrun & Hcount).
    exists s'. split; [exact Hrun |].
    rewrite Hcount. cbn [fst snd] in *. rewrite calls_print. lia.
Qed.

Lemma run_falls_through question w :
  exists s',
    EnhancedAgent.run question (self0, w) = (Ok None, s')
    /\ calls s'.2
       = (calls w + Z.to_nat (EnhancedAgent.max_loops self0))%nat.
Proof.
  unfold EnhancedAgent.run. unfold bind at 1, modify at 1. cbn [fst snd].
  assert (Hfrom : forall self1,
            same_agent self1 ->
            exists s',
              (self <- (fun s => (Ok s.1, s)) ;;
               today <- on_snd (total date_today) ;;
               prompt <-
                 (fun s =>
                    (str_format (EnhancedAgent.prompt_template self)
                       [("today", today);
                        ("tool_description",
                         EnhancedAgent.tool_description self);
                        ("tool_names", EnhancedAgent.tool_names self);
                        ("question", question);
                        ("previous_responses", "{previous_responses}");
                        ("memory_context",
                         PyStr.join EnhancedAgent.nl
                           ((fun m => "Previous experience: "
                                      +:+ Memory.value m)
                              <$> Memory.get_relevant_memory
                                    (EnhancedAgent.memory self) question))],
                     s)) ;;
               shown <- (fun s => (str_format prompt
                                     [("previous_responses", "")], s)) ;;
               on_snd (total (fun w => (tt, print shown w))) ;;;
               EnhancedAgent.run_loop
                 (Z.to_nat (EnhancedAgent.max_loops self))
                 question prompt [])%py (self1, w) = (Ok None, s')
              /\ calls s'.2
                 = (calls w + Z.to_nat (EnhancedAgent.max_loops self0))%nat).
  { intros self1 Hs1. unfold bind at 1. cbn [fst snd].
    unfold bind at 1, on_snd at 1, total at 1. cbn [fst snd].
    pose proof (calls_today w) as Htoday.
    destruct (date_today w) as [today w1]. cbn [fst snd] in *.
    unfold bind at 1.
    destruct (formats (EnhancedAgent.prompt_template self1)
                [("today", today);
                 ("tool_description", EnhancedAgent.tool_description self1);
                 ("tool_names", EnhancedAgent.tool_names self1);
                 ("question", question);
                 ("previous_responses", "{previous_responses}");
                 ("memory_context",
                  PyStr.join EnhancedAgent.nl
                    ((fun m => "Previous experience: " +:+ Memory.value m)
                       <$> Memory.get_relevant_memory
                             (EnhancedAgent.memory self1) question))])
      as [prompt ->].
    unfold bind at 1.
    destruct (formats prompt [("previous_responses", "")]) as [shown ->].
    unfold bind at 1, on_snd at 1, total at 1. cbn [fst snd].
    destruct (run_loop_falls_through
                (Z.to_nat (EnhancedAgent.max_loops self1)) question prompt []
                (self1, print shown w1) Hs1)
      as (s' & Hrun & Hcount).
    exists s'. split; [exact Hrun |]. rewrite Hcount. cbn [fst snd].
    destruct Hs1 as (_ & _ & ->). by rewrite calls_print, Htoday. }
  assert (Hself : same_agent self0) by (unfold Budget.same_agent; done).
  destruct (EnhancedAgent.no_goal self0); cbn [fst snd]; by apply Hfrom.
Qed.
End NeverAnswers.

(** C1. Let a counter in the world advance by one at every call of the
    language model and at nothing else.  [EnhancedAgent.run] never calls
    the model, once per iteration, more than [max_loops] times: that half
    of the claim holds for every model.  But a run that uses up its budget
    returns no string.  When every response of the model asks for a tool
    the agent has, and so none gives a final answer, [run] goes through
    exactly [max_loops] iterations, falls out of its loop and returns
    [None], whether the tools return or raise; [AdvancedAgent.run] ends
    its loop with [return self._generate_final_answer(...)], the line that
    [EnhancedAgent.run] lacks. *)
Theorem C1_exhausted_run_returns_none (W : Type) (E : Env W)
    (calls : W -> nat) (self : EnhancedAgent.t W) (question : string)
    (w : W) :
  (forall w, calls (datetime_now w).2 = calls w) ->
  (forall w, calls (date_today w).2 = calls w) ->
  (forall text w, calls (print text w) = calls w) ->
  (forall prompt stop w,
     calls (EnhancedAgent.llm_generate self prompt stop w).2 = S (calls w)) ->
  (forall t, t ∈ EnhancedAgent.tools self ->
   forall input w, calls (ToolInterface.use t input w).2 = calls w) ->
  let r := EnhancedAgent.run question (self, w) in
  (calls r.2.2 <= calls w + Z.to_nat (EnhancedAgent.max_loops self))%nat
  /\ ((forall template args,
         exists text, str_format template args = Ok text) ->
      (forall prompt stop w0, exists generated tool tool_input,
         (EnhancedAgent.llm_generate self prompt stop w0).1 = Ok generated
         /\ Parser._parse generated = Ok (tool, tool_input)
         /\ tool <> "Final Answer"
         /\ is_Some (EnhancedAgent.tool_by_names self !! tool)) ->
      r.1 = Ok None
      /\ calls r.2.2
         = (calls w + Z.to_nat (EnhancedAgent.max_loops self))%nat).
Proof.
  intros Hnow Htoday Hprint Hllm Htools r. split.
  - apply (at_most_run calls self Hnow Htoday Hprint Hllm Htools question
             (self, w)).
    by split.
  - intros Hformats Hasks.
    destruct (run_falls_through calls self Hnow Htoday Hprint Hllm Htools
                Hformats Hasks question w) as (s' & Hrun & Hcount).
    subst r. rewrite Hrun. by split.
Qed.

(** C1 at an agent with the default budget of 15 iterations whose model
    asks for [Fetch] at every call: fifteen calls of the model, and
    [None]. *)
Lemma C1_exhausted_run_returns_none_witness :
  let r := EnhancedAgent.run "What is the capital of France?"
             (AlwaysFetch.agent, TestWorld.start) in
  r.1 = Ok None /\ TestWorld.llm_calls r.2.2 = (0 + Z.to_nat 15)%nat.
Proof.
  intros r.
  refine (proj2 (C1_exhausted_run_returns_none TestWorld.t TestWorld.env
                   TestWorld.llm_calls AlwaysFetch.agent
                   "What is the capital of France?" TestWorld.start
                   _ _ _ _ _) _ _).
  - reflexivity.
  - reflexivity.
  - reflexivity.
  - reflexivity.
  - intros t Ht input w.
    apply elem_of_cons in Ht as [-> | Ht]; [reflexivity |].
    apply elem_of_cons in Ht as [-> | Ht]; [reflexivity |].
    by apply elem_of_nil in Ht.
  - intros template args. by exists template.
  - intros prompt stop w0.
    exists TestWorld.calls_fetch, "Fetch", "topic".
    split_and!; [reflexivity | by vm_compute | discriminate |].
    exists TestWorld.fetch. by vm_compute.
Defined.

(** The same on the scripted model: with a budget of one iteration, which
    goes to a call of [Fetch], [run] returns [None] although the model
    would have answered next. *)
Example enhanced_run_exhausted_returns_none :
  (EnhancedAgent.run "What is the capital of France?"
     (TestWorld.agent_with_budget 1,
      TestWorld.scripted [TestWorld.calls_fetch; TestWorld.answers_paris])).1
  = Ok None.
Proof. vm_compute. reflexivity. Qed.

(** A response that holds neither an action nor a final answer ends the
    run with the parser's [ValueError]. *)
Example unparsable_response_raises :
  (EnhancedAgent.run "What is the capital of France?"
     (TestWorld.agent, TestWorld.scripted [TestWorld.rambles])).1
  = Raise (ValueError
             ("Output of LLM is not parsable for next tool use: `"
              +:+ TestWorld.rambles +:+ "`")).
Proof. vm_compute. reflexivity. Qed.
(** * Further properties

    The behaviour of the methods around the ones above: what they do at
    their bounds, what they keep, and how they work together. *)

(** ** The long-term stores *)

Lemma memory_long_term_push (m : Memory.t) k v now :
  Memory.long_term (Memory.add_long_term m k v now)
  = PyList.fifo_push (Memory.max_long_term m) (Memory.long_term m)
      {| Memory.key := k; Memory.value := v; Memory.lt_timestamp := now |}.
Proof. reflexivity. Qed.

Lemma agent_long_term_push {embedding} (encode : string -> embedding)
    (m : AgentMemory.t embedding) k v md now :
  AgentMemory.long_term (AgentMemory.add_long_term encode m k v md now)
  = PyList.fifo_push (AgentMemory.max_long_term m) (AgentMemory.long_term m)
      {| AgentMemory.key := k; AgentMemory.value := v;
         AgentMemory.lt_timestamp := now;
         AgentMemory.lt_metadata := default ∅ md |}.
Proof.
  unfold AgentMemory.add_long_term, PyList.fifo_push.
  destruct (_ >? _); [| done].
  by destruct (AgentMemory.long_term m ++ _).
Qed.

Lemma memory_add_long_terms_max m calls :
  Memory.max_long_term (LongTermCalls.add_long_terms m calls)
  = Memory.max_long_term m.
Proof.
  revert m. induction calls as [| c calls IH]; intros m; [done |].
  simpl. by rewrite IH.
Qed.

Lemma memory_add_long_terms_window max_st cap calls :
  0 <= cap ->
  Memory.long_term
    (LongTermCalls.add_long_terms (MemoryCalls.empty max_st cap) calls)
  = PyList.window cap (LongTermCalls.entry_of <$> calls).
Proof.
  intros Hcap.
  induction calls as [| c calls IH] using rev_ind; [done |].
  rewrite fmap_app. cbn [fmap list_fmap].
  rewrite <- fifo_push_window by done. rewrite <- IH.
  unfold LongTermCalls.add_long_terms at 1.
  rewrite foldl_app. cbn [foldl].
  fold (LongTermCalls.add_long_terms (MemoryCalls.empty max_st cap) calls).
  by rewrite memory_long_term_push, memory_add_long_terms_max.
Qed.

Lemma agent_add_long_terms_window {embedding} (encode : string -> embedding)
    max_st cap calls :
  0 <= cap ->
  AgentMemory.long_term
    (MemoryCalls.agent_add_long_terms encode
       (MemoryCalls.agent_empty max_st cap) calls)
  = PyList.window cap (MemoryCalls.lt_entry_of <$> calls).
Proof.
  intros Hcap.
  induction calls as [| c calls IH] using rev_ind; [done |].
  rewrite fmap_app. cbn [fmap list_fmap].
  rewrite <- fifo_push_window by done. rewrite <- IH.
  unfold MemoryCalls.agent_add_long_terms at 1.
  rewrite foldl_app. cbn [foldl].
  fold (MemoryCalls.agent_add_long_terms encode
          (MemoryCalls.agent_empty max_st cap) calls).
  unfold MemoryCalls.agent_add_long_term at 1.
  by rewrite agent_long_term_push, add_long_terms_max.
Qed.

(** X1. Starting from an empty store of capacity [max_long_term >= 0],
    after any sequence of [add_long_term] calls the long-term list holds at
    most [max_long_term] entries, and they are the last [max_long_term]
    entries added, in the order of insertion.  This holds for [Memory] and
    for [AgentMemory]. *)
Theorem long_term_keeps_latest (embedding : Type)
    (encode : string -> embedding) (max_st max_long_term : Z)
    (calls : list MemoryCalls.lt_call) :
  0 <= max_long_term ->
  let m := LongTermCalls.add_long_terms
             (MemoryCalls.empty max_st max_long_term) calls in
  let am := MemoryCalls.agent_add_long_terms encode
              (MemoryCalls.agent_empty max_st max_long_term) calls in
  (Z.of_nat (length (Memory.long_term m)) <= max_long_term
   /\ Memory.long_term m
      = drop (length calls - Z.to_nat max_long_term)
             (LongTermCalls.entry_of <$> calls))
  /\ (Z.of_nat (length (AgentMemory.long_term am)) <= max_long_term
      /\ AgentMemory.long_term am
         = drop (length calls - Z.to_nat max_long_term)
                (MemoryCalls.lt_entry_of <$> calls)).
Proof.
  intros Hcap m am. subst m am.
  rewrite memory_add_long_terms_window, agent_add_long_terms_window by done.
  repeat split; try (by apply window_length);
    unfold PyList.window; by rewrite length_fmap.
Qed.

(** X1 at three notes and a capacity of two: the first note is dropped. *)
Lemma long_term_keeps_latest_witness :
  0 <= 2
  /\ Memory.long_term
       (LongTermCalls.add_long_terms (MemoryCalls.empty 10 2)
          RelevanceSpec.notes)
     = LongTermCalls.entry_of <$> drop 1 RelevanceSpec.notes.
Proof.
  split; [lia |].
  exact (proj2 (proj1 (long_term_keeps_latest unit (fun _ => tt) 10 2
                         RelevanceSpec.notes ltac:(lia)))).
Defined.

Lemma filter_all {A : Type} (P : A -> Prop) `{forall x, Decision (P x)}
    (l : list A) :
  (forall x, x ∈ l -> P x) -> filter P l = l.
Proof.
  induction l as [| y l IH]; intros Hl; [done |].
  rewrite filter_cons, decide_True by (apply Hl; left).
  f_equal. apply IH. intros x Hx. apply Hl. by right.
Qed.

(** X2. [Memory.get_relevant_memory] returns, in the order of the store,
    exactly the long-term entries whose value contains the query when both
    are put in lower case; the keys play no part, and the empty query
    returns every entry. *)
Theorem recall_matches_values (self : Memory.t) (query : string) :
  let res := Memory.get_relevant_memory self query in
  res `sublist_of` Memory.long_term self
  /\ (forall e,
        e ∈ res
        <-> e ∈ Memory.long_term self
            /\ exists a b,
                 PyStr.lower (Memory.value e)
                 = a +:+ PyStr.lower query +:+ b)
  /\ (query = "" -> res = Memory.long_term self).
Proof.
  unfold Memory.get_relevant_memory. split_and!.
  - apply sublist_filter.
  - intros e. rewrite list_elem_of_filter, contains_spec. tauto.
  - intros ->. apply filter_all. intros e _.
    apply contains_spec. by exists "", (PyStr.lower (Memory.value e)).
Qed.

(** X3. An entry stored by [add_long_term] in a store with room for it is
    live afterwards, and [get_relevant_memory] called with the entry's own
    key returns it exactly when the key's text occurs in the stored value
    (case apart): an answer stored under its question is recalled by that
    question only when the answer repeats the question. *)
Theorem recall_after_answer (self : Memory.t) (question answer : string)
    (now : datetime) :
  1 <= Memory.max_long_term self ->
  let m := Memory.add_long_term self question answer now in
  let e := {| Memory.key := question; Memory.value := answer;
              Memory.lt_timestamp := now |} in
  e ∈ Memory.long_term m
  /\ (e ∈ Memory.get_relevant_memory m question
      <-> PyStr.contains (PyStr.lower question) (PyStr.lower answer) = true).
Proof.
  intros Hcap m e.
  assert (He : e ∈ Memory.long_term m).
  { subst m. rewrite memory_long_term_push. unfold PyList.fifo_push.
    destruct (_ >? _) eqn:Hgt.
    - apply Z.gtb_lt in Hgt.
      destruct (Memory.long_term self) as [| x l] eqn:Hl.
      + simpl in Hgt. lia.
      + simpl. apply elem_of_app. right. by apply list_elem_of_singleton.
    - apply elem_of_app. right. by apply list_elem_of_singleton. }
  split; [done |].
  unfold Memory.get_relevant_memory. rewrite list_elem_of_filter. tauto.
Qed.

(** X3 at the default store: the answer Paris, stored under its question,
    does not come back for that question. *)
Lemma recall_after_answer_witness :
  1 <= Memory.max_long_term Memory.new
  /\ {| Memory.key := "capital of France"; Memory.value := "Paris";
        Memory.lt_timestamp := 7 |}
     ∉ Memory.get_relevant_memory
         (Memory.add_long_term Memory.new "capital of France" "Paris" 7)
         "capital of France".
Proof.
  split; [by vm_compute |].
  intros Hin.
  apply (proj2 (recall_after_answer Memory.new "capital of France" "Paris" 7
                  ltac:(by vm_compute))) in Hin.
  vm_compute in Hin. discriminate Hin.
Defined.
(** ** One iteration of the agent loop, and what a run leaves *)

(** X4. An iteration whose response parses to the action named Final
    Answer ends the run with the action's input and appends one long-term
    entry, keyed by the question and holding the answer, stamped with the
    clock read after the model returned.  No tool is invoked, also when a
    tool of the agent bears that name, and nothing else of the agent
    changes. *)
Theorem final_answer_is_stored (W : Type) (E : Env W)
    (self : EnhancedAgent.t W) (w w' : W) (fuel : nat)
    (question prompt curr_prompt generated answer : string)
    (previous : list string) :
  str_format prompt
    [("previous_responses", PyStr.join EnhancedAgent.nl previous)]
    = Ok curr_prompt ->
  EnhancedAgent.llm_generate self curr_prompt (EnhancedAgent.stop_pattern self) w
    = (Ok generated, w') ->
  Parser._parse generated = Ok ("Final Answer", answer) ->
  EnhancedAgent.run_loop (S fuel) question prompt previous (self, w)
  = (Ok (Some answer),
     (EnhancedAgent.set_memory self
        (Memory.add_long_term (EnhancedAgent.memory self) question answer
           (datetime_now w').1),
      (datetime_now w').2)).
Proof.
  intros Hfmt Hllm Hparse.
  rewrite (run_loop_parsed fuel question prompt previous self w curr_prompt
             generated w' "Final Answer" answer) by done.
  cbn [String.eqb Ascii.eqb Bool.eqb].
  unfold bind, on_snd, total, modify, ret. cbn [fst snd].
  by destruct (datetime_now w').
Qed.

(** X4 at the test agent, whose model answers at once. *)
Lemma final_answer_is_stored_witness :
  let w' := (TestWorld.llm "prompt" []
               (TestWorld.scripted [TestWorld.answers_paris])).2 in
  EnhancedAgent.run_loop 1 "What is the capital of France?" "prompt" []
    (TestWorld.agent, TestWorld.scripted [TestWorld.answers_paris])
  = (Ok (Some "Paris"),
     (EnhancedAgent.set_memory TestWorld.agent
        (Memory.add_long_term (EnhancedAgent.memory TestWorld.agent)
           "What is the capital of France?" "Paris" (datetime_now w').1),
      (datetime_now w').2)).
Proof.
  exact (final_answer_is_stored TestWorld.t TestWorld.env TestWorld.agent
           (TestWorld.scripted [TestWorld.answers_paris]) _ 0
           "What is the capital of France?" "prompt" "prompt"
           TestWorld.answers_paris "Paris" [] eq_refl eq_refl eq_refl).
Defined.

(** X5. An iteration whose tool returns appends one short-term entry (the
    thought after the last thought label, the action as tool and input, the
    tool's result, the clock read after the tool returned), prints the
    response followed by the observation and a new thought label, and goes
    on with that text appended to the previous responses. *)
Theorem tool_result_is_observed (W : Type) (E : Env W)
    (self : EnhancedAgent.t W) (w w' w'' : W) (fuel : nat)
    (question prompt curr_prompt generated tool tool_input : string)
    (previous : list string) (the_tool : ToolInterface.t W)
    (tool_result : string) :
  str_format prompt
    [("previous_responses", PyStr.join EnhancedAgent.nl previous)]
    = Ok curr_prompt ->
  EnhancedAgent.llm_generate self curr_prompt (EnhancedAgent.stop_pattern self) w
    = (Ok generated, w') ->
  Parser._parse generated = Ok (tool, tool_input) ->
  tool <> "Final Answer" ->
  EnhancedAgent.tool_by_names self !! tool = Some the_tool ->
  ToolInterface.use the_tool tool_input w' = (Ok tool_result, w'') ->
  let observed :=
    generated +:+ EnhancedAgent.nl +:+ Parser.OBSERVATION_TOKEN +:+ " "
    +:+ tool_result +:+ EnhancedAgent.nl +:+ Parser.THOUGHT_TOKEN in
  let remembered :=
    Memory.add_short_term (EnhancedAgent.memory self)
      (PyStr.strip
         (PyStr.last_piece (PyStr.split Parser.THOUGHT_TOKEN generated)))
      (tool +:+ ": " +:+ tool_input) tool_result (datetime_now w'').1 in
  EnhancedAgent.run_loop (S fuel) question prompt previous (self, w)
  = EnhancedAgent.run_loop fuel question prompt (previous ++ [observed])
      (EnhancedAgent.set_memory self remembered,
       print observed (datetime_now w'').2).
Proof.
  intros Hfmt Hllm Hparse Hne Htool Huse observed remembered.
  rewrite (run_loop_parsed fuel question prompt previous self w curr_prompt
             generated w' tool tool_input) by done.
  apply String.eqb_neq in Hne. rewrite Hne.
  unfold bind at 1. cbn [fst snd]. rewrite Htool.
  unfold bind at 1, EnhancedAgent.use_tool, try_except.
  unfold bind at 1, on_snd at 1. cbn [fst snd]. rewrite Huse.
  unfold bind at 1, on_snd at 1, total at 1. cbn [fst snd].
  destruct (datetime_now w'') as [now w3] eqn:Hnow.
  unfold bind at 1, modify at 1. unfold ret at 1.
  unfold bind at 1, on_snd, total. cbn [fst snd].
  subst observed remembered. cbn [fst snd]. reflexivity.
Qed.

(** X5 at the test agent, whose model calls [Fetch]. *)
Lemma tool_result_is_observed_witness :
  let w' := (TestWorld.llm "prompt" []
               (TestWorld.scripted [TestWorld.calls_fetch])).2 in
  let w'' := TestWorld.invoked "Fetch" "topic" w' in
  let observed :=
    TestWorld.calls_fetch +:+ EnhancedAgent.nl +:+ Parser.OBSERVATION_TOKEN
    +:+ " " +:+ "raw-text" +:+ EnhancedAgent.nl +:+ Parser.THOUGHT_TOKEN in
  EnhancedAgent.run_loop 1 "What is it?" "prompt" []
    (TestWorld.agent, TestWorld.scripted [TestWorld.calls_fetch])
  = EnhancedAgent.run_loop 0 "What is it?" "prompt" ([] ++ [observed])
      (EnhancedAgent.set_memory TestWorld.agent
         (Memory.add_short_term (EnhancedAgent.memory TestWorld.agent)
            (PyStr.strip
               (PyStr.last_piece
                  (PyStr.split Parser.THOUGHT_TOKEN TestWorld.calls_fetch)))
            ("Fetch" +:+ ": " +:+ "topic") "raw-text" (datetime_now w'').1),
       print observed (datetime_now w'').2).
Proof.
  exact (tool_result_is_observed TestWorld.t TestWorld.env TestWorld.agent
           (TestWorld.scripted [TestWorld.calls_fetch]) _ _ 0
           "What is it?" "prompt" "prompt" TestWorld.calls_fetch
           "Fetch" "topic" [] TestWorld.fetch "raw-text"
           eq_refl eq_refl eq_refl ltac:(discriminate) eq_refl eq_refl).
Defined.

Section FrameFacts.
Context {W : Type} `{Env W}.
Implicit Types (a b c : EnhancedAgent.t W).
Local Abbreviation same_but_memory := (AgentFrame.same_but_memory (W := W)).
Local Abbreviation memory_only := (AgentFrame.memory_only (W := W)).

Lemma same_but_memory_refl a : same_but_memory a a.
Proof. by destruct a. Qed.

Lemma same_but_memory_trans a b c :
  same_but_memory a b -> same_but_memory b c -> same_but_memory a c.
Proof.
  unfold AgentFrame.same_but_memory. intros <- <-. by destruct a.
Qed.

Lemma same_but_memory_set a m : same_but_memory a (EnhancedAgent.set_memory a m).
Proof. by destruct a. Qed.

Lemma memory_only_pure {A} (r : result A) : memory_only (fun s => (r, s)).
Proof. intros s. apply same_but_memory_refl. Qed.

Lemma memory_only_bind {A B} (m : M _ A) (f : A -> M _ B) :
  memory_only m -> (forall x, memory_only (f x)) -> memory_only (bind m f).
Proof.
  intros Hm Hf s. unfold bind. specialize (Hm s).
  destruct (m s) as [[x | e] s1]; [| done].
  eapply same_but_memory_trans; [exact Hm | apply Hf].
Qed.

Lemma memory_only_self {A} (f : EnhancedAgent.t W -> M _ A) :
  (forall a, memory_only (f a)) ->
  memory_only (bind (fun s => (Ok s.1, s)) f).
Proof. intros Hf s. unfold bind. apply Hf. Qed.

Lemma memory_only_try_except {A} (m : M _ A) (h : exn -> M _ A) :
  memory_only m -> (forall e, memory_only (h e)) ->
  memory_only (try_except m h).
Proof.
  intros Hm Hh s. unfold try_except. specialize (Hm s).
  destruct (m s) as [[x | e] s1]; [done |].
  eapply same_but_memory_trans; [exact Hm | apply Hh].
Qed.

Lemma memory_only_on_snd {A} (m : M W A) : memory_only (on_snd m).
Proof.
  intros s. unfold on_snd. destruct (m s.2). apply same_but_memory_refl.
Qed.

Lemma memory_only_remember (f : EnhancedAgent.state (W := W) -> Memory.t) :
  memory_only
    (modify (fun s : EnhancedAgent.state =>
               (EnhancedAgent.set_memory s.1 (f s), s.2))).
Proof. intros s. apply same_but_memory_set. Qed.

Lemma memory_only_decide prompt :
  memory_only (EnhancedAgent.decide_next_action prompt).
Proof.
  unfold EnhancedAgent.decide_next_action.
  apply memory_only_self. intros a.
  apply memory_only_bind; [apply memory_only_on_snd |]. intros generated.
  destruct (Parser._parse generated) as [[tool tool_input] | e];
    apply memory_only_pure.
Qed.

Lemma memory_only_use_tool t generated tool tool_input :
  memory_only (EnhancedAgent.use_tool t generated tool tool_input).
Proof.
  unfold EnhancedAgent.use_tool. apply memory_only_try_except.
  - apply memory_only_bind; [apply memory_only_on_snd |]. intros r.
    apply memory_only_bind; [apply memory_only_on_snd |]. intros now.
    apply memory_only_bind; [| intros ?; apply memory_only_pure].
    apply (memory_only_remember
             (fun s => Memory.add_short_term (EnhancedAgent.memory s.1) _ _ _ _)).
  - intros e. apply memory_only_pure.
Qed.

Lemma memory_only_run_loop fuel question prompt previous :
  memory_only (EnhancedAgent.run_loop fuel question prompt previous).
Proof.
  revert previous. induction fuel as [| fuel IH]; intros previous.
  - apply memory_only_pure.
  - cbn [EnhancedAgent.run_loop].
    apply memory_only_bind; [apply memory_only_pure |]. intros curr_prompt.
    apply memory_only_bind; [apply memory_only_decide |].
    intros [[generated tool] tool_input].
    destruct (String.eqb tool "Final Answer").
    + apply memory_only_bind; [apply memory_only_on_snd |]. intros now.
      apply memory_only_bind; [| intros ?; apply memory_only_pure].
      apply (memory_only_remember
               (fun s => Memory.add_long_term (EnhancedAgent.memory s.1) _ _ _)).
    + apply memory_only_self. intros a.
      destruct (EnhancedAgent.tool_by_names a !! tool) as [t |];
        [| apply memory_only_pure].
      apply memory_only_bind; [apply memory_only_use_tool |].
      intros [tool_result generated'].
      apply memory_only_bind; [apply memory_only_on_snd |]. intros _.
      apply IH.
Qed.
End FrameFacts.

(** X6. Whatever the model and the tools do, and whether [run] returns or
    raises, it changes nothing of the agent but the memory and, when no
    goal was set (or the goal was the empty string), the goal, which
    becomes the question with the question as its one sub-goal.  A goal
    set before survives: a second question does not replace it. *)
Theorem run_keeps_goal_and_tools (W : Type) (E : Env W)
    (self : EnhancedAgent.t W) (question : string) (w : W) :
  let self' := (EnhancedAgent.run question (self, w)).2.1 in
  AgentFrame.same_but_memory
    (if EnhancedAgent.no_goal self then EnhancedAgent.set_goal self question
     else self) self'
  /\ EnhancedAgent.current_goal self'
     = (if EnhancedAgent.no_goal self then Some question
        else EnhancedAgent.current_goal self)
  /\ EnhancedAgent.tools self' = EnhancedAgent.tools self
  /\ EnhancedAgent.max_loops self' = EnhancedAgent.max_loops self.
Proof.
  intros self'.
  assert (Hframe : AgentFrame.same_but_memory
            (if EnhancedAgent.no_goal self
             then EnhancedAgent.set_goal self question else self) self').
  { subst self'. unfold EnhancedAgent.run.
    unfold bind at 1, modify at 1. cbn [fst snd].
    set (s0 := if EnhancedAgent.no_goal self
               then (EnhancedAgent.set_goal self question, w) else (self, w)).
    replace (if EnhancedAgent.no_goal self
             then EnhancedAgent.set_goal self question else self)
      with s0.1 by (subst s0; by destruct (EnhancedAgent.no_goal self)).
    revert s0. apply memory_only_self. intros a.
    apply memory_only_bind; [apply memory_only_on_snd |]. intros today.
    apply memory_only_bind; [apply memory_only_pure |]. intros prompt.
    apply memory_only_bind; [apply memory_only_pure |]. intros shown.
    apply memory_only_bind; [apply memory_only_on_snd |]. intros _.
    apply memory_only_run_loop. }
  split; [exact Hframe |].
  unfold AgentFrame.same_but_memory in Hframe. rewrite <- Hframe.
  by destruct (EnhancedAgent.no_goal self).
Qed.

Section Exhaustion.
Context {W : Type} `{Env W}.
Variable calls : W -> nat.
Variable self0 : EnhancedAgent.t W.
Hypothesis calls_now : forall w, calls (datetime_now w).2 = calls w.
Hypothesis calls_today : forall w, calls (date_today w).2 = calls w.
Hypothesis calls_print : forall text w, calls (print text w) = calls w.
Hypothesis calls_llm :
  forall prompt stop w,
    calls (EnhancedAgent.llm_generate self0 prompt stop w).2 = S (calls w).
Hypothesis calls_tool :
  forall t, t ∈ EnhancedAgent.tools self0 ->
  forall input w, calls (ToolInterface.use t input w).2 = calls w.

Implicit Types (s : EnhancedAgent.state (W := W)).
Local Abbreviation same_agent := (Budget.same_agent self0).

Lemma decide_calls prompt s r s2 :
  same_agent s.1 ->
  EnhancedAgent.decide_next_action prompt s = (r, s2) ->
  s2.1 = s.1 /\ calls s2.2 = S (calls s.2).
Proof.
  intros (Hllm & _ & _). unfold EnhancedAgent.decide_next_action.
  unfold bind at 1. cbn [fst snd]. unfold bind, on_snd. cbn [fst snd].
  rewrite Hllm.
  pose proof (calls_llm prompt (EnhancedAgent.stop_pattern s.1) s.2) as Hc.
  destruct (EnhancedAgent.llm_generate self0 _ _ s.2) as [[g | e] w'];
    cbn [fst snd] in *.
  - destruct (Parser._parse g) as [[tool ti] | e]; by intros [= <- <-].
  - by intros [= <- <-].
Qed.

Lemma use_tool_calls t generated tool tool_input s x s3 :
  t ∈ EnhancedAgent.tools self0 -> same_agent s.1 ->
  EnhancedAgent.use_tool t generated tool tool_input s = (x, s3) ->
  same_agent s3.1 /\ calls s3.2 = calls s.2.
Proof.
  intros Ht Hs. unfold EnhancedAgent.use_tool, try_except.
  unfold bind at 1, on_snd at 1. cbn [fst snd].
  pose proof (calls_tool t Ht tool_input s.2) as Hc.
  destruct (ToolInterface.use t tool_input s.2) as [[r | e] w'];
    cbn [fst snd] in *.
  - unfold bind, on_snd, total, modify, ret. cbn [fst snd].
    pose proof (calls_now w') as Hn.
    destruct (datetime_now w') as [now w'']. cbn [fst snd] in *.
    intros [= <- <-]. cbn. split; [done | lia].
  - unfold ret. intros [= <- <-]. cbn. by split.
Qed.

Lemma run_loop_none fuel question prompt previous s s' :
  same_agent s.1 ->
  EnhancedAgent.run_loop fuel question prompt previous s = (Ok None, s') ->
  calls s'.2 = (calls s.2 + fuel)%nat.
Proof.
  revert previous s. induction fuel as [| fuel IH]; intros previous s Hs.
  - cbn. intros [= <-]. lia.
  - cbn [EnhancedAgent.run_loop]. unfold bind at 1.
    destruct (str_format prompt _) as [curr_prompt | e]; [| done].
    unfold bind at 1.
    destruct (EnhancedAgent.decide_next_action curr_prompt s)
      as [[[[generated tool] tool_input] | e] s2] eqn:Hd; [| done].
    destruct (decide_calls _ _ _ _ Hs Hd) as [Hs2 Hc2].
    assert (Hsame2 : same_agent s2.1) by by rewrite Hs2.
    destruct (String.eqb tool "Final Answer").
    + unfold bind, on_snd, total, modify, ret. cbn [fst snd].
      by destruct (datetime_now s2.2).
    + unfold bind at 1. cbn [fst snd].
      destruct (EnhancedAgent.tool_by_names s2.1 !! tool) as [t |] eqn:Ht;
        [| done].
      apply tool_by_names_some in Ht as [Ht _].
      destruct Hsame2 as (Hl2 & Htools2 & Hm2). rewrite Htools2 in Ht.
      unfold bind at 1.
      destruct (EnhancedAgent.use_tool t generated tool tool_input s2)
        as [[[tool_result generated'] | e] s3] eqn:Hu; [| done].
      destruct (use_tool_calls _ _ _ _ _ _ _ Ht
                  (conj Hl2 (conj Htools2 Hm2)) Hu) as [Hs3 Hc3].
      unfold bind at 1. unfold on_snd at 1, total at 1.
      cbn [fst snd]. intros Hrun.
      rewrite (IH _ (s3.1, print _ s3.2) Hs3 Hrun). cbn [fst snd].
      rewrite calls_print. lia.
Qed.

Lemma run_none question s s' :
  same_agent s.1 ->
  EnhancedAgent.run question s = (Ok None, s') ->
  calls s'.2 = (calls s.2 + Z.to_nat (EnhancedAgent.max_loops self0))%nat.
Proof.
  destruct s as [self w]. cbn [fst snd]. intros Hs.
  unfold EnhancedAgent.run.
  unfold bind at 1, modify at 1. cbn [fst snd].
  assert (Hfrom : forall self1,
            same_agent self1 ->
            (self <- (fun s => (Ok s.1, s)) ;;
             today <- on_snd (total date_today) ;;
             prompt <-
               (fun s =>
                  (str_format (EnhancedAgent.prompt_template self)
                     [("today", today);
                      ("tool_description", EnhancedAgent.tool_description self);
                      ("tool_names", EnhancedAgent.tool_names self);
                      ("question", question);
                      ("previous_responses", "{previous_responses}");
                      ("memory_context",
                       PyStr.join EnhancedAgent.nl
                         ((fun m => "Previous experience: " +:+ Memory.value m)
                            <$> Memory.get_relevant_memory
                                  (EnhancedAgent.memory self) question))],
                   s)) ;;
             shown <- (fun s => (str_format prompt
                                   [("previous_responses", "")], s)) ;;
             on_snd (total (fun w => (tt, print shown w))) ;;;
             EnhancedAgent.run_loop (Z.to_nat (EnhancedAgent.max_loops self))
               question prompt [])%py (self1, w) = (Ok None, s') ->
            calls s'.2
            = (calls w + Z.to_nat (EnhancedAgent.max_loops self0))%nat).
  { intros self1 Hs1. unfold bind at 1. cbn [fst snd].
    unfold bind at 1, on_snd at 1, total at 1. cbn [fst snd].
    pose proof (calls_today w) as Htoday.
    destruct (date_today w) as [today w1]. cbn [fst snd] in *.
    unfold bind at 1.
    destruct (str_format (EnhancedAgent.prompt_template self1) _)
      as [prompt | e]; [| done].
    unfold bind at 1.
    destruct (str_format prompt _) as [shown | e]; [| done].
    unfold bind at 1, on_snd at 1, total at 1. cbn [fst snd].
    intros Hrun.
    rewrite (run_loop_none _ _ _ _ (self1, print shown w1) _ Hs1 Hrun).
    cbn [fst snd].
    destruct Hs1 as (_ & _ & ->). by rewrite calls_print, Htoday. }
  destruct (EnhancedAgent.no_goal self); cbn [fst snd]; by apply Hfrom.
Qed.
End Exhaustion.

(** X7. Let a counter in the world advance by one at every call of the
    language model and at nothing else.  When [EnhancedAgent.run] returns
    [None], the model has been called exactly [max_loops] times (none when
    [max_loops <= 0]): [None] comes back only from a loop that used up its
    budget. *)
Theorem none_means_budget_used (W : Type) (E : Env W)
    (calls : W -> nat) (self : EnhancedAgent.t W) (question : string)
    (w : W) :
  (forall w, calls (datetime_now w).2 = calls w) ->
  (forall w, calls (date_today w).2 = calls w) ->
  (forall text w, calls (print text w) = calls w) ->
  (forall prompt stop w,
     calls (EnhancedAgent.llm_generate self prompt stop w).2 = S (calls w)) ->
  (forall t, t ∈ EnhancedAgent.tools self ->
   forall input w, calls (ToolInterface.use t input w).2 = calls w) ->
  let r := EnhancedAgent.run question (self, w) in
  r.1 = Ok None ->
  calls r.2.2 = (calls w + Z.to_nat (EnhancedAgent.max_loops self))%nat.
Proof.
  intros Hnow Htoday Hprint Hllm Htools r Hnone.
  apply (run_none calls self Hnow Htoday Hprint Hllm Htools question
           (self, w) r.2).
  - unfold Budget.same_agent. cbn. done.
  - subst r. destruct (EnhancedAgent.run question (self, w)) as [res s'].
    cbn [fst snd] in *. by rewrite Hnone.
Qed.

(** X7 at the test agent with a budget of one iteration, which goes to a
    call of [Fetch]. *)
Lemma none_means_budget_used_witness :
  let r := EnhancedAgent.run "What is the capital of France?"
             (TestWorld.agent_with_budget 1,
              TestWorld.scripted
                [TestWorld.calls_fetch; TestWorld.answers_paris]) in
  r.1 = Ok None /\ TestWorld.llm_calls r.2.2 = (0 + Z.to_nat 1)%nat.
Proof.
  intros r. split; [reflexivity |].
  refine (none_means_budget_used TestWorld.t TestWorld.env
            TestWorld.llm_calls (TestWorld.agent_with_budget 1)
            "What is the capital of France?"
            (TestWorld.scripted
               [TestWorld.calls_fetch; TestWorld.answers_paris])
            _ _ _ _ _ eq_refl).
  - reflexivity.
  - reflexivity.
  - reflexivity.
  - intros prompt stop w. cbn. unfold TestWorld.llm.
    by destruct (TestWorld.responses w).
  - intros t Ht input w.
    apply elem_of_cons in Ht as [-> | Ht]; [reflexivity |].
    apply elem_of_cons in Ht as [-> | Ht]; [reflexivity |].
    by apply elem_of_nil in Ht.
Defined.

(** X8. The dict [tool_by_names] maps a name to the last tool of the list
    that bears it, while the manager's lookup takes the first; the two know
    the same names. *)
Theorem tool_by_names_last_wins (W : Type) (self : EnhancedAgent.t W)
    (n : string) :
  EnhancedAgent.tool_by_names self !! n
  = find_tool (rev (EnhancedAgent.tools self)) n
  /\ (EnhancedAgent.tool_by_names self !! n = None
      <-> find_tool (EnhancedAgent.tools self) n = None).
Proof.
  assert (Hlast : EnhancedAgent.tool_by_names self !! n
                  = find_tool (rev (EnhancedAgent.tools self)) n).
  { unfold EnhancedAgent.tool_by_names, find_tool.
    rewrite tool_by_names_fold, lookup_empty. by destruct (find _ _). }
  split; [done |]. rewrite tool_by_names_none. unfold find_tool. split.
  - intros Hall. destruct (find _ _) as [t |] eqn:Hf; [| done].
    apply find_some in Hf as [Hin Heq%String.eqb_eq].
    destruct (Hall t); [by apply list_elem_of_In | done].
  - intros Hf t Hin Heq.
    apply find_none with (x := t) in Hf; [| by apply list_elem_of_In].
    apply String.eqb_neq in Hf. done.
Qed.
(** ** The match of a well-formed action block *)

Section Matcher.
Implicit Types (p r : PyRe.pattern) (s t a : string) (st : PyRe.captures)
  (cls : ascii -> bool).

Lemma star_cons cls r x s st :
  PyRe.rmatch (PyRe.Star cls :: r) (String x s) st
  = if cls x then
      match PyRe.rmatch (PyRe.Star cls :: r) s (PyRe.push x st) with
      | Some g => Some g
      | None => PyRe.rmatch r (String x s) st
      end
    else PyRe.rmatch r (String x s) st.
Proof. reflexivity. Qed.

Lemma group_open_eq r s st :
  PyRe.rmatch (PyRe.GroupOpen :: r) s st
  = PyRe.rmatch r s (PyRe.open_group st).
Proof. reflexivity. Qed.

Lemma group_close_eq r s st :
  PyRe.rmatch (PyRe.GroupClose :: r) s st
  = PyRe.rmatch r s (PyRe.close_group st).
Proof. reflexivity. Qed.

Lemma star_nil cls r st :
  PyRe.rmatch (PyRe.Star cls :: r) "" st = PyRe.rmatch r "" st.
Proof. reflexivity. Qed.

Lemma lazy_star_eq cls r s st :
  PyRe.rmatch (PyRe.LazyStar cls :: r) s st
  = match PyRe.rmatch r s st with
    | Some g => Some g
    | None =>
        match s with
        | String x s' =>
            if cls x then PyRe.rmatch (PyRe.LazyStar cls :: r) s' (PyRe.push x st)
            else None
        | EmptyString => None
        end
    end.
Proof. by destruct s. Qed.

Local Abbreviation stops := PyRe.stops.

Lemma pushes_closed s st :
  PyRe.current st = None -> PyRe.pushes s st = st.
Proof.
  revert st. induction s as [| c s IH]; intros st Hst; [done |].
  cbn [PyRe.pushes]. unfold PyRe.push at 1. rewrite Hst. by apply IH.
Qed.

Lemma pushes_open s st g :
  PyRe.current st = Some g ->
  PyRe.pushes s st
  = {| PyRe.groups := PyRe.groups st; PyRe.current := Some (g +:+ s) |}.
Proof.
  revert st g. induction s as [| c s IH]; intros st g Hst.
  - cbn [PyRe.pushes]. rewrite str_app_nil_r. destruct st. simpl in *.
    by subst.
  - cbn [PyRe.pushes].
    rewrite (IH _ (g +:+ String c "")).
    + unfold PyRe.push. rewrite Hst. cbn.
      by rewrite str_app_assoc.
    + unfold PyRe.push. by rewrite Hst.
Qed.

Lemma lits_match l r t st :
  PyRe.rmatch (PyRe.lits l ++ r) (l +:+ t) st
  = PyRe.rmatch r t (PyRe.pushes l st).
Proof.
  revert st. induction l as [| c l IH]; intros st; [done |].
  rewrite str_app_cons. cbn [PyRe.lits app PyRe.rmatch PyRe.pushes].
  by rewrite Ascii.eqb_refl, IH.
Qed.

Lemma lits_fail l r t st :
  String.prefix l t = false -> PyRe.rmatch (PyRe.lits l ++ r) t st = None.
Proof.
  revert t st. induction l as [| c l IH]; intros t st.
  - by destruct t.
  - destruct t as [| x t]; [done |]. cbn [PyRe.lits app PyRe.rmatch].
    simpl. destruct (ascii_dec c x) as [-> | Hne].
    + rewrite Ascii.eqb_refl. apply IH.
    + intros _. destruct (Ascii.eqb_spec x c); [congruence | done].
Qed.

Lemma opt_skip cls r t st :
  stops cls t ->
  PyRe.rmatch (PyRe.Opt cls :: r) t st = PyRe.rmatch r t st.
Proof.
  destruct t as [| x t]; [done |]. cbn [PyRe.stops PyRe.rmatch]. by intros ->.
Qed.

Lemma opt_take cls r x t st :
  cls x = true -> is_Some (PyRe.rmatch r t (PyRe.push x st)) ->
  PyRe.rmatch (PyRe.Opt cls :: r) (String x t) st
  = PyRe.rmatch r t (PyRe.push x st).
Proof.
  intros Hx [g Hg]. cbn [PyRe.rmatch]. by rewrite Hx, Hg.
Qed.

Lemma star_greedy cls r a t st :
  PyRe.all_chars cls a = true -> stops cls t ->
  is_Some (PyRe.rmatch r t (PyRe.pushes a st)) ->
  PyRe.rmatch (PyRe.Star cls :: r) (a +:+ t) st
  = PyRe.rmatch r t (PyRe.pushes a st).
Proof.
  revert st. induction a as [| x a IH]; intros st Ha Ht Hr.
  - rewrite str_app_nil_l. cbn [PyRe.pushes] in *.
    destruct t as [| y t]; [done |]. rewrite star_cons.
    cbn [PyRe.stops] in Ht. by rewrite Ht.
  - rewrite str_app_cons, star_cons. cbn [PyRe.all_chars] in Ha.
    apply andb_prop in Ha as [Hx Ha]. rewrite Hx.
    cbn [PyRe.pushes] in *. rewrite IH by done.
    by destruct Hr as [g ->].
Qed.

Lemma lazy_star_first cls r a t st :
  PyRe.all_chars cls a = true ->
  (forall a1 c a2 st',
     a = a1 +:+ String c a2 ->
     PyRe.rmatch r (String c a2 +:+ t) st' = None) ->
  is_Some (PyRe.rmatch r t (PyRe.pushes a st)) ->
  PyRe.rmatch (PyRe.LazyStar cls :: r) (a +:+ t) st
  = PyRe.rmatch r t (PyRe.pushes a st).
Proof.
  revert st. induction a as [| x a IH]; intros st Ha Hfail Hr.
  - rewrite str_app_nil_l, lazy_star_eq. cbn [PyRe.pushes] in *.
    by destruct Hr as [g ->].
  - rewrite lazy_star_eq. rewrite (Hfail "" x a st) by done.
    rewrite str_app_cons. cbn [PyRe.all_chars] in Ha.
    apply andb_prop in Ha as [Hx Ha]. rewrite Hx.
    cbn [PyRe.pushes] in *. apply IH; [done | | done].
    intros a1 c a2 st' ->. apply (Hfail (String x a1) c a2 st').
    by rewrite str_app_cons.
Qed.

Lemma lstrip_span cls s :
  exists ws,
    s = ws +:+ PyStr.lstrip_by cls s
    /\ PyRe.all_chars cls ws = true
    /\ stops cls (PyStr.lstrip_by cls s).
Proof.
  induction s as [| c s (ws & Hs & Hws & Hstop)].
  - by exists "".
  - cbn [PyStr.lstrip_by]. destruct (cls c) eqn:Hc.
    + exists (String c ws). rewrite str_app_cons, <- Hs.
      split_and!; [done | | done]. cbn [PyRe.all_chars]. by rewrite Hc.
    + by exists "".
Qed.

(** A prefix of [a +:+ b] that does not lie within [a] runs over into
    [b]. *)
Lemma prefix_overrun l a b :
  String.prefix l (a +:+ b) = true ->
  String.prefix l a = true
  \/ exists l2, l = a +:+ l2 /\ l2 <> "" /\ String.prefix l2 b = true.
Proof.
  revert a. induction l as [| c l IH]; intros a Hp.
  - left. by destruct a.
  - destruct a as [| x a].
    + right. exists (String c l). by rewrite str_app_nil_l in *.
    + rewrite str_app_cons in Hp. simpl in Hp. simpl.
      destruct (ascii_dec c x) as [-> | Hne]; [| done].
      destruct (IH a Hp) as [Hl | (l2 & -> & Hne & Hl2)]; [by left |].
      right. exists l2. by rewrite str_app_cons.
Qed.

Lemma contains_suffix sep a1 a2 :
  PyStr.contains sep (a1 +:+ a2) = false -> PyStr.contains sep a2 = false.
Proof.
  intros Hc. destruct (PyStr.contains sep a2) eqn:Ha; [| done].
  by rewrite (contains_app_r sep a1 a2 Ha) in Hc.
Qed.

Lemma prefix_contains sep s :
  String.prefix sep s = true -> PyStr.contains sep s = true.
Proof.
  intros [r ->]%prefix_spec. apply contains_spec. by exists "", r.
Qed.
End Matcher.

Section ActionBlockFacts.
Implicit Types (s t pre name input rest : string) (st : PyRe.captures).

(** The pattern after the input label, and after the tool name. *)
Local Abbreviation input_part :=
  [PyRe.Star PyStr.is_space; PyRe.GroupOpen; PyRe.Star PyRe.any_char;
   PyRe.GroupClose].
Local Abbreviation name_end :=
  (PyRe.Opt (PyRe.is_char "]")
   :: PyRe.Star (PyRe.is_char Parser.newline)
   :: PyRe.lits "Action Input:" ++ input_part).

Lemma input_part_match input st :
  PyRe.current st = None ->
  PyRe.rmatch input_part input st
  = Some (PyRe.groups st ++ [PyStr.lstrip_by PyStr.is_space input]).
Proof.
  intros Hst.
  destruct (lstrip_span PyStr.is_space input) as (ws & Hin & Hws & Hstop).
  set (body := PyStr.lstrip_by PyStr.is_space input) in *.
  assert (Hbody : PyRe.rmatch
            [PyRe.GroupOpen; PyRe.Star PyRe.any_char; PyRe.GroupClose]
            body st = Some (PyRe.groups st ++ [body])).
  { rewrite group_open_eq.
    rewrite <- (str_app_nil_r body) at 1.
    rewrite star_greedy; [| apply all_any | done |];
      rewrite group_close_eq;
      by rewrite (pushes_open body (PyRe.open_group st) ""). }
  rewrite Hin at 1. rewrite star_greedy; [| done | done |];
    rewrite pushes_closed by done; by rewrite Hbody.
Qed.

Local Abbreviation closes := ActionBlock.closes.

Lemma name_end_match close newlines input st :
  closes close newlines -> PyRe.current st = None ->
  PyRe.rmatch name_end
    (close +:+ newlines +:+ "Action Input:" +:+ input) st
  = Some (PyRe.groups st ++ [PyStr.lstrip_by PyStr.is_space input]).
Proof.
  intros [Hclose Hnl] Hst.
  assert (Hstar : forall st, PyRe.current st = None ->
            PyRe.rmatch
              (PyRe.Star (PyRe.is_char Parser.newline)
               :: PyRe.lits "Action Input:" ++ input_part)
              (newlines +:+ "Action Input:" +:+ input) st
            = Some (PyRe.groups st
                    ++ [PyStr.lstrip_by PyStr.is_space input])).
  { intros st' Hst'.
    rewrite star_greedy; [| done | done |];
      rewrite pushes_closed by done; rewrite lits_match;
      rewrite pushes_closed by done; by rewrite input_part_match. }
  destruct Hclose as [-> | ->].
  - rewrite str_app_nil_l, opt_skip; [by apply Hstar |].
    destruct newlines as [| c nls]; [done |].
    cbn [PyRe.all_chars] in Hnl. apply andb_prop in Hnl as [Hc _].
    unfold PyRe.is_char in Hc. apply Ascii.eqb_eq in Hc as ->. done.
  - rewrite str_app_cons, str_app_nil_l.
    assert (Hp : PyRe.push "]" st = st)
      by (unfold PyRe.push; by rewrite Hst).
    rewrite opt_take;
      [rewrite Hp; by apply Hstar | done | rewrite Hp; by rewrite Hstar].
Qed.

(** The first character of what follows the tool name. *)
Lemma name_end_head close newlines input :
  closes close newlines ->
  exists c rest,
    close +:+ newlines +:+ "Action Input:" +:+ input = String c rest
    /\ (c = "]"%char \/ c = Parser.newline \/ c = "A"%char).
Proof.
  intros [[-> | ->] Hnl].
  - rewrite str_app_nil_l. destruct newlines as [| c nls].
    + eexists _, _. split; [reflexivity | by auto].
    + cbn [PyRe.all_chars] in Hnl. apply andb_prop in Hnl as [Hc _].
      unfold PyRe.is_char in Hc. apply Ascii.eqb_eq in Hc as ->.
      eexists _, _. split; [reflexivity | by auto].
  - eexists _, _. split; [reflexivity | by auto].
Qed.

(** No proper suffix of the input label begins what follows the tool
    name. *)
Lemma input_label_no_overlap l1 l2 c rest :
  "Action Input:" = l1 +:+ l2 -> l1 <> "" -> l2 <> "" ->
  c = "]"%char \/ c = Parser.newline \/ c = "A"%char ->
  String.prefix l2 (String c rest) = false.
Proof.
  intros Hl H1 H2 Hc.
  destruct l1 as [| x1 l1]; [done |]. clear H1.
  rewrite str_app_cons in Hl. injection Hl as _ Hl.
  do 13 (destruct l1 as [| ? l1];
         [rewrite str_app_nil_l in Hl; subst l2;
          by destruct Hc as [-> | [-> | ->]]
         | rewrite str_app_cons in Hl; try done; injection Hl as _ Hl]).
Qed.

Lemma action_label_no_overlap l1 l2 rest :
  "Action: " = l1 +:+ l2 -> l1 <> "" -> l2 <> "" ->
  String.prefix l2 ("Action: " +:+ rest) = false.
Proof.
  intros Hl H1 H2.
  destruct l1 as [| x1 l1]; [done |]. clear H1.
  rewrite str_app_cons in Hl. injection Hl as _ Hl.
  do 8 (destruct l1 as [| ? l1];
        [rewrite str_app_nil_l in Hl; by subst l2
        | rewrite str_app_cons in Hl; try done; injection Hl as _ Hl]).
Qed.

(** With the tool name read into the first group, what follows it closes
    the match at the first try. *)
Lemma name_match name close newlines input st g :
  ActionBlock.plain name -> closes close newlines ->
  PyRe.current st = Some g ->
  PyRe.rmatch
    (PyRe.LazyStar PyRe.any_char :: PyRe.GroupClose :: name_end)
    (name +:+ close +:+ newlines +:+ "Action Input:" +:+ input) st
  = Some (PyRe.groups st
          ++ [g +:+ name; PyStr.lstrip_by PyStr.is_space input]).
Proof.
  intros [Hchars Hlabel] Hcl Hst.
  assert (Hend : PyRe.rmatch (PyRe.GroupClose :: name_end)
            (close +:+ newlines +:+ "Action Input:" +:+ input)
            (PyRe.pushes name st)
          = Some (PyRe.groups st
                  ++ [g +:+ name; PyStr.lstrip_by PyStr.is_space input])).
  { rewrite group_close_eq, (pushes_open name st g Hst).
    rewrite name_end_match by done. cbn. by rewrite <- app_assoc. }
  rewrite lazy_star_first; [done | apply all_any | | by rewrite Hend].
  intros a1 c a2 st' Hname.
  destruct (name_end_head close newlines input Hcl) as (c0 & rest & Hrest & Hc0).
  rewrite Hrest.
  assert (Hc : ActionBlock.is_delimiter c = false).
  { rewrite Hname in Hchars. clear -Hchars.
    induction a1 as [| x a1 IH].
    - rewrite str_app_nil_l in Hchars. cbn [PyRe.all_chars] in Hchars.
      apply andb_prop in Hchars as [Hc _]. by apply negb_true_iff in Hc.
    - rewrite str_app_cons in Hchars. cbn [PyRe.all_chars] in Hchars.
      apply andb_prop in Hchars as [_ Hc]. by apply IH. }
  assert (Hpre : String.prefix "Action Input:" (String c a2 +:+ String c0 rest)
                 = false).
  { destruct (String.prefix _ _) eqn:Hp; [| done].
    apply prefix_overrun in Hp as [Hp | (l2 & Hl & Hne & Hp)].
    - apply prefix_contains in Hp.
      rewrite Hname in Hlabel.
      by rewrite (contains_suffix _ _ _ Hlabel) in Hp.
    - by rewrite (input_label_no_overlap (String c a2) l2 c0 rest) in Hp. }
  rewrite group_close_eq.
  assert (Hbr : PyRe.is_char "]" c = false /\ PyRe.is_char Parser.newline c = false).
  { unfold ActionBlock.is_delimiter in Hc. cbn in Hc.
    apply orb_false_iff in Hc as [_ Hc].
    apply orb_false_iff in Hc as [H1 Hc].
    apply orb_false_iff in Hc as [H2 _].
    by unfold PyRe.is_char. }
  destruct Hbr as [Hb Hn].
  rewrite str_app_cons. rewrite opt_skip by done.
  rewrite star_cons, Hn. rewrite <- str_app_cons.
  by apply lits_fail.
Qed.

(** The match of the action pattern at the action label. *)
Lemma action_regex_match open name close newlines input :
  open = "" \/ open = "[" ->
  ActionBlock.plain name -> closes close newlines ->
  PyRe.rmatch Parser.action_regex
    ("Action: " +:+ open +:+ name +:+ close +:+ newlines
     +:+ "Action Input:" +:+ input) PyRe.no_captures
  = Some [name; PyStr.lstrip_by PyStr.is_space input].
Proof.
  intros Hopen Hplain Hcl. unfold Parser.action_regex.
  rewrite lits_match, pushes_closed by done.
  cbn [app]. 
  assert (Hgo : forall st, PyRe.current st = None -> PyRe.groups st = [] ->
            PyRe.rmatch
              (PyRe.GroupOpen :: PyRe.LazyStar PyRe.any_char
               :: PyRe.GroupClose :: name_end)
              (name +:+ close +:+ newlines +:+ "Action Input:" +:+ input) st
            = Some [name; PyStr.lstrip_by PyStr.is_space input]).
  { intros st Hst Hg. rewrite group_open_eq.
    rewrite (name_match name close newlines input (PyRe.open_group st) "")
      by done.
    cbn. by rewrite Hg. }
  destruct Hopen as [-> | ->].
  - rewrite str_app_nil_l. rewrite opt_skip; [by apply Hgo |].
    destruct name as [| c name].
    + rewrite str_app_nil_l.
      destruct (name_end_head close newlines input Hcl)
        as (c0 & rest & -> & [-> | [-> | ->]]); done.
    + destruct Hplain as [Hchars _]. cbn [PyRe.all_chars] in Hchars.
      apply andb_prop in Hchars as [Hc _]. apply negb_true_iff in Hc.
      unfold ActionBlock.is_delimiter in Hc. cbn in Hc.
      apply orb_false_iff in Hc as [Hc _]. done.
  - rewrite str_app_cons, str_app_nil_l.
    rewrite opt_take; [by apply Hgo | done | by rewrite Hgo].
Qed.

Lemma search_first p pre body :
  (forall pre1 c pre2,
     pre = pre1 +:+ String c pre2 ->
     PyRe.rmatch p (String c pre2 +:+ body) PyRe.no_captures = None) ->
  is_Some (PyRe.rmatch p body PyRe.no_captures) ->
  PyRe.search p (pre +:+ body) = PyRe.rmatch p body PyRe.no_captures.
Proof.
  intros Hfail [g Hg]. induction pre as [| c pre IH].
  - rewrite str_app_nil_l. destruct body; cbn [PyRe.search]; by rewrite Hg.
  - rewrite str_app_cons. cbn [PyRe.search].
    rewrite <- str_app_cons, (Hfail "" c pre) by done.
    apply IH.
    intros pre1 c' pre2 ->. apply (Hfail (String c pre1) c' pre2).
    by rewrite str_app_cons.
Qed.
End ActionBlockFacts.

(** X9. A response without the final-answer marker, whose first action
    label is followed by a tool name free of brackets, newlines and input
    labels (optionally in square brackets), then newlines, then the input
    label, parses to that tool name stripped of whitespace and to the text
    after the input label without its leading whitespace, stripped of
    spaces and then of double quotes. *)
Theorem parse_action_block (pre open name close newlines input : string) :
  PyStr.contains Parser.FINAL_ANSWER_TOKEN
    (ActionBlock.text pre open name close newlines input) = false ->
  PyStr.contains "Action: " pre = false ->
  open = "" \/ open = "[" ->
  ActionBlock.closes close newlines ->
  ActionBlock.plain name ->
  Parser._parse (ActionBlock.text pre open name close newlines input)
  = Ok (PyStr.strip name,
        PyStr.strip_chars Parser.double_quote
          (PyStr.strip_chars " " (PyStr.lstrip_by PyStr.is_space input))).
Proof.
  intros Hfinal Hpre Hopen Hcl Hplain.
  unfold Parser._parse. rewrite Hfinal. unfold ActionBlock.text.
  pose proof (action_regex_match open name close newlines input
                Hopen Hplain Hcl) as Hm.
  rewrite search_first; [by rewrite Hm | | by rewrite Hm].
  intros pre1 c pre2 Hsplit. unfold Parser.action_regex.
  apply lits_fail.
  destruct (String.prefix _ _) eqn:Hp; [| done].
  apply prefix_overrun in Hp as [Hp | (l2 & Hl & Hne & Hp)].
  - apply prefix_contains in Hp. rewrite Hsplit in Hpre.
    by rewrite (contains_suffix _ _ _ Hpre) in Hp.
  - by rewrite (action_label_no_overlap (String c pre2) l2) in Hp.
Qed.

(** X9 at the response that calls [Fetch]. *)
Lemma parse_action_block_witness :
  Parser._parse TestWorld.calls_fetch = Ok ("Fetch", "topic").
Proof.
  exact (parse_action_block "Thought: look it up
" "" "Fetch" "" "
" " topic" eq_refl eq_refl (or_introl eq_refl)
           (conj (or_introl eq_refl) eq_refl) (conj eq_refl eq_refl)).
Defined.
(** ** The agent with the model of [llm.py] *)

(** X10. With [ChatLLM.generate] as the model, every iteration of
    [EnhancedAgent.run] raises after the request to the API: [TypeError]
    when the API answered with a text (the ordinary method's result is
    awaited), and [Exception] with the text "Error generating response: "
    and the cause when the request failed or the reply had no content.
    The agent is left as it was. *)
Theorem shipped_model_never_answers (W : Type) (E : Env W)
    (chat_completion :
       ChatLLM.t -> string -> option (list string) -> M W (option string))
    (llm : ChatLLM.t) (self : EnhancedAgent.t W) (w : W) (fuel : nat)
    (question prompt curr_prompt : string) (previous : list string) :
  EnhancedAgent.llm_generate self
    = ChatLLM.awaited_generate chat_completion llm ->
  str_format prompt
    [("previous_responses", PyStr.join EnhancedAgent.nl previous)]
    = Ok curr_prompt ->
  let api := chat_completion llm curr_prompt
               (Some (EnhancedAgent.stop_pattern self)) w in
  EnhancedAgent.run_loop (S fuel) question prompt previous (self, w)
  = (Raise match api.1 with
           | Ok (Some _) =>
               TypeError "object str can't be used in 'await' expression"
           | Ok None =>
               Exception
                 ("Error generating response: "
                  +:+ "'NoneType' object has no attribute 'strip'")
           | Raise e =>
               Exception ("Error generating response: " +:+ exn_str e)
           end,
     (self, api.2)).
Proof.
  intros Hllm Hfmt api.
  assert (Hgen : EnhancedAgent.llm_generate self curr_prompt
                   (EnhancedAgent.stop_pattern self) w
                 = (Raise match api.1 with
                          | Ok (Some _) =>
                              TypeError
                                "object str can't be used in 'await' expression"
                          | Ok None =>
                              Exception
                                ("Error generating response: "
                                 +:+ "'NoneType' object has no attribute 'strip'")
                          | Raise e =>
                              Exception
                                ("Error generating response: " +:+ exn_str e)
                          end, api.2)).
  { rewrite Hllm. unfold ChatLLM.awaited_generate, ChatLLM.generate,
      ChatLLM.strip_content, try_except, bind, ret, raise.
    subst api. by destruct (chat_completion _ _ _ _) as [[[text |] | e] w']. }
  eapply run_loop_fatal; [exact Hfmt | exact Hgen | by left].
Qed.

(** X10 at an API that answers with a final answer. *)
Lemma shipped_model_never_answers_witness :
  EnhancedAgent.run_loop 1 "What is the capital of France?" "prompt" []
    (ShippedAgent.agent, TestWorld.scripted [TestWorld.answers_paris])
  = (Raise (TypeError "object str can't be used in 'await' expression"),
     (ShippedAgent.agent,
      (TestWorld.llm "prompt" []
         (TestWorld.scripted [TestWorld.answers_paris])).2)).
Proof.
  exact (shipped_model_never_answers TestWorld.t TestWorld.env
           ShippedAgent.api ChatLLM.new ShippedAgent.agent
           (TestWorld.scripted [TestWorld.answers_paris]) 0
           "What is the capital of France?" "prompt" "prompt" []
           eq_refl eq_refl).
Defined.
(** ** The retrying tool: cache, attempts, processors, parameters *)

Section Cache.
Context {W : Type} `{Env W}.
Implicit Types (self : AdvancedTool.t W) (w : W).

Lemma set_cache_same self : AdvancedTool.set_cache self (AdvancedTool.result_cache self) = self.
Proof. by destruct self. Qed.

(** What the retry loop leaves of the tool object. *)
Lemma retry_loop_tool n attempt x processed last self w :
  let r := AdvancedTool.retry_loop n attempt x processed last (self, w) in
  match r.1 with
  | Ok result =>
      r.2.1 = if AdvancedTool.cache_results self
              then AdvancedTool.set_cache self
                     (<[x := result]> (AdvancedTool.result_cache self))
              else self
  | Raise _ => r.2.1 = self
  end.
Proof.
  revert attempt last w. induction n as [| n IH]; intros attempt last w;
    [done |].
  cbn [AdvancedTool.retry_loop fst snd].
  destruct (AdvancedTool.attempt_once self processed w) as [[result | e] w'].
  - done.
  - apply IH.
Qed.
End Cache.

Lemma use_leaves (W : Type) (E : Env W)
    (self : AdvancedTool.t W) (w : W) (input_text : string) :
  let r := AdvancedTool.use input_text (self, w) in
  match r.1 with
  | Ok result =>
      r.2.1 = if AdvancedTool.cache_results self
              then AdvancedTool.set_cache self
                     (<[input_text := result]> (AdvancedTool.result_cache self))
              else self
  | Raise _ => r.2.1 = self
  end.
Proof.
  unfold AdvancedTool.use. cbn [fst snd].
  destruct (AdvancedTool.cache_results self) eqn:Hc.
  - destruct (AdvancedTool.result_cache self !! input_text) as [cached |] eqn:Hx.
    + cbn [fst snd]. by rewrite insert_id, set_cache_same.
    + destruct (AdvancedTool.apply_processors _ _) as [processed | e]; [| done].
      pose proof (retry_loop_tool
                    (Z.to_nat (AdvancedTool.max_retries self)) 0 input_text
                    processed None self w) as Hr.
      cbn zeta in Hr. by rewrite Hc in Hr.
  - destruct (AdvancedTool.apply_processors _ _) as [processed | e]; [| done].
    pose proof (retry_loop_tool
                  (Z.to_nat (AdvancedTool.max_retries self)) 0 input_text
                  processed None self w) as Hr.
    cbn zeta in Hr. by rewrite Hc in Hr.
Qed.

(** X11. [AdvancedTool.use] changes nothing of the tool object but the
    result cache: after a call that returned, the cache holds the result
    under the raw input when caching is on and is unchanged when it is off;
    after a call that raised, the tool is as before.  So [clear_cache]
    after [use] gives the tool that [clear_cache] gives before it. *)
Theorem use_changes_only_the_cache (W : Type) (E : Env W)
    (self : AdvancedTool.t W) (w : W) (input_text : string) :
  let r := AdvancedTool.use input_text (self, w) in
  match r.1 with
  | Ok result =>
      r.2.1 = if AdvancedTool.cache_results self
              then AdvancedTool.set_cache self
                     (<[input_text := result]> (AdvancedTool.result_cache self))
              else self
  | Raise _ => r.2.1 = self
  end
  /\ AdvancedTool.clear_cache r.2.1 = AdvancedTool.clear_cache self.
Proof.
  intros r. pose proof (use_leaves W E self w input_text) as Hr.
  cbn zeta in Hr. fold r in Hr. split; [exact Hr |].
  destruct r.1 as [result | e]; rewrite Hr; [| done].
  by destruct (AdvancedTool.cache_results self).
Qed.

(** X12. With caching on, once [use] has returned a result for an input,
    every later [use] of that input returns the same result at once: the
    world, and so the tool's own execution, is not touched, and the tool
    object stays as it is. *)
Theorem use_serves_cached_result (W : Type) (E : Env W)
    (self self' : AdvancedTool.t W) (w w' : W) (input_text result : string) :
  AdvancedTool.cache_results self = true ->
  AdvancedTool.use input_text (self, w) = (Ok result, (self', w')) ->
  AdvancedTool.result_cache self' !! input_text = Some result
  /\ forall w2, AdvancedTool.use input_text (self', w2)
                = (Ok result, (self', w2)).
Proof.
  intros Hc Huse.
  pose proof (use_leaves W E self w input_text) as Hr.
  cbn zeta in Hr. rewrite Huse in Hr. cbn [fst snd] in Hr. rewrite Hc in Hr.
  assert (Hx : AdvancedTool.result_cache self' !! input_text = Some result).
  { rewrite Hr. cbn. by rewrite lookup_insert_eq. }
  split; [done |]. intros w2. unfold AdvancedTool.use. cbn [fst snd].
  assert (Hc' : AdvancedTool.cache_results self' = true) by by rewrite Hr.
  by rewrite Hc', Hx.
Qed.

(** X12 at a tool that has returned once. *)
Lemma use_serves_cached_result_witness :
  let tool := TestTools.flaky 0 (Exception "boom") 3 in
  let cached :=
    AdvancedTool.set_cache tool
      (<["x" := "done"]> (AdvancedTool.result_cache tool)) in
  AdvancedTool.use "x" (cached, TestWorld.start)
  = (Ok "done", (cached, TestWorld.start)).
Proof.
  exact (proj2 (use_serves_cached_result TestWorld.t TestWorld.env
                  (TestTools.flaky 0 (Exception "boom") 3) _
                  TestWorld.start _ "x" "done" eq_refl eq_refl)
           TestWorld.start).
Defined.

(** X13. With [max_retries <= 0] a call that misses the cache makes no
    attempt: the tool is not executed, nothing changes, and the call raises
    [Exception] with the text "Failed after max_retries attempts. Last
    error: None". *)
Theorem use_without_attempts (W : Type) (E : Env W)
    (self : AdvancedTool.t W) (w : W) (input_text processed : string) :
  AdvancedTool.max_retries self <= 0 ->
  (AdvancedTool.cache_results self = false
   \/ AdvancedTool.result_cache self !! input_text = None) ->
  AdvancedTool.apply_processors (AdvancedTool.pre_processors self) input_text
    = Ok processed ->
  AdvancedTool.use input_text (self, w)
  = (Raise (Exception
              ("Failed after " +:+ str_int (AdvancedTool.max_retries self)
               +:+ " attempts. Last error: None")),
     (self, w)).
Proof.
  intros Hmax Hmiss Hpre. unfold AdvancedTool.use. cbn [fst snd].
  assert (Hlook : (if AdvancedTool.cache_results self
                   then AdvancedTool.result_cache self !! input_text
                   else None) = None).
  { destruct Hmiss as [-> | Hx]; [done |].
    by destruct (AdvancedTool.cache_results self). }
  rewrite Hlook, Hpre.
  by replace (Z.to_nat (AdvancedTool.max_retries self)) with 0%nat by lia.
Qed.

(** X13 at a tool with no attempt allowed. *)
Lemma use_without_attempts_witness :
  let tool := TestTools.flaky 0 (Exception "boom") 0 in
  AdvancedTool.use "x" (tool, TestWorld.start)
  = (Raise (Exception "Failed after 0 attempts. Last error: None"),
     (tool, TestWorld.start)).
Proof.
  exact (use_without_attempts TestWorld.t TestWorld.env
           (TestTools.flaky 0 (Exception "boom") 0) TestWorld.start "x" "x"
           ltac:(by vm_compute) (or_intror eq_refl) eq_refl).
Defined.

(** X14. When the first [j] attempts fail, [j] below [max_retries], and
    the next one succeeds, [use] returns that attempt's post-processed
    result after [j] sleeps of one second, stores it in the cache when
    caching is on, and makes no further attempt. *)
Theorem use_returns_first_success (W : Type) (E : Env W)
    (self : AdvancedTool.t W) (w w2 w3 : W)
    (input_text processed result : string) (j : nat) (last : option string) :
  (AdvancedTool.cache_results self = false
   \/ AdvancedTool.result_cache self !! input_text = None) ->
  AdvancedTool.apply_processors (AdvancedTool.pre_processors self) input_text
    = Ok processed ->
  Z.of_nat j < AdvancedTool.max_retries self ->
  AdvancedTool.failed_attempts self processed j w None = Some (w2, last) ->
  AdvancedTool.attempt_once self processed w2 = (Ok result, w3) ->
  AdvancedTool.use input_text (self, w)
  = (Ok result,
     (if AdvancedTool.cache_results self
      then AdvancedTool.set_cache self
             (<[input_text := result]> (AdvancedTool.result_cache self))
      else self, w3)).
Proof.
  intros Hmiss Hpre Hj Hfail Hok. unfold AdvancedTool.use. cbn [fst snd].
  assert (Hc : (if AdvancedTool.cache_results self
                then AdvancedTool.result_cache self !! input_text else None)
               = None).
  { destruct Hmiss as [-> | Hm]; [done |]. by destruct (_ : bool). }
  rewrite Hc, Hpre.
  replace (Z.to_nat (AdvancedTool.max_retries self))
    with (j + S (Z.to_nat (AdvancedTool.max_retries self) - S j))%nat by lia.
  rewrite (retry_loop_failures self input_text processed j _ 0 w None w2 last)
    by (done || lia).
  cbn [AdvancedTool.retry_loop fst snd]. by rewrite Hok.
Qed.

(** X14 at a tool that fails once: two executions, the second one
    returns. *)
Lemma use_returns_first_success_witness :
  let tool := TestTools.flaky 1 (Exception "boom") 3 in
  exists w3,
    AdvancedTool.use "x" (tool, TestWorld.start)
    = (Ok "done",
       (AdvancedTool.set_cache tool
          (<["x" := "done"]> (AdvancedTool.result_cache tool)), w3))
    /\ TestWorld.invocations w3 = [("Flaky", "x"); ("Flaky", "x")].
Proof.
  eexists. split.
  - exact (use_returns_first_success TestWorld.t TestWorld.env
             (TestTools.flaky 1 (Exception "boom") 3) TestWorld.start _ _
             "x" "x" "done" 1 _ (or_intror eq_refl) eq_refl
             ltac:(by vm_compute) eq_refl eq_refl).
  - reflexivity.
Defined.

(** X15. A processor added by [add_pre_processor] or [add_post_processor]
    runs after the processors registered before it, on their output, and
    not at all when one of them raises. *)
Theorem processors_run_in_registration_order (W : Type)
    (self : AdvancedTool.t W) (processor : string -> result string)
    (x : string) :
  AdvancedTool.apply_processors
    (AdvancedTool.pre_processors (AdvancedTool.add_pre_processor self processor))
    x
  = match AdvancedTool.apply_processors (AdvancedTool.pre_processors self) x with
    | Ok y => processor y
    | Raise e => Raise e
    end
  /\ AdvancedTool.apply_processors
       (AdvancedTool.post_processors
          (AdvancedTool.add_post_processor self processor)) x
     = match AdvancedTool.apply_processors (AdvancedTool.post_processors self) x with
       | Ok y => processor y
       | Raise e => Raise e
       end.
Proof.
  assert (Happ : forall ps x,
            AdvancedTool.apply_processors (ps ++ [processor]) x
            = match AdvancedTool.apply_processors ps x with
              | Ok y => processor y
              | Raise e => Raise e
              end).
  { intros ps. induction ps as [| p ps IH]; intros y; cbn.
    - by destruct (processor y).
    - destruct (p y) as [z | e]; [apply IH | done]. }
  split; apply Happ.
Qed.

Section ValidationFacts.
Context {value ty : Type}.
Variable isinstance : value -> ty -> bool.
Variable type_name : ty -> string.
Implicit Types (metadata : ToolMetadata.t ty) (params : PyDict.t value).

Lemma check_types_spec metadata items :
  match AdvancedTool.check_types isinstance type_name metadata items with
  | Ok _ =>
      forall param v expected,
        (param, v) ∈ items ->
        ToolMetadata.parameters metadata !! param = Some expected ->
        isinstance v expected = true
  | Raise e =>
      exists before_it param v expected after_it,
        items = before_it ++ (param, v) :: after_it
        /\ ToolMetadata.parameters metadata !! param = Some expected
        /\ isinstance v expected = false
        /\ (forall param' v' expected',
              (param', v') ∈ before_it ->
              ToolMetadata.parameters metadata !! param' = Some expected' ->
              isinstance v' expected' = true)
        /\ e = AdvancedTool.ToolError
                 ("Parameter '" +:+ param +:+ "' must be of type "
                  +:+ type_name expected)
                 (ToolMetadata.name metadata) "validation"
  end.
Proof.
  induction items as [| [param v] items IH]; cbn [AdvancedTool.check_types].
  - by intros ? ? ? ?%elem_of_nil.
  - destruct (ToolMetadata.parameters metadata !! param) as [expected |] eqn:Hp.
    + destruct (isinstance v expected) eqn:Hi.
      * destruct (AdvancedTool.check_types _ _ _ items) as [[] | e].
        -- intros p' v' ex' [[= -> ->] | Hin]%elem_of_cons Hex.
           ++ congruence.
           ++ by eapply IH.
        -- destruct IH as (b & p' & v' & ex' & a & -> & Hex & Hno & Hb & ->).
           exists ((param, v) :: b), p', v', ex', a.
           split_and!; [done | done | done | | done].
           intros p'' v'' ex'' [[= -> ->] | Hin]%elem_of_cons Hex''.
           ++ congruence.
           ++ by eapply Hb.
      * exists [], param, v, expected, items.
        split_and!; [done | done | done | | done].
        by intros ? ? ? ?%elem_of_nil.
    + destruct (AdvancedTool.check_types _ _ _ items) as [[] | e].
      * intros p' v' ex' [[= -> ->] | Hin]%elem_of_cons Hex.
        -- congruence.
        -- by eapply IH.
      * destruct IH as (b & p' & v' & ex' & a & -> & Hex & Hno & Hb & ->).
        exists ((param, v) :: b), p', v', ex', a.
        split_and!; [done | done | done | | done].
        intros p'' v'' ex'' [[= -> ->] | Hin]%elem_of_cons Hex''.
        -- congruence.
        -- by eapply Hb.
Qed.
End ValidationFacts.

(** X16. [_validate_parameters] returns exactly when every required
    parameter is among the keys given and every given parameter with a
    declared class is an instance of it.  Otherwise it raises [ToolError]
    of type validation: when required parameters are missing, with all of
    them listed in the order of [required_parameters] and no word about
    types; else for a parameter of the wrong class. *)
Theorem validate_parameters_spec (value ty : Type)
    (isinstance : value -> ty -> bool) (type_name : ty -> string)
    (metadata : ToolMetadata.t ty) (params : PyDict.t value) :
  let missing :=
    filter (fun param => param ∉ PyDict.keys params)
           (ToolMetadata.required_parameters metadata) in
  match AdvancedTool._validate_parameters isinstance type_name metadata params
  with
  | Ok _ =>
      missing = []
      /\ forall param v expected,
           (param, v) ∈ params ->
           ToolMetadata.parameters metadata !! param = Some expected ->
           isinstance v expected = true
  | Raise e =>
      (missing <> []
       /\ e = AdvancedTool.ToolError
                ("Missing required parameters: " +:+ PyStr.join ", " missing)
                (ToolMetadata.name metadata) "validation")
      \/ (missing = []
          /\ exists param v expected,
               (param, v) ∈ params
               /\ ToolMetadata.parameters metadata !! param = Some expected
               /\ isinstance v expected = false
               /\ e = AdvancedTool.ToolError
                        ("Parameter '" +:+ param +:+ "' must be of type "
                         +:+ type_name expected)
                        (ToolMetadata.name metadata) "validation")
  end.
Proof.
  intros missing. unfold AdvancedTool._validate_parameters.
  assert (Hsame : filter (fun param => PyDict.mem param params = false)
                    (ToolMetadata.required_parameters metadata) = missing).
  { subst missing. apply list_filter_iff. intros p.
    rewrite <- pydict_mem_keys. by destruct (PyDict.mem p params). }
  rewrite Hsame. destruct missing as [| m missing]; [| by left].
  pose proof (check_types_spec isinstance type_name metadata params) as Hc.
  destruct (AdvancedTool.check_types _ _ _ params) as [[] | e].
  - by split.
  - right. split; [done |].
    destruct Hc as (b & p & v & ex & a & -> & Hex & Hno & _ & ->).
    exists p, v, ex. split_and!; [| done | done | done].
    apply elem_of_app. right. by left.
Qed.
(** ** The tool manager: ranking, errors, and what a call touches *)

Section MostUsed.
Context {W : Type} `{Env W}.
Implicit Types (self : EnhancedToolManager.t W).

Lemma fold_set_keys {A V : Type} (f : A -> string) (v : V) (l : list A)
    (d : PyDict.t V) k :
  k ∈ PyDict.keys (foldl (fun d x => PyDict.set (f x) v d) d l)
  <-> k ∈ PyDict.keys d \/ exists x, x ∈ l /\ f x = k.
Proof.
  revert d. induction l as [| x l IH]; intros d; cbn [foldl].
  - split; [by left | intros [? | (? & ?%elem_of_nil & _)]; done].
  - rewrite IH, pydict_elem_keys_set. split.
    + intros [[-> | Hk] | (y & Hy & <-)].
      * right. exists x. split; [by left | done].
      * by left.
      * right. exists y. split; [by right | done].
    + intros [Hk | (y & [-> | Hy]%elem_of_cons & <-)].
      * left. by right.
      * left. by left.
      * right. by exists y.
Qed.

Lemma stats_keys_tools self n :
  n ∈ EnhancedToolManager.stats_keys self
  <-> exists tool, tool ∈ EnhancedToolManager.tools self
                   /\ ToolInterface.name tool = n.
Proof.
  unfold EnhancedToolManager.stats_keys. rewrite fold_set_keys.
  split; [intros [?%elem_of_nil | ?]; done | by right].
Qed.

Lemma omap_all_some {A B : Type} (f : A -> option B) (g : B -> A) (l : list A) :
  (forall x, x ∈ l -> exists y, f x = Some y /\ g y = x) ->
  g <$> omap f l = l.
Proof.
  induction l as [| x l IH]; intros Hl; [done |].
  destruct (Hl x) as (y & Hy & Hg); [by left |].
  cbn. rewrite Hy. cbn. rewrite Hg. f_equal.
  apply IH. intros z Hz. apply Hl. by right.
Qed.

Lemma stats_items_keys self :
  ManagerCalls.stats_consistent self ->
  (EnhancedToolManager.stats_items self).*1
  = EnhancedToolManager.stats_keys self.
Proof.
  intros [Hreg _]. unfold EnhancedToolManager.stats_items.
  apply omap_all_some. intros n (tool & Hin & <-)%stats_keys_tools.
  destruct (Hreg tool Hin) as [st Hst]. exists (ToolInterface.name tool, st).
  by rewrite Hst.
Qed.

Lemma stats_items_elem self n st :
  (n, st) ∈ EnhancedToolManager.stats_items self ->
  EnhancedToolManager.tool_stats self !! n = Some st
  /\ n ∈ EnhancedToolManager.stats_keys self.
Proof.
  unfold EnhancedToolManager.stats_items.
  intros (k & Hk & Hf)%list_elem_of_omap.
  destruct (EnhancedToolManager.tool_stats self !! k) as [st' |] eqn:Hst;
    [| done].
  cbn in Hf. injection Hf as -> ->. done.
Qed.
End MostUsed.

(** X17. After any sequence of calls on a manager built from its tools,
    [get_most_used_tools limit] lists tools with their current statistics,
    each a registered tool; in order of non-increasing [usage_count], tools
    of equal count in the order of registration; and, for [limit >= 0],
    [limit] of them or every tool name when there are fewer. *)
Theorem most_used_tools_ranked (W : Type) (E : Env W)
    (tools : list (ToolInterface.t W)) (calls : list ManagerCalls.call)
    (w : W) (limit : Z) :
  let self := (ManagerCalls.after tools calls w).1 in
  let res := EnhancedToolManager.get_most_used_tools self limit in
  (0 <= limit ->
   length res
   = Nat.min (Z.to_nat limit)
       (length (EnhancedToolManager.stats_keys self)))
  /\ (forall i j a b,
        (i < j)%nat -> res !! i = Some a -> res !! j = Some b ->
        ToolStats.usage_count b.2 <= ToolStats.usage_count a.2
        /\ (ToolStats.usage_count b.2 = ToolStats.usage_count a.2 ->
            before (EnhancedToolManager.stats_keys self) a.1 b.1))
  /\ (forall n st,
        (n, st) ∈ res ->
        EnhancedToolManager.tool_stats self !! n = Some st
        /\ is_Some (find_tool (EnhancedToolManager.tools self) n)).
Proof.
  intros self res.
  pose proof (after_consistent tools calls w) as Hcons. fold self in Hcons.
  set (key := fun x : string * ToolStats.t => ToolStats.usage_count x.2).
  set (items := EnhancedToolManager.stats_items self).
  set (sorted := PyList.sorted_reverse Z.ltb key items).
  assert (Hres : res = PyList.slice_to limit sorted) by done.
  destruct (slice_to_take limit sorted) as [k Hk].
  assert (Hsub : forall x, x ∈ res -> x ∈ items).
  { intros x Hx. rewrite Hres, Hk in Hx.
    apply (sorted_reverse_elem Z.ltb key).
    by apply (subseteq_take k sorted). }
  split_and!.
  - intros Hlimit. rewrite Hres. unfold PyList.slice_to.
    destruct (Z.ltb_spec limit 0); [lia |].
    rewrite length_take. unfold sorted.
    rewrite (sorted_reverse_length Z.ltb key).
    rewrite <- (stats_items_keys self Hcons), length_fmap. done.
  - intros i j a b Hij Ha Hb.
    assert (Hsorted : StronglySorted (PyList.ranked_before Z.ltb key items) res).
    { rewrite Hres, Hk. apply (StronglySorted_app_1_l _ _ (drop k sorted)).
      rewrite take_drop. apply sorted_reverse_sorted; unfold key; lia. }
    destruct (sorted_lookup _ _ _ _ _ _ Hsorted Hij Ha Hb) as [Hlt Htie].
    unfold key in Hlt, Htie. split; [lia |].
    intros Heq. destruct Htie as (l1 & l2 & Hsplit & Hin); [lia |].
    exists (l1.*1), (l2.*1). split.
    + rewrite <- (stats_items_keys self Hcons). fold items.
      by rewrite Hsplit, fmap_app.
    + apply list_elem_of_fmap. by exists b.
  - intros n st Hin%Hsub. apply stats_items_elem in Hin as [Hst Hkey].
    split; [done |].
    apply stats_keys_tools in Hkey as (tool & Htool & Hname).
    destruct (find_tool (EnhancedToolManager.tools self) n) eqn:Hf;
      [by eauto |].
    apply find_none with (x := tool) in Hf; [| by apply list_elem_of_In].
    apply String.eqb_neq in Hf. done.
Qed.

Section ErrorFree.
Context {W : Type} `{Env W}.
Implicit Types (self : EnhancedToolManager.t W) (w : W)
  (s : EnhancedToolManager.state (W := W)).

Local Abbreviation quiet := (ManagerCalls.quiet (W := W)).

Lemma tracked_use_quiet tool n input_text t0 self w :
  tool ∈ EnhancedToolManager.tools self -> ToolInterface.name tool = n ->
  quiet self ->
  quiet (EnhancedToolManager.tracked_use tool n input_text t0 (self, w)).2.1.
Proof.
  intros Hin Hname (Hcons & Hret & Hfree).
  destruct (tracked_use_consistent tool n input_text t0 self w Hin Hname Hcons)
    as (Hcons' & Htools & _).
  split; [done |]. split.
  { intros tool' Hin'. rewrite Htools in Hin'. by apply Hret. }
  destruct Hcons as [Hreg Hok].
  destruct (Hreg tool Hin) as [st Hst]. rewrite Hname in Hst.
  destruct (Hok n st Hst) as [Hpos Heq].
  pose proof (tracked_use_spec tool n input_text t0 self w st Hst
                ltac:(lia)) as Hspec.
  pose proof (Hret tool Hin input_text w) as Hr.
  destruct (ToolInterface.use tool input_text w) as [r w2].
  destruct (datetime_now w2) as [t1 w3].
  destruct (datetime_now w3) as [t2 w4].
  rewrite Hspec. cbn [fst snd] in *. intros n' st'. cbn.
  destruct (decide (n = n')) as [<- | Hne].
  - rewrite lookup_insert_eq. intros [= <-]. cbn.
    destruct (Hfree n st Hst) as [He Hs]. rewrite Hr. lia.
  - rewrite lookup_insert_ne by done. apply Hfree.
Qed.

Lemma execute_tool_quiet n input_text s :
  quiet s.1 -> quiet (EnhancedToolManager.execute_tool n input_text s).2.1.
Proof.
  destruct s as [self w]. intros Hinv.
  unfold EnhancedToolManager.execute_tool. cbn [fst snd].
  destruct (find_tool _ n) as [tool |] eqn:Hf; [| exact Hinv].
  apply find_tool_some in Hf as [Hin Hname].
  unfold bind, on_snd, total. cbn [fst snd].
  destruct (datetime_now w) as [t0 w1].
  by apply tracked_use_quiet.
Qed.

Lemma chain_loop_quiet c chain input s :
  quiet s.1 -> quiet (EnhancedToolManager.chain_loop c chain input s).2.1.
Proof.
  revert input s.
  induction chain as [| n chain IH]; intros input [self w] Hinv;
    [exact Hinv |].
  cbn [EnhancedToolManager.chain_loop fst snd].
  destruct (find_tool _ n) as [tool |] eqn:Hf; [| exact Hinv].
  apply find_tool_some in Hf as [Hin Hname].
  unfold bind at 1, on_snd, total. cbn [fst snd].
  destruct (datetime_now w) as [t0 w1].
  unfold bind.
  pose proof (tracked_use_quiet tool n input t0 self w1 Hin Hname Hinv)
    as Hinv'.
  destruct (EnhancedToolManager.tracked_use tool n input t0 (self, w1))
    as [[result | e] s']; [| exact Hinv'].
  by apply IH.
Qed.

Lemma init_error_free (tools : list (ToolInterface.t W)) :
  ManagerCalls.error_free (EnhancedToolManager.__init__ tools).
Proof.
  unfold EnhancedToolManager.__init__, ManagerCalls.error_free. cbn.
  assert (Hgen : forall (l : list (ToolInterface.t W))
                        (m : gmap string ToolStats.t) n st,
            foldl (fun stats tool =>
                     <[ToolInterface.name tool := ToolStats.new]> stats) m l
              !! n = Some st ->
            st = ToolStats.new \/ m !! n = Some st).
  { induction l as [| tool l IH]; intros m n st; cbn; [by right |].
    intros [-> | Hst]%IH; [by left |].
    destruct (decide (ToolInterface.name tool = n)) as [<- | Hne].
    - rewrite lookup_insert_eq in Hst. left. congruence.
    - rewrite lookup_insert_ne in Hst by done. by right. }
  intros n st [-> | Hst]%Hgen; [done | by rewrite lookup_empty in Hst].
Qed.
End ErrorFree.

(** X18. The manager counts an error only when a tool raises: when no
    tool of the manager ever raises (as the tools that turn their failures
    into a returned text), then after any sequence of calls every
    [error_count] is 0 and every [success_count] equals [usage_count]. *)
Theorem returning_tools_count_no_errors (W : Type) (E : Env W)
    (tools : list (ToolInterface.t W)) (calls : list ManagerCalls.call)
    (w : W) :
  (forall tool, tool ∈ tools ->
   forall input w, ManagerCalls.is_ok (ToolInterface.use tool input w).1 = true) ->
  forall n st,
    EnhancedToolManager.tool_stats (ManagerCalls.after tools calls w).1 !! n
      = Some st ->
    ToolStats.error_count st = 0
    /\ ToolStats.success_count st = ToolStats.usage_count st.
Proof.
  intros Hret.
  assert (Hq : ManagerCalls.quiet (ManagerCalls.after tools calls w).1).
  { unfold ManagerCalls.after.
    induction calls as [| c calls IH] using rev_ind.
    - split_and!; [apply init_consistent | exact Hret | apply init_error_free].
    - rewrite foldl_app. cbn [foldl].
      set (s := foldl ManagerCalls.step _ calls) in *.
      destruct c as [n input | c input | name names]; cbn [ManagerCalls.step].
      + by apply execute_tool_quiet.
      + unfold EnhancedToolManager.execute_tool_chain.
        destruct (_ !! c); [| exact IH]. by apply chain_loop_quiet.
      + exact IH. }
  destruct Hq as (_ & _ & Hfree). exact Hfree.
Qed.

(** X18 at a manager of [SearchTool] and [SearxTool], after a call and
    a chain through both. *)
Lemma returning_tools_count_no_errors_witness :
  let calls :=
    [ManagerCalls.ExecuteTool "SearchTool" "rocq";
     ManagerCalls.DefineToolChain "both" ["SearchTool"; "SearxTool"];
     ManagerCalls.ExecuteToolChain "both" "rocq"] in
  exists st,
    EnhancedToolManager.tool_stats
      (ManagerCalls.after [SearchTool.tool; SearxTool.tool] calls
         TestWorld.start).1 !! "SearchTool" = Some st
    /\ ToolStats.usage_count st = 2
    /\ ToolStats.error_count st = 0
    /\ ToolStats.success_count st = ToolStats.usage_count st.
Proof.
  eexists. split; [by vm_compute |]. split; [reflexivity |].
  apply (returning_tools_count_no_errors TestWorld.t TestWorld.env
           [SearchTool.tool; SearxTool.tool]
           [ManagerCalls.ExecuteTool "SearchTool" "rocq";
            ManagerCalls.DefineToolChain "both" ["SearchTool"; "SearxTool"];
            ManagerCalls.ExecuteToolChain "both" "rocq"]
           TestWorld.start) with (n := "SearchTool").
  - intros tool Htool input w.
    apply elem_of_cons in Htool as [-> | Htool]; [reflexivity |].
    apply elem_of_cons in Htool as [-> | Htool]; [reflexivity |].
    by apply elem_of_nil in Htool.
  - by vm_compute.
Defined.

Section Frame.
Context {W : Type} `{Env W} {X : Type}.
Variable part : EnhancedToolManager.t W -> X.
Local Abbreviation keeps := (ManagerCalls.keeps (W := W) part).

Lemma frame_bind {A B} (m : M _ A) (f : A -> M _ B) :
  keeps m -> (forall a, keeps (f a)) -> keeps (bind m f).
Proof.
  intros Hm Hf s. unfold bind. specialize (Hm s).
  destruct (m s) as [[a | e] s1]; [| done].
  by rewrite (Hf a s1).
Qed.

Lemma frame_try_except {A} (m : M _ A) (h : exn -> M _ A) :
  keeps m -> (forall e, keeps (h e)) -> keeps (try_except m h).
Proof.
  intros Hm Hh s. unfold try_except. specialize (Hm s).
  destruct (m s) as [[a | e] s1]; [done |].
  by rewrite (Hh e s1).
Qed.

Lemma frame_try_finally {A} (m : M _ A) (f : M _ unit) :
  keeps m -> keeps f -> keeps (try_finally m f).
Proof.
  intros Hm Hf s. unfold try_finally. specialize (Hm s).
  destruct (m s) as [r s1]. specialize (Hf s1).
  by destruct (f s1) as [[[] | e] s2]; cbn in *; congruence.
Qed.

Lemma frame_on_snd {A} (m : M W A) : keeps (on_snd m).
Proof. intros s. unfold on_snd. by destruct (m s.2). Qed.

Lemma frame_pure {A} (r : result A) : keeps (fun s => (r, s)).
Proof. done. Qed.

(** A computation that changes the statistics of [n] only, when [part]
    does not look at them. *)
Lemma frame_tracked_use tool n input t0 :
  (forall f, keeps (EnhancedToolManager.update_stats n f)) ->
  keeps (EnhancedToolManager.tracked_use tool n input t0).
Proof.
  intros Hupd.
  unfold EnhancedToolManager.tracked_use, EnhancedToolManager.finally_block.
  apply frame_try_finally.
  - apply frame_try_except.
    + apply frame_bind; [apply frame_on_snd | intros result].
      apply frame_bind; [apply Hupd | intros; apply frame_pure].
    + intros e. apply frame_bind; [apply Hupd | intros; apply frame_pure].
  - apply frame_bind; [apply Hupd | intros _].
    apply frame_bind; [apply frame_on_snd | intros t1].
    apply frame_bind; [apply Hupd | intros _].
    apply frame_bind; [apply frame_on_snd | intros t2].
    apply frame_bind.
    + intros s. unfold EnhancedToolManager.get_stats. by destruct (_ !! n).
    + intros st. destruct (_ =? _); [apply frame_pure | apply Hupd].
Qed.
End Frame.

Section Others.
Context {W : Type} `{Env W}.

Lemma update_stats_others n n' f :
  n <> n' ->
  ManagerCalls.keeps (W := W) (ManagerCalls.apart_from_others n)
    (EnhancedToolManager.update_stats n' f).
Proof.
  intros Hne s. unfold EnhancedToolManager.update_stats.
  destruct (_ !! n') eqn:Hn'; [| done].
  unfold ManagerCalls.apart_from_others. cbn.
  by rewrite lookup_insert_ne.
Qed.

Lemma execute_tool_others n n' input :
  n <> n' ->
  ManagerCalls.keeps (W := W) (ManagerCalls.apart_from_others n)
    (EnhancedToolManager.execute_tool n' input).
Proof.
  intros Hne s. unfold EnhancedToolManager.execute_tool.
  destruct (find_tool _ n') as [tool |]; [| done].
  revert s. apply frame_bind; [apply frame_on_snd | intros t0].
  apply frame_tracked_use. intros f. by apply update_stats_others.
Qed.

Lemma chain_loop_others n c chain input :
  n ∉ chain ->
  ManagerCalls.keeps (W := W) (ManagerCalls.apart_from_others n)
    (EnhancedToolManager.chain_loop c chain input).
Proof.
  revert input. induction chain as [| n' chain IH]; intros input Hn s;
    [done |].
  apply not_elem_of_cons in Hn as [Hne Hn].
  cbn [EnhancedToolManager.chain_loop].
  destruct (find_tool _ n') as [tool |]; [| done].
  revert s. apply frame_bind; [apply frame_on_snd | intros t0].
  apply frame_bind.
  - apply frame_tracked_use. intros f. by apply update_stats_others.
  - intros result. by apply IH.
Qed.
End Others.

(** X19. [execute_tool] leaves the tools, the chains and the statistics of
    every other tool as they were, and [execute_tool_chain] those of every
    tool the chain does not name, whether the call returns or raises. *)
Theorem calls_touch_only_the_named_tools (W : Type) (E : Env W)
    (s : EnhancedToolManager.state (W := W)) (n : string) :
  (forall tool_name input_text,
     n <> tool_name ->
     ManagerCalls.apart_from_others n
       (EnhancedToolManager.execute_tool tool_name input_text s).2.1
     = ManagerCalls.apart_from_others n s.1)
  /\ (forall chain_name chain initial_input,
        EnhancedToolManager.tool_chains s.1 !! chain_name = Some chain ->
        n ∉ chain ->
        ManagerCalls.apart_from_others n
          (EnhancedToolManager.execute_tool_chain chain_name initial_input s).2.1
        = ManagerCalls.apart_from_others n s.1).
Proof.
  split.
  - intros tool_name input_text Hne. by apply execute_tool_others.
  - intros chain_name chain initial_input Hchain Hn.
    unfold EnhancedToolManager.execute_tool_chain. rewrite Hchain.
    by apply chain_loop_others.
Qed.

(** X26. When the manager executes a retrying tool on an input its cache
    holds, the stored result is returned and the manager counts the call
    as a use and a success, although the tool was not executed: the tool
    is left as it was, and the world changes by three readings of the
    clock only (the manager's two and the one [use] takes first). *)
Theorem cached_result_counts_as_success (W : Type) (E : Env W)
    (mgr : EnhancedToolManager.t (AdvancedTool.state (W := W)))
    (tool : ToolInterface.t (AdvancedTool.state (W := W)))
    (tool_name input_text cached : string)
    (self : AdvancedTool.t W) (w : W) (st : ToolStats.t) :
  find_tool (EnhancedToolManager.tools mgr) tool_name = Some tool ->
  ToolInterface.use tool = AdvancedTool.use ->
  EnhancedToolManager.tool_stats mgr !! tool_name = Some st ->
  0 <= ToolStats.usage_count st ->
  AdvancedTool.cache_results self = true ->
  AdvancedTool.result_cache self !! input_text = Some cached ->
  let '(t0, w1) := datetime_now w in
  let '(t1, w2) := datetime_now w1 in
  let '(t2, w3) := datetime_now w2 in
  EnhancedToolManager.execute_tool tool_name input_text (mgr, (self, w))
  = (Ok cached,
     (EnhancedToolManager.with_stats mgr
        (<[tool_name := ManagerCalls.tracked st true t1 (total_seconds t2 t0)]>
           (EnhancedToolManager.tool_stats mgr)),
      (self, w3))).
Proof.
  intros Hfind Huse Hst Hpos Hc Hx.
  destruct (datetime_now w) as [t0 w1] eqn:H0.
  destruct (datetime_now w1) as [t1 w2] eqn:H1.
  destruct (datetime_now w2) as [t2 w3] eqn:H2.
  unfold EnhancedToolManager.execute_tool. cbn [fst snd]. rewrite Hfind.
  unfold bind, on_snd, total. cbn [fst snd datetime_now
    AdvancedTool.env_with_tool]. rewrite H0. cbn [fst snd].
  pose proof (tracked_use_spec tool tool_name input_text t0 mgr (self, w1) st
                Hst ltac:(lia)) as Hspec.
  rewrite Huse in Hspec. unfold AdvancedTool.use at 1 in Hspec.
  cbn [fst snd] in Hspec. rewrite Hc, Hx in Hspec.
  cbn [datetime_now AdvancedTool.env_with_tool fst snd] in Hspec.
  rewrite H1 in Hspec.
  cbn [datetime_now AdvancedTool.env_with_tool fst snd] in Hspec.
  rewrite H2 in Hspec. exact Hspec.
Qed.

(** X26 at a tool that would fail: with the input in its cache the
    manager returns the stored text and records a success, and the tool
    was never invoked. *)
Lemma cached_result_counts_as_success_witness :
  let tool := TestTools.flaky 5 (Exception "boom") 3 in
  let warm :=
    AdvancedTool.set_cache tool
      (<["x" := "kept"]> (AdvancedTool.result_cache tool)) in
  let r := EnhancedToolManager.execute_tool "Flaky" "x"
             (TestTools.manager_of tool, (warm, TestWorld.start)) in
  r.1 = Ok "kept"
  /\ TestWorld.invocations r.2.2.2 = []
  /\ ToolStats.success_count <$>
       EnhancedToolManager.tool_stats r.2.1 !! "Flaky" = Some 1.
Proof.
  pose proof (cached_result_counts_as_success TestWorld.t TestWorld.env
                (TestTools.manager_of (TestTools.flaky 5 (Exception "boom") 3))
                (AdvancedTool.as_tool (TestTools.flaky 5 (Exception "boom") 3))
                "Flaky" "x" "kept"
                (AdvancedTool.set_cache
                   (TestTools.flaky 5 (Exception "boom") 3)
                   (<["x" := "kept"]>
                      (AdvancedTool.result_cache
                         (TestTools.flaky 5 (Exception "boom") 3))))
                TestWorld.start ToolStats.new
                eq_refl eq_refl eq_refl ltac:(by vm_compute) eq_refl eq_refl)
    as Hrun.
  cbn zeta. rewrite Hrun. split_and!; reflexivity.
Defined.
(** ** [AdvancedAgent]: tools, progress, and the run *)

(** X20. [AdvancedAgent._execute_tool] on an action that names a tool of
    the agent with counters never raises: when the tool returns, it returns
    the tool's result and adds one to the tool's success counter; when the
    tool raises, it returns the text "Error executing tool name: " with
    the error's text and adds one to the failure counter. *)
Theorem execute_tool_counts (W : Type) (E : Env W) (embedding : Type)
    (self : AdvancedAgent.t W embedding) (w : W)
    (a : AdvancedAgent.action) (tool_name tool_input : string)
    (tool : ToolInterface.t W) (c : AdvancedAgent.counters) :
  AdvancedAgent.a_tool a = Some tool_name ->
  AdvancedAgent.a_input a = Some tool_input ->
  find_tool (AdvancedAgent.tools self) tool_name = Some tool ->
  AdvancedAgent.tool_stats self !! tool_name = Some c ->
  AdvancedAgent._execute_tool a (self, w)
  = match ToolInterface.use tool tool_input w with
    | (Ok result, w') =>
        (Ok result,
         (AdvancedAgent.set_tool_stats self
            (<[tool_name := {| AdvancedAgent.success :=
                                 AdvancedAgent.success c + 1;
                               AdvancedAgent.failure :=
                                 AdvancedAgent.failure c |}]>
               (AdvancedAgent.tool_stats self)), w'))
    | (Raise e, w') =>
        (Ok ("Error executing tool " +:+ tool_name +:+ ": " +:+ exn_str e),
         (AdvancedAgent.set_tool_stats self
            (<[tool_name := {| AdvancedAgent.success :=
                                 AdvancedAgent.success c;
                               AdvancedAgent.failure :=
                                 AdvancedAgent.failure c + 1 |}]>
               (AdvancedAgent.tool_stats self)), w'))
    end.
Proof.
  intros Htool Hinput Hfind Hstats.
  unfold AdvancedAgent._execute_tool, AdvancedAgent.item.
  rewrite Htool, Hinput.
  unfold bind at 1, ret at 1. unfold bind at 1, ret at 1.
  unfold try_except, bind at 1, AdvancedAgent._execute_tool_with_timeout.
  cbn [fst snd]. rewrite Hfind. unfold on_snd. cbn [fst snd].
  destruct (ToolInterface.use tool tool_input w) as [[result | e] w'].
  - unfold bind, AdvancedAgent.count, ret. cbn [fst snd]. by rewrite Hstats.
  - unfold bind, AdvancedAgent.count, ret. cbn [fst snd]. by rewrite Hstats.
Qed.

(** X20 at the test agent and an action that names [Fetch]. *)
Lemma execute_tool_counts_witness :
  AdvancedAgent._execute_tool TestAgents.fetch_topic
    (TestAgents.advanced, TestWorld.start)
  = (Ok "raw-text",
     (AdvancedAgent.set_tool_stats TestAgents.advanced
        (<["Fetch" := {| AdvancedAgent.success := 0 + 1;
                         AdvancedAgent.failure := 0 |}]>
           (AdvancedAgent.tool_stats TestAgents.advanced)),
      TestWorld.invoked "Fetch" "topic" TestWorld.start)).
Proof.
  exact (execute_tool_counts TestWorld.t TestWorld.env string
           TestAgents.advanced TestWorld.start TestAgents.fetch_topic
           "Fetch" "topic" TestWorld.fetch
           {| AdvancedAgent.success := 0; AdvancedAgent.failure := 0 |}
           eq_refl eq_refl eq_refl eq_refl).
Defined.

(** X21. On an action that names a tool the agent does not have,
    [_execute_tool] raises [KeyError] for the name, out of the handler that
    counts the failure, and returns no error text; nothing changes. *)
Theorem unknown_tool_is_key_error (W : Type) (E : Env W) (embedding : Type)
    (self : AdvancedAgent.t W embedding) (w : W)
    (a : AdvancedAgent.action) (tool_name tool_input : string) :
  AdvancedAgent.a_tool a = Some tool_name ->
  AdvancedAgent.a_input a = Some tool_input ->
  find_tool (AdvancedAgent.tools self) tool_name = None ->
  AdvancedAgent.tool_stats self !! tool_name = None ->
  AdvancedAgent._execute_tool a (self, w)
  = (Raise (KeyError tool_name), (self, w)).
Proof.
  intros Htool Hinput Hfind Hstats.
  unfold AdvancedAgent._execute_tool, AdvancedAgent.item.
  rewrite Htool, Hinput.
  unfold bind at 1, ret at 1. unfold bind at 1, ret at 1.
  unfold try_except, bind at 1, AdvancedAgent._execute_tool_with_timeout.
  cbn [fst snd]. rewrite Hfind.
  unfold bind, AdvancedAgent.count. cbn [fst snd]. by rewrite Hstats.
Qed.

(** X21 at the test agent and the action [_parse_action] returns, which
    names the tool example. *)
Lemma unknown_tool_is_key_error_witness :
  AdvancedAgent._execute_tool (AdvancedAgent._parse_action "any response")
    (TestAgents.advanced, TestWorld.start)
  = (Raise (KeyError "example"), (TestAgents.advanced, TestWorld.start)).
Proof.
  exact (unknown_tool_is_key_error TestWorld.t TestWorld.env string
           TestAgents.advanced TestWorld.start
           (AdvancedAgent._parse_action "any response") "example" "example"
           eq_refl eq_refl eq_refl eq_refl).
Defined.

Section ProgressFacts.
Context {W embedding : Type} `{Env W}.
Implicit Types (self : AdvancedAgent.t W embedding) (w : W) (g : AgentGoal.t).

Lemma calculate_progress_step g :
  AdvancedAgent._calculate_progress g = Progress.step (AgentGoal.progress g).
Proof. reflexivity. Qed.

(** After the updates the goal exists and its progress is that of the
    start stepped once per update. *)
Lemma updates_progress results self w g :
  AdvancedAgent.current_goal self = Some g ->
  exists g' w',
    Progress.updates results (self, w)
    = (Ok tt, (AdvancedAgent.set_goal self (Some g'), w'))
    /\ AgentGoal.progress g'
       = Nat.iter (length results) Progress.step (AgentGoal.progress g)
    /\ AgentGoal.status g' = AgentGoal.status g
    /\ AgentGoal.sub_goals g' = AgentGoal.sub_goals g.
Proof.
  revert self w g. induction results as [| r results IH]; intros self w g Hg.
  - exists g, w. cbn. split_and!; [| done | done | done].
    f_equal. f_equal. rewrite <- Hg. by destruct self.
  - cbn [Progress.updates].
    unfold bind at 1, AdvancedAgent._update_goal_progress.
    unfold bind at 1, AdvancedAgent.the_goal at 1. cbn [fst snd].
    rewrite Hg. unfold AdvancedAgent.touch_goal.
    unfold bind at 1, AdvancedAgent.the_goal at 1. cbn [fst snd].
    rewrite Hg. unfold bind at 1, AdvancedAgent.now, on_snd, total.
    cbn [fst snd]. destruct (datetime_now w) as [t w1].
    unfold modify. cbn [fst snd].
    set (g1 := AgentGoal.update_progress g
                 (AdvancedAgent._calculate_progress g) t).
    destruct (IH (AdvancedAgent.set_goal self (Some g1)) w1 g1)
      as (g' & w' & Hrun & Hp & Hs & Hsub); [done |].
    exists g', w'. rewrite Hrun. split_and!; [by destruct self | | done | done].
    rewrite Hp. subst g1. cbn [AgentGoal.progress AgentGoal.update_progress].
    rewrite calculate_progress_step. cbn [length].
    by rewrite Nat.iter_succ_r.
Qed.

Lemma steps_from_zero n :
  PrimFloat.leb 1%float (Nat.iter n Progress.step 0%float)
  = (11 <=? n)%nat.
Proof.
  do 11 (destruct n as [| n]; [by vm_compute |]).
  assert (Hone : Nat.iter (11 + n) Progress.step 0%float = 1%float).
  { induction n as [| n IH]; [by vm_compute |].
    replace (11 + S n)%nat with (S (11 + n)) by lia.
    cbn [Nat.iter nat_rect]. unfold Nat.iter in IH. rewrite IH.
    by vm_compute. }
  change (S (S (S (S (S (S (S (S (S (S (S n)))))))))))
    with (11 + n)%nat at 1.
  rewrite Hone. done.
Qed.
End ProgressFacts.

(** X22. From a goal with progress 0.0, [_is_goal_completed] holds after
    a sequence of [_update_goal_progress] calls exactly when there were
    eleven or more of them: ten additions of 0.1 give 0.9999999999999999
    in binary64, below 1.0. *)
Theorem goal_completes_after_eleven_updates (W : Type) (E : Env W)
    (embedding : Type) (self : AdvancedAgent.t W embedding) (w : W)
    (g : AgentGoal.t) (results : list string) (result : string) :
  AdvancedAgent.current_goal self = Some g ->
  AgentGoal.progress g = 0%float ->
  ((Progress.updates results ;;;
    AdvancedAgent._is_goal_completed result)%py (self, w)).1
  = Ok (11 <=? length results)%nat.
Proof.
  intros Hg Hzero. unfold bind.
  destruct (updates_progress results self w g Hg)
    as (g' & w' & -> & Hp & _ & _).
  unfold AdvancedAgent._is_goal_completed, bind, AdvancedAgent.the_goal, ret.
  cbn [fst snd AdvancedAgent.current_goal AdvancedAgent.set_goal].
  by rewrite Hp, Hzero, steps_from_zero.
Qed.

(** X22 at a goal just created: not completed after ten updates,
    completed after eleven. *)
Lemma goal_completes_after_eleven_updates_witness :
  ((Progress.updates (replicate 10 "ok") ;;;
    AdvancedAgent._is_goal_completed "ok")%py
     (TestAgents.advanced_with_goal, TestWorld.start)).1 = Ok false
  /\ ((Progress.updates (replicate 11 "ok") ;;;
       AdvancedAgent._is_goal_completed "ok")%py
        (TestAgents.advanced_with_goal, TestWorld.start)).1 = Ok true.
Proof.
  split.
  - exact (goal_completes_after_eleven_updates TestWorld.t TestWorld.env
             string TestAgents.advanced_with_goal TestWorld.start
             (AgentGoal.new "report" 0 1) (replicate 10 "ok") "ok"
             eq_refl eq_refl).
  - exact (goal_completes_after_eleven_updates TestWorld.t TestWorld.env
             string TestAgents.advanced_with_goal TestWorld.start
             (AgentGoal.new "report" 0 1) (replicate 11 "ok") "ok"
             eq_refl eq_refl).
Defined.

(** [min(1.0, p + 0.1)] is at most 1.0 for every binary64 [p], the
    infinities and NaN included: Python's [min] returns its first argument
    unless the second is smaller. *)
Lemma step_at_most_one (p : float) :
  PrimFloat.leb (Progress.step p) 1%float = true.
Proof.
  unfold Progress.step.
  set (q := PrimFloat.add p 0x1.999999999999ap-4%float).
  destruct (PrimFloat.ltb q 1%float) eqn:Hlt; [| by vm_compute].
  rewrite FloatAxioms.ltb_spec in Hlt. rewrite FloatAxioms.leb_spec.
  unfold SpecFloat.SFltb in Hlt. unfold SpecFloat.SFleb.
  by destruct (SpecFloat.SFcompare _ _) as [[| |] |].
Qed.

(** X27. [_update_goal_progress] on an agent with a goal returns,
    whatever the result text and whatever the progress was before (above
    1.0, infinite or NaN included): the new progress is at most 1.0,
    [updated_at] is the clock's reading, and the goal's text, sub-goals
    and status are kept, so an update never marks a goal completed by
    itself. *)
Theorem progress_never_exceeds_one (W : Type) (E : Env W)
    (embedding : Type) (self : AdvancedAgent.t W embedding) (w : W)
    (g : AgentGoal.t) (result : string) :
  AdvancedAgent.current_goal self = Some g ->
  exists g',
    AdvancedAgent._update_goal_progress result (self, w)
    = (Ok tt,
       (AdvancedAgent.set_goal self (Some g'), (datetime_now w).2))
    /\ PrimFloat.leb (AgentGoal.progress g') 1%float = true
    /\ AgentGoal.updated_at g' = (datetime_now w).1
    /\ AgentGoal.status g' = AgentGoal.status g
    /\ AgentGoal.sub_goals g' = AgentGoal.sub_goals g
    /\ AgentGoal.main_goal g' = AgentGoal.main_goal g.
Proof.
  intros Hg.
  exists (AgentGoal.update_progress g (AdvancedAgent._calculate_progress g)
            (datetime_now w).1).
  split.
  - unfold AdvancedAgent._update_goal_progress.
    unfold bind at 1, AdvancedAgent.the_goal at 1. cbn [fst snd].
    rewrite Hg. unfold AdvancedAgent.touch_goal.
    unfold bind at 1, AdvancedAgent.the_goal at 1. cbn [fst snd].
    rewrite Hg. unfold bind at 1, AdvancedAgent.now, on_snd, total.
    cbn [fst snd]. destruct (datetime_now w) as [t w1].
    unfold modify. cbn [fst snd]. reflexivity.
  - cbn. split_and!; try done. apply step_at_most_one.
Qed.

(** X27 at the test agent with a goal just created. *)
Lemma progress_never_exceeds_one_witness :
  exists g',
    AdvancedAgent._update_goal_progress "ok"
      (TestAgents.advanced_with_goal, TestWorld.start)
    = (Ok tt,
       (AdvancedAgent.set_goal TestAgents.advanced_with_goal (Some g'),
        (datetime_now TestWorld.start).2))
    /\ PrimFloat.leb (AgentGoal.progress g') 1%float = true.
Proof.
  destruct (progress_never_exceeds_one TestWorld.t TestWorld.env string
              TestAgents.advanced_with_goal TestWorld.start
              (AgentGoal.new "report" 0 1) "ok" eq_refl)
    as (g' & Hrun & Hle & _).
  exists g'. split; [exact Hrun | exact Hle].
Defined.

(** X23. With [max_loops >= 1], [AdvancedAgent.run] raises
    [AttributeError] in its first iteration.  It leaves the goal it created,
    in progress, with the two sub-goals of [_decompose_goal]; the world has
    changed by four readings of the clock only, so neither the model nor a
    tool has been called, and the memory and the counters are as
    before. *)
Theorem advanced_run_stops_before_the_model (W : Type) (E : Env W)
    (embedding : Type) (self : AdvancedAgent.t W embedding) (w : W)
    (goal : string) :
  1 <= AdvancedAgent.max_loops self ->
  let '(t1, w1) := datetime_now w in
  let '(t2, w2) := datetime_now w1 in
  let '(t3, w3) := datetime_now w2 in
  let '(t4, w4) := datetime_now w3 in
  AdvancedAgent.run goal (self, w)
  = (Raise (AttributeError
              "'AdvancedAgent' object has no attribute '_build_action_prompt'"),
     (AdvancedAgent.set_goal self
        (Some {| AgentGoal.main_goal := goal;
                 AgentGoal.sub_goals := ["First sub-goal"; "Second sub-goal"];
                 AgentGoal.status := "in_progress";
                 AgentGoal.progress := 0%float;
                 AgentGoal.created_at := t1;
                 AgentGoal.updated_at := t4 |}), w4)).
Proof.
  intros Hmax.
  destruct (datetime_now w) as [t1 w1] eqn:H1.
  destruct (datetime_now w1) as [t2 w2] eqn:H2.
  destruct (datetime_now w2) as [t3 w3] eqn:H3.
  destruct (datetime_now w3) as [t4 w4] eqn:H4.
  unfold AdvancedAgent.run, AdvancedAgent._decompose_goal,
    AdvancedAgent.touch_goal, AdvancedAgent.the_goal, AdvancedAgent.now.
  unfold bind, on_snd, total, modify. cbn [fst snd].
  rewrite H1. cbn [fst snd]. rewrite H2.
  cbn [fst snd AdvancedAgent.current_goal AdvancedAgent.set_goal].
  rewrite H3.
  cbn [fst snd AdvancedAgent.current_goal AdvancedAgent.set_goal].
  rewrite H4.
  cbn [fst snd AdvancedAgent.current_goal AdvancedAgent.set_goal
       AdvancedAgent.max_loops].
  destruct (Z.to_nat (AdvancedAgent.max_loops self)) as [| fuel] eqn:Hn;
    [lia |].
  erewrite advanced_run_loop_raises; [reflexivity | reflexivity | done].
Qed.

(** X23 at the test agent. *)
Lemma advanced_run_stops_before_the_model_witness :
  AdvancedAgent.run "report" (TestAgents.advanced, TestWorld.start)
  = (Raise (AttributeError
              "'AdvancedAgent' object has no attribute '_build_action_prompt'"),
     (AdvancedAgent.set_goal TestAgents.advanced
        (Some {| AgentGoal.main_goal := "report";
                 AgentGoal.sub_goals := ["First sub-goal"; "Second sub-goal"];
                 AgentGoal.status := "in_progress";
                 AgentGoal.progress := 0%float;
                 AgentGoal.created_at := 0;
                 AgentGoal.updated_at := 3 |}),
      {| TestWorld.clock := 4; TestWorld.invocations := [];
         TestWorld.printed := []; TestWorld.responses := [];
         TestWorld.llm_calls := 0 |})).
Proof.
  exact (advanced_run_stops_before_the_model TestWorld.t TestWorld.env
           string TestAgents.advanced TestWorld.start "report"
           ltac:(by vm_compute)).
Defined.

(** ** Which entry of a key is ranked, and which is returned *)

Section PyDictLookup.
Context {V : Type}.
Implicit Types (d : PyDict.t V) (k : string) (v : V).

Lemma pydict_get_set k k0 v d :
  PyDict.get k (PyDict.set k0 v d)
  = if String.eqb k k0 then Some v else PyDict.get k d.
Proof.
  induction d as [| [k' v'] d IH]; cbn [PyDict.set PyDict.get].
  - by destruct (String.eqb k k0).
  - destruct (String.eqb_spec k0 k') as [-> | Hne]; cbn [PyDict.get].
    + by destruct (String.eqb k k').
    + rewrite IH. destruct (String.eqb_spec k k') as [-> | Hne'];
        [| done].
      destruct (String.eqb_spec k' k0); [congruence | done].
Qed.

Lemma pydict_get_none k d : k ∉ PyDict.keys d -> PyDict.get k d = None.
Proof.
  intros Hk. destruct (PyDict.get k d) eqn:Hg; [| done].
  destruct Hk. apply pydict_get_keys. by rewrite Hg.
Qed.

Lemma pydict_get_del k k0 d :
  NoDup (PyDict.keys d) ->
  PyDict.get k (PyDict.del k0 d)
  = if String.eqb k k0 then None else PyDict.get k d.
Proof.
  unfold PyDict.keys.
  induction d as [| [k' v'] d IH]; csimpl; intros Hnd.
  - by destruct (String.eqb k k0).
  - apply NoDup_cons in Hnd as [Hk' Hnd].
    destruct (String.eqb_spec k0 k') as [-> | Hne]; cbn [PyDict.get].
    + destruct (String.eqb_spec k k') as [-> | Hne']; [| done].
      by apply pydict_get_none.
    + rewrite IH by done. destruct (String.eqb_spec k k') as [-> | Hne'];
        [| done].
      destruct (String.eqb_spec k' k0); [congruence | done].
Qed.
End PyDictLookup.

Section Newest.
Context {embedding : Type}.
Variable encode : string -> embedding.
Implicit Types (m : AgentMemory.t embedding) (c : MemoryCalls.lt_call).

Lemma add_long_term_newest m c :
  NoDup (PyDict.keys (AgentMemory.embeddings m)) ->
  RecallSpec.embeds_newest encode m ->
  RecallSpec.embeds_newest encode (MemoryCalls.agent_add_long_term encode m c).
Proof.
  intros Hnd Hinv.
  unfold MemoryCalls.agent_add_long_term, AgentMemory.add_long_term.
  fold (MemoryCalls.lt_entry_of c).
  set (entry := MemoryCalls.lt_entry_of c).
  set (lt := AgentMemory.long_term m ++ [entry]).
  set (emb := PyDict.set (MemoryCalls.l_key c)
                (encode (MemoryCalls.l_value c)) (AgentMemory.embeddings m)).
  assert (Hnd1 : NoDup (PyDict.keys emb)) by by apply pydict_nodup_set.
  assert (Hnew : forall k v, PyDict.get k emb = Some v ->
            exists x l1 l2,
              lt = l1 ++ x :: l2
              /\ (forall y, y ∈ l2 -> AgentMemory.key y <> AgentMemory.key x)
              /\ AgentMemory.key x = k
              /\ v = encode (AgentMemory.value x)).
  { intros k v. unfold emb. rewrite pydict_get_set.
    destruct (String.eqb_spec k (MemoryCalls.l_key c)) as [-> | Hne].
    - intros [= <-]. exists entry, (AgentMemory.long_term m), [].
      split_and!; [done | by intros ? ?%elem_of_nil | done | done].
    - intros (x & (l1 & l2 & Hlt & Hl2) & Hk & Hv)%Hinv.
      exists x, l1, (l2 ++ [entry]). split_and!; [| | done | done].
      + unfold lt. by rewrite Hlt, <- app_assoc.
      + intros y [Hy | ->%list_elem_of_singleton]%elem_of_app;
          [by apply Hl2 |].
        rewrite Hk. cbn. congruence. }
  assert (Hplain : RecallSpec.embeds_newest encode
            {| AgentMemory.short_term := AgentMemory.short_term m;
               AgentMemory.long_term := lt; AgentMemory.embeddings := emb;
               AgentMemory.max_short_term := AgentMemory.max_short_term m;
               AgentMemory.max_long_term := AgentMemory.max_long_term m |}).
  { intros k v (x & l1 & l2 & H1 & H2 & H3 & H4)%Hnew.
    exists x. split; [by exists l1, l2 | done]. }
  destruct (_ >? _); [| exact Hplain].
  destruct lt as [| oldest rest] eqn:Hlt; [exact Hplain |].
  intros k v. cbn [AgentMemory.embeddings AgentMemory.long_term].
  intros Hget.
  assert (Hk : k <> AgentMemory.key oldest /\ PyDict.get k emb = Some v).
  { destruct (PyDict.mem (AgentMemory.key oldest) emb) eqn:Hm.
    - rewrite pydict_get_del in Hget by done.
      destruct (String.eqb_spec k (AgentMemory.key oldest)); done.
    - split; [| done]. intros ->.
      assert (PyDict.mem (AgentMemory.key oldest) emb = true); [| congruence].
      apply pydict_mem_keys, pydict_get_keys. by rewrite Hget. }
  destruct Hk as [Hne Hget'].
  destruct (Hnew k v Hget') as (x & l1 & l2 & H1 & H2 & H3 & H4).
  exists x. split; [| done].
  destruct l1 as [| o l1]; cbn in H1.
  - injection H1 as <- _. congruence.
  - injection H1 as _ ->. by exists l1, l2.
Qed.

Lemma add_long_terms_newest max_st max_lt calls :
  RecallSpec.embeds_newest encode
    (MemoryCalls.agent_add_long_terms encode
       (MemoryCalls.agent_empty max_st max_lt) calls).
Proof.
  induction calls as [| c calls IH] using rev_ind; [by intros k v |].
  unfold MemoryCalls.agent_add_long_terms in *. rewrite foldl_app.
  cbn [foldl]. apply add_long_term_newest; [| done].
  apply (add_long_terms_live encode), empty_live.
Qed.
End Newest.

Section Permuted.
Context {A K : Type}.
Variable lt : K -> K -> bool.
Variable key : A -> K.

Lemma insert_desc_perm x (s : list A) :
  PyList.insert_desc lt key x s ≡ₚ x :: s.
Proof.
  induction s as [| y s IH]; simpl; [done |].
  destruct (lt (key x) (key y)); [| done].
  rewrite IH. apply Permutation_swap.
Qed.

Lemma sorted_reverse_perm (l : list A) : PyList.sorted_reverse lt key l ≡ₚ l.
Proof.
  induction l as [| x l IH]; simpl; [done |].
  by rewrite insert_desc_perm, IH.
Qed.
End Permuted.

Lemma find_first {A : Type} (f : A -> bool) (l : list A) (x : A) :
  List.find f l = Some x ->
  exists l1 l2, l = l1 ++ x :: l2 /\ forall y, y ∈ l1 -> f y = false.
Proof.
  induction l as [| z l IH]; cbn [find]; [done |].
  destruct (f z) eqn:Hz.
  - intros [= ->]. exists [], l. split; [done | by intros ? ?%elem_of_nil].
  - intros (l1 & l2 & -> & Hl1)%IH. exists (z :: l1), l2.
    split; [done |]. by intros y [-> | Hy]%elem_of_cons; [| apply Hl1].
Qed.

(** X24. After any sequence of [add_long_term] calls,
    [get_relevant_memory] returns no two entries with one key, and for
    [top_k >= 0] as many entries as [top_k] and the number of embeddings
    allow.  Each entry returned is the oldest live entry under its key,
    while the similarity that ranks it is computed from the value of the
    newest live entry under that key. *)
Theorem relevance_ranks_newest_returns_oldest (embedding score : Type)
    (encode : string -> embedding)
    (cosine_similarity : embedding -> embedding -> score)
    (score_lt : score -> score -> bool)
    (max_st max_lt : Z) (calls : list MemoryCalls.lt_call)
    (query : string) (top_k : Z) :
  let m := MemoryCalls.agent_add_long_terms encode
             (MemoryCalls.agent_empty max_st max_lt) calls in
  exists res,
    AgentMemory.get_relevant_memory encode cosine_similarity score_lt
      m query top_k = Ok res
    /\ NoDup (AgentMemory.key <$> res)
    /\ (0 <= top_k ->
        length res
        = Nat.min (Z.to_nat top_k) (length (AgentMemory.embeddings m)))
    /\ forall e,
         e ∈ res ->
         RecallSpec.oldest m e
         /\ exists x,
              RecallSpec.newest m x
              /\ AgentMemory.key x = AgentMemory.key e
              /\ AgentMemory.similarity_of encode cosine_similarity m query
                   (AgentMemory.key e)
                 = Some (cosine_similarity (encode query)
                           (encode (AgentMemory.value x))).
Proof.
  intros m.
  assert (Hl : LongTermSpec.embeddings_live m)
    by apply add_long_terms_live, empty_live.
  assert (Hnewest : RecallSpec.embeds_newest encode m)
    by apply add_long_terms_newest.
  destruct Hl as [Hnd Hlive].
  unfold AgentMemory.get_relevant_memory.
  rewrite (pydict_fold_set (cosine_similarity (encode query))) by
    (done || by intros k ?%elem_of_nil).
  rewrite app_nil_l.
  set (sims := (fun '(k, e) => (k, cosine_similarity (encode query) e))
                 <$> AgentMemory.embeddings m).
  set (sorted := PyList.sorted_reverse score_lt snd sims).
  assert (Hkeys : sims.*1 = PyDict.keys (AgentMemory.embeddings m)).
  { unfold sims, PyDict.keys. rewrite <- list_fmap_compose.
    apply list_fmap_ext. by intros _ [k e] _. }
  destruct (slice_to_take top_k sorted) as [n Hn].
  assert (Hranked : forall p, p ∈ PyList.slice_to top_k sorted -> p ∈ sims).
  { intros p Hp. rewrite Hn in Hp.
    apply (sorted_reverse_elem score_lt snd).
    by apply (subseteq_take n sorted). }
  assert (Hin : forall k s, (k, s) ∈ sims ->
            k ∈ PyDict.keys (AgentMemory.embeddings m)).
  { intros k s Hks. rewrite <- Hkeys. apply list_elem_of_fmap.
    by exists (k, s). }
  destruct (mapM_ok (fun '(k, _) => AgentMemory.first_with_key m k)
              (PyList.slice_to top_k sorted)) as (res & Hres & Hall).
  { intros [k s] Hp%Hranked. apply first_with_key_live, Hlive.
    by eapply Hin. }
  exists res. split; [done |].
  assert (Hreskeys : AgentMemory.key <$> res
                     = (PyList.slice_to top_k sorted).*1).
  { clear -Hall. induction Hall as [| [k s] e l r Hf Hall IH]; [done |].
    csimpl. apply first_with_key_ok in Hf as [_ ->]. by rewrite IH. }
  split_and!.
  - rewrite Hreskeys, Hn, fmap_take.
    eapply sublist_NoDup; [| apply sublist_take].
    unfold sorted. rewrite (sorted_reverse_perm score_lt snd sims).
    by rewrite Hkeys.
  - intros Hk. rewrite <- (Forall2_length _ _ _ Hall).
    unfold PyList.slice_to. destruct (Z.ltb_spec top_k 0); [lia |].
    rewrite length_take. unfold sorted.
    rewrite (sorted_reverse_length score_lt snd). unfold sims.
    by rewrite length_fmap.
  - intros e He.
    apply list_elem_of_lookup in He as [i Hi].
    destruct (Forall2_lookup_r _ _ _ _ _ Hall Hi) as ([k s] & Hp & Hf).
    pose proof (first_with_key_ok _ _ _ Hf) as [_ Hkey].
    split.
    + unfold AgentMemory.first_with_key in Hf.
      destruct (find _ (AgentMemory.long_term m)) as [x |] eqn:Hfind;
        [| done].
      injection Hf as ->.
      apply find_first in Hfind as (l1 & l2 & Hsplit & Hl1).
      exists l1, l2. split; [done |]. intros y Hy Heq.
      specialize (Hl1 y Hy). cbn in Hl1. apply String.eqb_neq in Hl1.
      congruence.
    + assert (Hks : (k, s) ∈ sims)
        by (apply Hranked; by eapply list_elem_of_lookup_2).
      pose proof (Hin k s Hks) as Hkin.
      apply pydict_get_keys in Hkin as [v Hv].
      destruct (Hnewest k v Hv) as (x & Hx & Hxk & ->).
      exists x. split_and!; [done | congruence |].
      unfold AgentMemory.similarity_of. rewrite Hkey. by rewrite Hv.
Qed.

(** Two values under one key: the ranking uses the embedding of the newer
    value, the entry handed back is the older one. *)
Example relevance_of_a_key_stored_twice :
  AgentMemory.get_relevant_memory RelevanceSpec.text_encode
    RelevanceSpec.text_similarity Z.ltb
    (MemoryCalls.agent_add_long_terms RelevanceSpec.text_encode
       (MemoryCalls.agent_empty 20 1000) LongTermSpec.same_key_twice)
    "Lyon" 5
  = Ok [ {| AgentMemory.key := "capital"; AgentMemory.value := "Paris";
            AgentMemory.lt_timestamp := 1; AgentMemory.lt_metadata := ∅ |} ].
Proof. vm_compute. reflexivity. Qed.
(** ** The response of the search API *)

(** X25. For a response without the sections answer_box, sports_results
    and knowledge_graph, [_process_response] returns only when the response
    has no error key and its organic_results is a list that begins with a
    dict: the value returned is that dict's snippet or, when it has none,
    the text that no good result was found.  Without organic results the
    function raises instead of returning that text. *)
Theorem organic_results_needed (py_str : json -> string)
    (res : PyDict.t json) (v : json) :
  PyDict.get "answer_box" res = None ->
  PyDict.get "sports_results" res = None ->
  PyDict.get "knowledge_graph" res = None ->
  SerpAPI._process_response py_str res = Ok v ->
  PyDict.get "error" res = None
  /\ exists d rest,
       PyDict.get "organic_results" res = Some (JList (JDict d :: rest))
       /\ v = default (JStr "No good search result found")
                (PyDict.get "snippet" d).
Proof.
  intros Hbox Hsports Hgraph. unfold SerpAPI._process_response.
  destruct (PyDict.get "error" res) as [error |]; [done |].
  cbn [SerpAPI.pick]. unfold SerpAPI.nested.
  rewrite Hbox, Hsports, Hgraph. unfold SerpAPI.organic.
  destruct (PyDict.get "organic_results" res) as [results |]; [| done].
  intros Hv. split; [done |].
  destruct results as [| | | | s | [| first rest] | d]; try done.
  - by destruct s.
  - cbn [Json.first] in Hv.
    destruct first as [| | | | | | d]; try done.
    exists d, rest. split; [done |].
    destruct (PyDict.get "snippet" d); by injection Hv as <-.
Qed.

(** X25 at a response with one organic result that has no snippet. *)
Lemma organic_results_needed_witness :
  let res :=
    [("search_metadata", JDict [("status", JStr "Success")]);
     ("organic_results", JList [JDict [("title", JStr "Rocq")]])] in
  SerpAPI._process_response (fun _ => "") res
  = Ok (JStr "No good search result found")
  /\ PyDict.get "error" res = None
  /\ exists d rest,
       PyDict.get "organic_results" res = Some (JList (JDict d :: rest))
       /\ JStr "No good search result found"
          = default (JStr "No good search result found")
              (PyDict.get "snippet" d).
Proof.
  split; [reflexivity |].
  exact (organic_results_needed (fun _ => "")
           [("search_metadata", JDict [("status", JStr "Success")]);
            ("organic_results", JList [JDict [("title", JStr "Rocq")]])]
           (JStr "No good search result found")
           eq_refl eq_refl eq_refl eq_refl).
Defined.
